(** * RoadPrompt: the interactive prompt engine of [roadprompt/prompt.py]

    A shallow embedding of the validators and of the prompt operations
    ([text], [confirm], [select], [multi_select], [autocomplete]) together
    with the properties the specification states about them.

    Conventions of the embedding.
    - A Python [str] is a [string]; a character stands for one code point
      below 256.  The cross mark of the diagnostics is the only character
      of the source outside that range; it occurs in written literals only
      and is kept as the fixed text [cross].
    - A Python [int] is a [Z], a [float] is a [spec_float] (IEEE 754
      binary64 data, with the comparisons of [SpecFloat]).
    - The interpreter's builtins the module calls ([int], [float], the
      formatting of a float, [re.compile], [Pattern.match]) form the
      interface [PyBuiltins]; the module is embedded over any
      implementation of it, and [ref_builtins] is an executable one.
    - Input and output are explicit: an [io] computation takes the streams
      still to be read and returns an outcome, the streams left and the
      events (writes and reads) it performed, in order.
    - [while True] is [while_true]: a loop body returns [Some v] to return
      [v] from the function and [None] to go round again; the number of
      iterations a run may use is bounded by an explicit budget, and a
      run that exhausts it is [Pending].
    - [example_usage] only calls the engine in sequence and is not part
      of the embedding. *)

From Stdlib Require Import ZArith List String Ascii Bool Lia DecimalString.
From Stdlib Require Import Floats.SpecFloat.
Import ListNotations.

Open Scope string_scope.
Open Scope Z_scope.

(** ** Strings *)

Definition nl : string := String "010"%char "".
Definition tab : string := String "009"%char "".
Definition cross : string := "✗".

(** Truthiness of a [str]: [not value] holds for the empty string only. *)
Definition truthy (s : string) : bool :=
  match s with
  | EmptyString => false
  | String _ _ => true
  end.

Definition len_str (s : string) : Z := Z.of_nat (String.length s).

Definition len {A : Type} (l : list A) : Z := Z.of_nat (List.length l).

(** [str(n)] and the rendering of an [int] inside an f-string. *)
Definition str_of_int (n : Z) : string := NilZero.string_of_int (Z.to_int n).

Definition mem_char (c : ascii) (chars : string) : bool :=
  existsb (Ascii.eqb c) (list_ascii_of_string chars).

Fixpoint lstrip_by (p : ascii -> bool) (s : string) : string :=
  match s with
  | EmptyString => EmptyString
  | String c s' => if p c then lstrip_by p s' else s
  end.

Fixpoint rstrip_by (p : ascii -> bool) (s : string) : string :=
  match s with
  | EmptyString => EmptyString
  | String c s' =>
      match rstrip_by p s' with
      | EmptyString => if p c then EmptyString else String c EmptyString
      | r => String c r
      end
  end.

(** [s.rstrip(chars)]. *)
Definition rstrip (chars s : string) : string :=
  rstrip_by (fun c => mem_char c chars) s.

(** [str.isspace] on one character: the white space below code point 256. *)
Definition is_space (c : ascii) : bool :=
  let n := nat_of_ascii c in
  ((9 <=? n) && (n <=? 13))%nat || ((28 <=? n) && (n <=? 32))%nat
  || (n =? 133)%nat || (n =? 160)%nat.

(** [s.strip()]. *)
Definition strip (s : string) : string := rstrip_by is_space (lstrip_by is_space s).

(** [str.lower] on one character: the upper-case letters below code point
    256 are [A]-[Z] and [0xC0]-[0xDE] without the multiplication sign. *)
Definition lower_char (c : ascii) : ascii :=
  let n := nat_of_ascii c in
  if ((65 <=? n) && (n <=? 90))%nat
     || ((192 <=? n) && (n <=? 222) && negb (n =? 215))%nat
  then ascii_of_nat (n + 32) else c.

Fixpoint lower (s : string) : string :=
  match s with
  | EmptyString => EmptyString
  | String c s' => String (lower_char c) (lower s')
  end.

Definition startswith (s pre : string) : bool := String.prefix pre s.

Fixpoint endswith (s suf : string) : bool :=
  String.eqb s suf ||
  match s with
  | EmptyString => false
  | String _ s' => endswith s' suf
  end.

(** [s.split(sep)] for a one-character separator: never an empty list. *)
Fixpoint split (sep : ascii) (s : string) : list string :=
  match s with
  | EmptyString => [EmptyString]
  | String c s' =>
      if Ascii.eqb c sep then EmptyString :: split sep s'
      else match split sep s' with
           | [] => [String c EmptyString]
           | tok :: toks => String c tok :: toks
           end
  end.

(** [sep.join(items)]. *)
Definition join (sep : string) (items : list string) : string :=
  String.concat sep items.

(** [value in (a, b, ...)] on strings. *)
Definition in_tuple (s : string) (items : list string) : bool :=
  existsb (String.eqb s) items.

(** ** Data model *)

Record Choice (V : Type) : Type := mkChoice {
  value : V;
  label : string;
  disabled : bool;
  hint : string
}.
Arguments mkChoice {V}.
Arguments value {V}.
Arguments label {V}.
Arguments disabled {V}.
Arguments hint {V}.

Record ValidationResult : Type := mkValidationResult {
  valid : bool;
  message : string
}.

(** [ValidationResult(True)]: the message defaults to the empty string. *)
Definition passed : ValidationResult := mkValidationResult true "".

(** ** The builtins the module relies on *)

Definition float : Type := spec_float.

Class PyBuiltins : Type := {
  (** [int(s)]; [None] stands for the [ValueError] it raises. *)
  int_of_str : string -> option Z;
  (** [float(s)]; [None] stands for the [ValueError] it raises. *)
  float_of_str : string -> option float;
  (** The text of a float inside an f-string. *)
  str_of_float : float -> string;
  (** [re.Pattern], [re.compile] ([None]: [re.error] is raised) and
      [Pattern.match]: the end of the match found at position 0. *)
  pattern_obj : Type;
  re_compile : string -> option pattern_obj;
  re_match : pattern_obj -> string -> option nat
}.

(** ** Input, output and control *)

(** What a [Prompt] reads from: the lines [stream_in.readline()] still has
    to deliver (each as [readline] returns it, terminator included), and
    the lines the terminal delivers to [getpass.getpass]. *)
Record world : Type := mkWorld {
  stream_in : list string;
  tty : list string
}.

Inductive event : Type :=
| EvWrite (text : string)     (* stream_out.write(text); stream_out.flush() *)
| EvRead (line : string)      (* stream_in.readline() returned line *)
| EvGetpass (line : string).  (* getpass.getpass returned line *)

Inductive exn : Type :=
| IndexError
| EOFError
| ReError.

Inductive outcome (A : Type) : Type :=
| Return (a : A)
| Raise (e : exn)
| Pending.
Arguments Return {A}.
Arguments Raise {A}.
Arguments Pending {A}.

Definition io (A : Type) : Type := world -> outcome A * world * list event.

Definition ret {A : Type} (a : A) : io A := fun w => (Return a, w, []).

Definition raise {A : Type} (e : exn) : io A := fun w => (Raise e, w, []).

Definition bind {A B : Type} (m : io A) (k : A -> io B) : io B :=
  fun w =>
    match m w with
    | (Return a, w', t) =>
        match k a w' with
        | (r, w'', t') => (r, w'', (t ++ t')%list)
        end
    | (Raise e, w', t) => (Raise e, w', t)
    | (Pending, w', t) => (Pending, w', t)
    end.

Declare Scope io_scope.
Delimit Scope io_scope with io.
Notation "x <- m ;; k" := (bind m (fun x => k))
  (at level 100, m at next level, right associativity) : io_scope.
Notation "m ;; k" := (bind m (fun _ => k))
  (at level 100, right associativity) : io_scope.
Open Scope io_scope.

(** [while True: body]. *)
Fixpoint while_true {A : Type} (fuel : nat) (body : io (option A)) : io A :=
  match fuel with
  | O => fun w => (Pending, w, [])
  | S fuel' =>
      r <- body ;;
      match r with
      | Some a => ret a
      | None => while_true fuel' body
      end
  end.

(** [for x in items: body(x)]. *)
Fixpoint for_each {A : Type} (items : list A) (body : A -> io unit) : io unit :=
  match items with
  | [] => ret tt
  | x :: rest => body x ;; for_each rest body
  end.

(** [enumerate(items)]. *)
Fixpoint enumerate_from {A : Type} (i : Z) (items : list A) : list (Z * A) :=
  match items with
  | [] => []
  | x :: rest => (i, x) :: enumerate_from (i + 1) rest
  end.

Definition enumerate {A : Type} (items : list A) : list (Z * A) :=
  enumerate_from 0 items.

(** [items[i]]: a negative index counts from the end, an index outside
    [-len(items), len(items))] raises [IndexError]. *)
Definition getitem {A : Type} (items : list A) (i : Z) : io A :=
  let j := if i <? 0 then i + len items else i in
  if j <? 0 then raise IndexError
  else match nth_error items (Z.to_nat j) with
       | Some x => ret x
       | None => raise IndexError
       end.

(** [stream_in.readline()]: at the end of the input it returns the empty
    string, and keeps doing so. *)
Definition readline : io string :=
  fun w =>
    match stream_in w with
    | [] => (Return "", w, [EvRead ""])
    | line :: rest => (Return line, mkWorld rest (tty w), [EvRead line])
    end.

(** [getpass.getpass("")]: the empty prompt writes nothing; at the end of
    the input it raises [EOFError]. *)
Definition getpass : io string :=
  fun w =>
    match tty w with
    | [] => (Raise EOFError, w, [])
    | line :: rest => (Return line, mkWorld (stream_in w) rest, [EvGetpass line])
    end.

(** ** class Validator *)

Definition validator : Type := string -> io ValidationResult.

Module Validator.
Section WithBuiltins.
Context {builtins : PyBuiltins}.

Definition required : validator := fun value =>
  if negb (truthy value) || negb (truthy (strip value))
  then ret (mkValidationResult false "This field is required")
  else ret passed.

Definition min_length (length : Z) : validator := fun value =>
  if len_str value <? length
  then ret (mkValidationResult false ("Minimum length is " ++ str_of_int length))
  else ret passed.

Definition max_length (length : Z) : validator := fun value =>
  if len_str value >? length
  then ret (mkValidationResult false ("Maximum length is " ++ str_of_int length))
  else ret passed.

Definition pattern (regex : string) (message : string) : io validator :=
  match re_compile regex with
  | None => raise ReError
  | Some compiled =>
      ret (fun value =>
             match re_match compiled value with
             | None => ret (mkValidationResult false message)
             | Some _ => ret passed
             end)
  end.

Definition email_regex : string :=
  "^[a-zA-Z0-9._%+-]+@[a-zA-Z0-9.-]+\.[a-zA-Z]{2,}$".

Definition email : io validator := pattern email_regex "Invalid email address".

(** The text of an optional bound inside an f-string. *)
Definition str_of_bound (bound : option float) : string :=
  match bound with
  | Some x => str_of_float x
  | None => "None"
  end.

(** [min_val is not None and num < min_val]. *)
Definition below (num : float) (min_val : option float) : bool :=
  match min_val with
  | Some lo => SFltb num lo
  | None => false
  end.

(** [max_val is not None and num > max_val]. *)
Definition above (num : float) (max_val : option float) : bool :=
  match max_val with
  | Some hi => SFltb hi num
  | None => false
  end.

Definition number (min_val max_val : option float) : validator := fun value =>
  match float_of_str value with
  | Some num =>
      if below num min_val
      then ret (mkValidationResult false ("Minimum value is " ++ str_of_bound min_val))
      else if above num max_val
      then ret (mkValidationResult false ("Maximum value is " ++ str_of_bound max_val))
      else ret passed
  | None => ret (mkValidationResult false "Must be a number")
  end.

End WithBuiltins.
End Validator.

(** ** class Prompt *)

Module Prompt.
Section WithBuiltins.
Context {builtins : PyBuiltins}.

Definition _write (text : string) : io unit :=
  fun w => (Return tt, w, [EvWrite text]).

Definition _read : io string :=
  line <- readline ;;
  ret (rstrip nl line).

(** [validators or []]. *)
Definition or_empty {A : Type} (items : option (list A)) : list A :=
  match items with
  | Some l => l
  | None => []
  end.

(** The validator loop shared by [text] and [autocomplete]: the value of
    [valid] when the [for] statement is left. *)
Fixpoint run_validators (validators : list validator) (value : string) : io bool :=
  match validators with
  | [] => ret true
  | validator :: rest =>
      result <- validator value ;;
      if negb (valid result)
      then _write ("  " ++ cross ++ " " ++ message result ++ nl) ;; ret false
      else run_validators rest value
  end.

(** One pass through the body of the [while True] of [text]. *)
Definition text_attempt (message default : string) (validators : list validator)
    (password : bool) : io (option string) :=
  let prompt := message in
  let prompt := if truthy default then prompt ++ " [" ++ default ++ "]" else prompt in
  let prompt := prompt ++ ": " in
  _write prompt ;;
  value <- (if password then getpass else _read) ;;
  let value := if negb (truthy value) && truthy default then default else value in
  valid <- run_validators validators value ;;
  if valid then ret (Some value) else ret None.

Definition text (message default : string) (validators : option (list validator))
    (password : bool) (fuel : nat) : io string :=
  let validators := or_empty validators in
  while_true fuel (text_attempt message default validators password).

Definition confirm (message : string) (default : bool) : io bool :=
  let hint := if default then "[Y/n]" else "[y/N]" in
  _write (message ++ " " ++ hint ++ ": ") ;;
  line <- _read ;;
  let value := lower line in
  if negb (truthy value) then ret default
  else ret (in_tuple value ["y"; "yes"; "true"; "1"]).

(** One pass through the body of the [while True] of [select].  The line
    read is [answer] here: [value] names the field of a choice. *)
Definition select_attempt {V : Type} (choices : list (Choice V)) (default : Z)
    : io (option V) :=
  _write ("Enter choice [1-" ++ str_of_int (len choices) ++ "]: ") ;;
  answer <- _read ;;
  if negb (truthy answer) then
    choice <- getitem choices default ;;
    ret (Some (value choice))
  else
    match int_of_str answer with
    | Some n =>
        let idx := n - 1 in
        if (0 <=? idx) && (idx <? len choices) then
          choice <- getitem choices idx ;;
          if disabled choice then
            _write ("  " ++ cross ++ " This option is disabled" ++ nl) ;;
            ret None
          else ret (Some (value choice))
        else
          _write ("  " ++ cross ++ " Invalid selection" ++ nl) ;;
          ret None
    | None =>
        _write ("  " ++ cross ++ " Invalid selection" ++ nl) ;;
        ret None
    end.

Definition select {V : Type} (message : string) (choices : list (Choice V))
    (default : Z) (fuel : nat) : io V :=
  _write (message ++ nl) ;;
  for_each (enumerate choices) (fun '(i, choice) =>
    let marker := if i =? default then ">" else " " in
    let disabled := if disabled choice then " (disabled)" else "" in
    let hint := if truthy (hint choice) then " - " ++ hint choice else "" in
    _write ("  " ++ marker ++ " " ++ str_of_int (i + 1) ++ ". " ++ label choice
            ++ disabled ++ hint ++ nl)) ;;
  while_true fuel (select_attempt choices default).

(** [[f(x) for x in items]] where [f] may raise: the first failure aborts
    the whole comprehension. *)
Fixpoint comprehension {A B : Type} (f : A -> option B) (items : list A)
    : option (list B) :=
  match items with
  | [] => Some []
  | x :: rest =>
      match f x with
      | Some y =>
          match comprehension f rest with
          | Some ys => Some (y :: ys)
          | None => None
          end
      | None => None
      end
  end.

(** [[int(x.strip()) - 1 for x in value.split(",")]]. *)
Definition parse_indices (answer : string) : option (list Z) :=
  comprehension (fun x => option_map (fun n => n - 1) (int_of_str (strip x)))
                (split "," answer).

(** The [for idx in indices] loop of [multi_select]: the final [selected]. *)
Fixpoint collect {V : Type} (choices : list (Choice V)) (indices : list Z) : list V :=
  match indices with
  | [] => []
  | idx :: rest =>
      if (0 <=? idx) && (idx <? len choices) then
        match nth_error choices (Z.to_nat idx) with
        | Some choice =>
            if negb (disabled choice) then value choice :: collect choices rest
            else collect choices rest
        | None => collect choices rest
        end
      else collect choices rest
  end.

(** Truthiness of an optional [int]: [None] and [0] are false. *)
Definition truthy_int (n : option Z) : bool :=
  match n with
  | Some k => negb (k =? 0)
  | None => false
  end.

(** [len(selected) > max_select], evaluated only where [max_select] is an
    [int]. *)
Definition exceeds (count : Z) (max_select : option Z) : bool :=
  match max_select with
  | Some k => count >? k
  | None => false
  end.

Definition str_of_opt_int (n : option Z) : string :=
  match n with
  | Some k => str_of_int k
  | None => "None"
  end.

(** One pass through the body of the [while True] of [multi_select].  The
    line read is [answer] here: [value] names the field of a choice. *)
Definition multi_select_attempt {V : Type} (choices : list (Choice V))
    (min_select : Z) (max_select : option Z) : io (option (list V)) :=
  _write "Enter choices: " ;;
  answer <- _read ;;
  if negb (truthy answer) then
    if min_select =? 0 then ret (Some [])
    else
      _write ("  " ++ cross ++ " Select at least " ++ str_of_int min_select
              ++ " options" ++ nl) ;;
      ret None
  else
    match parse_indices answer with
    | Some indices =>
        let selected := collect choices indices in
        if len selected <? min_select then
          _write ("  " ++ cross ++ " Select at least " ++ str_of_int min_select
                  ++ " options" ++ nl) ;;
          ret None
        else if truthy_int max_select && exceeds (len selected) max_select then
          _write ("  " ++ cross ++ " Select at most " ++ str_of_opt_int max_select
                  ++ " options" ++ nl) ;;
          ret None
        else ret (Some selected)
    | None =>
        _write ("  " ++ cross ++ " Invalid input" ++ nl) ;;
        ret None
    end.

Definition multi_select {V : Type} (message : string) (choices : list (Choice V))
    (min_select : Z) (max_select : option Z) (fuel : nat) : io (list V) :=
  _write (message ++ " (comma-separated numbers)" ++ nl) ;;
  for_each (enumerate choices) (fun '(i, choice) =>
    let disabled := if disabled choice then " (disabled)" else "" in
    _write ("  " ++ str_of_int (i + 1) ++ ". " ++ label choice ++ disabled ++ nl)) ;;
  while_true fuel (multi_select_attempt choices min_select max_select).

(** One pass through the body of the [while True] of [autocomplete]. *)
Definition autocomplete_attempt (message : string) (suggestions : list string)
    (validators : list validator) : io (option string) :=
  _write (message ++ " (tab for suggestions): ") ;;
  value <- _read ;;
  if endswith value tab then
    let prefix := rstrip tab value in
    let matches := filter (fun s => startswith s prefix) suggestions in
    match matches with
    | _ :: _ =>
        _write ("  Suggestions: " ++ join ", " (firstn 5 matches) ++ nl) ;;
        ret None
    | [] => ret None
    end
  else
    valid <- run_validators validators value ;;
    if valid then ret (Some value) else ret None.

Definition autocomplete (message : string) (suggestions : list string)
    (validators : option (list validator)) (fuel : nat) : io string :=
  let validators := or_empty validators in
  while_true fuel (autocomplete_attempt message suggestions validators).

End WithBuiltins.
End Prompt.

(** ** class Wizard *)

(** A [dict] with string keys, in insertion order: assigning to a key
    that is present replaces its value in place, assigning to a new key
    appends it. *)
Definition dict (V : Type) : Type := list (string * V).

Fixpoint dict_set {V : Type} (key : string) (v : V) (d : dict V) : dict V :=
  match d with
  | [] => [(key, v)]
  | (k, old) :: rest =>
      if String.eqb k key then (k, v) :: rest else (k, old) :: dict_set key v rest
  end.

Fixpoint dict_get {V : Type} (key : string) (d : dict V) : option V :=
  match d with
  | [] => None
  | (k, v) :: rest => if String.eqb k key then Some v else dict_get key rest
  end.

(** [print(text)]: the text and then the newline are written to
    [sys.stdout], the stream the wizard's own [Prompt()] writes to. *)
Definition py_print (text : string) : io unit :=
  fun w => (Return tt, w, [EvWrite text; EvWrite nl]).

(** [print()]. *)
Definition py_print_blank : io unit :=
  fun w => (Return tt, w, [EvWrite nl]).

(** ['=' * 40]. *)
Definition rule : string := "========================================".

(** A step function [fn(prompt, results)]: it may prompt, it is handed the
    mapping itself, and it returns a value; the second component is the
    mapping as the call leaves it. *)
Definition step (V : Type) : Type := dict V -> io (V * dict V).

Module Wizard.

Record t (V : Type) : Type := mk {
  title : string;
  steps : list (string * step V);
  results : dict V
}.
Arguments mk {V}.
Arguments title {V}.
Arguments steps {V}.
Arguments results {V}.

(** [__init__(title)]. *)
Definition init {V : Type} (title : string) : t V := mk title [] [].

(** [add_step] appends the step and returns the wizard itself. *)
Definition add_step {V : Type} (self : t V) (name : string) (fn : step V) : t V :=
  mk (title self) (steps self ++ [(name, fn)])%list (results self).

(** The [for] loop of [run] over what is left of [enumerate(self.steps)],
    with [total = len(self.steps)] and the mapping so far. *)
Fixpoint run_steps {V : Type} (total : Z) (items : list (Z * (string * step V)))
    (results : dict V) : io (dict V) :=
  match items with
  | [] => ret results
  | (i, (name, fn)) :: rest =>
      py_print ("Step " ++ str_of_int (i + 1) ++ "/" ++ str_of_int total
                ++ ": " ++ name) ;;
      r <- fn results ;;
      let results := dict_set name (fst r) (snd r) in
      py_print_blank ;;
      run_steps total rest results
  end.

(** [run]: the wizard as the call leaves it; what Python returns is its
    [results]. *)
Definition run {V : Type} (self : t V) : io (t V) :=
  py_print (nl ++ rule) ;;
  py_print ("  " ++ title self) ;;
  py_print (rule ++ nl) ;;
  results <- run_steps (len (steps self)) (enumerate (steps self)) (results self) ;;
  py_print rule ;;
  py_print "  Setup complete!" ;;
  py_print (rule ++ nl) ;;
  ret (mk (title self) (steps self) results).

End Wizard.

(** ** A reference implementation of the builtins

    An executable [PyBuiltins], used to run the engine on concrete inputs.
    [int] and [float] follow the grammar of the language reference on
    strings of code points below 256 (the limit on the number of digits of
    an [int] literal is left out); the text of a float is the
    interpreter's on the special values and on the integral values below
    [10^16]; regular expressions cover the fragment described at
    [Regex.parse]. *)

Module Ref.

Definition digit_of (c : ascii) : option Z :=
  let n := nat_of_ascii c in
  if ((48 <=? n) && (n <=? 57))%nat then Some (Z.of_nat n - 48) else None.

(** [digitpart ::= digit (["_"] digit)*]: its value and its number of
    digits. *)
Fixpoint digitpart_from (acc count : Z) (after_digit : bool) (s : string)
    : option (Z * Z) :=
  match s with
  | EmptyString => if after_digit then Some (acc, count) else None
  | String c s' =>
      match digit_of c with
      | Some d => digitpart_from (10 * acc + d) (count + 1) true s'
      | None =>
          if Ascii.eqb c "_" && after_digit then digitpart_from acc count false s'
          else None
      end
  end.

Definition digitpart (s : string) : option (Z * Z) := digitpart_from 0 0 false s.

(** The white space [int] and [float] skip around a number: that of
    [str.isspace] below code point 256 without the four separators
    [0x1c]-[0x1f], which they refuse. *)
Definition is_blank (c : ascii) : bool :=
  let n := nat_of_ascii c in
  ((9 <=? n) && (n <=? 13))%nat || (n =? 32)%nat || (n =? 133)%nat || (n =? 160)%nat.

Definition trim (s : string) : string := rstrip_by is_blank (lstrip_by is_blank s).

(** [int(s)] in base 10: white space around, an optional sign, a
    [digitpart]. *)
Definition int_of_str (s : string) : option Z :=
  match trim s with
  | String "-" r => option_map (fun p => - fst p) (digitpart r)
  | String "+" r => option_map fst (digitpart r)
  | r => option_map fst (digitpart r)
  end.

(** The longest prefix made of digits and underscores, and what follows. *)
Fixpoint span_digits (s : string) : string * string :=
  match s with
  | EmptyString => (EmptyString, EmptyString)
  | String c s' =>
      if match digit_of c with Some _ => true | None => Ascii.eqb c "_" end
      then let '(run, rest) := span_digits s' in (String c run, rest)
      else (EmptyString, s)
  end.

(** A possibly empty [digitpart]. *)
Definition digitpart_opt (s : string) : option (Z * Z) :=
  match s with
  | EmptyString => Some (0, 0)
  | _ => digitpart s
  end.

(** The binary64 value nearest to [m * 10^e], ties to even. *)
Definition float_of_decimal (negative : bool) (m e : Z) : float :=
  match m with
  | Z.pos _ =>
      if 0 <=? e then
        match m * 10 ^ e with
        | Z.pos p => binary_round 53 1024 negative p 0
        | _ => S754_nan
        end
      else
        let '(q, e', l) := SFdiv_core_binary 53 1024 m 0 (10 ^ (- e)) 0 in
        binary_round_aux 53 1024 negative q e' l
  | _ => S754_zero negative
  end.

(** [exponent ::= ("e" | "E") [sign] digitpart], or nothing. *)
Definition exponent (s : string) : option Z :=
  match s with
  | EmptyString => Some 0
  | String c r =>
      if Ascii.eqb c "e" || Ascii.eqb c "E" then
        match r with
        | String "-" d => option_map (fun p => - fst p) (digitpart d)
        | String "+" d => option_map fst (digitpart d)
        | d => option_map fst (digitpart d)
        end
      else None
  end.

(** [floatnumber ::= number [exponent]] with
    [number ::= [digitpart] "." digitpart | digitpart ["."]]. *)
Definition floatnumber (negative : bool) (s : string) : option float :=
  let '(ipart, r1) := span_digits s in
  let '(fpart, r2) :=
    match r1 with
    | String "." r => span_digits r
    | _ => (EmptyString, r1)
    end in
  if negb (truthy ipart) && negb (truthy fpart) then None
  else
    match digitpart_opt ipart, digitpart_opt fpart, exponent r2 with
    | Some (i, _), Some (f, nf), Some e =>
        Some (float_of_decimal negative (i * 10 ^ nf + f) (e - nf))
    | _, _, _ => None
    end.

Definition absfloatvalue (negative : bool) (s : string) : option float :=
  let l := lower s in
  if String.eqb l "nan" then Some S754_nan
  else if String.eqb l "inf" || String.eqb l "infinity" then Some (S754_infinity negative)
  else floatnumber negative s.

(** [float(s)]: white space around, an optional sign, then [inf],
    [infinity] or [nan] in any case, or a decimal number. *)
Definition float_of_str (s : string) : option float :=
  match trim s with
  | String "-" r => absfloatvalue true r
  | String "+" r => absfloatvalue false r
  | r => absfloatvalue false r
  end.

(** The integer a finite float is, when it is one. *)
Definition integral (m : positive) (e : Z) : option Z :=
  if 0 <=? e then Some (Z.pos m * 2 ^ e)
  else if Z.pos m mod 2 ^ (- e) =? 0 then Some (Z.pos m / 2 ^ (- e))
  else None.

(** The text of a float: [nan], [inf], [-inf], [0.0], [-0.0] and, for an
    integral value below [10^16], its digits followed by [.0], as the
    interpreter prints them.  Any other value is shown as its mantissa
    and binary exponent, which is not the interpreter's text. *)
Definition str_of_float (x : float) : string :=
  match x with
  | S754_nan => "nan"
  | S754_infinity s => if s then "-inf" else "inf"
  | S754_zero s => if s then "-0.0" else "0.0"
  | S754_finite s m e =>
      let sign := if s then "-" else "" in
      match integral m e with
      | Some n =>
          if n <? 10 ^ 16 then sign ++ str_of_int n ++ ".0"
          else sign ++ str_of_int (Z.pos m) ++ "*2**" ++ str_of_int e
      | None => sign ++ str_of_int (Z.pos m) ++ "*2**" ++ str_of_int e
      end
  end.

(** *** Regular expressions *)

Module Regex.

Inductive regex : Type :=
| Empty
| Chars (negate : bool) (ranges : list (ascii * ascii))
| Bol
| Eol
| Seq (r1 r2 : regex)
| Alt (r1 r2 : regex)
| Repeat (lo : nat) (hi : option nat) (r : regex).

Definition in_ranges (c : ascii) (ranges : list (ascii * ascii)) : bool :=
  existsb (fun '(a, b) => (nat_of_ascii a <=? nat_of_ascii c)%nat
                          && (nat_of_ascii c <=? nat_of_ascii b)%nat) ranges.

(** The backtracking matcher: where a match of [r] that starts at [pos],
    with [s] still ahead, can end, in the order the alternatives are
    tried (a repetition takes as many rounds as it can first). *)
Fixpoint run (r : regex) (pos : nat) (s : string) : list (nat * string) :=
  match r with
  | Empty => [(pos, s)]
  | Chars negate ranges =>
      match s with
      | String c s' => if xorb negate (in_ranges c ranges) then [(S pos, s')] else []
      | EmptyString => []
      end
  | Bol => if (pos =? 0)%nat then [(pos, s)] else []
  | Eol => if String.eqb s "" || String.eqb s nl then [(pos, s)] else []
  | Seq r1 r2 => flat_map (fun '(p, s') => run r2 p s') (run r1 pos s)
  | Alt r1 r2 => (run r1 pos s ++ run r2 pos s)%list
  | Repeat lo hi r' =>
      (fix rep (fuel lo : nat) (hi : option nat) (pos : nat) (s : string)
           {struct fuel} : list (nat * string) :=
         match fuel with
         | O => []
         | S fuel' =>
             let stop := if (lo =? 0)%nat then [(pos, s)] else [] in
             match hi with
             | Some O => stop
             | _ =>
                 (flat_map (fun '(p, s') =>
                              if (p =? pos)%nat && (lo =? 0)%nat then []
                              else rep fuel' (pred lo) (option_map pred hi) p s')
                           (run r' pos s)
                  ++ stop)%list
             end
         end) (String.length s + lo + 1)%nat lo hi pos s
  end.

(** [Pattern.match]: the end of the first match found at position 0. *)
Definition re_match (r : regex) (s : string) : option nat :=
  option_map fst (hd_error (run r 0 s)).

(** [Pattern.fullmatch], for comparison: the first match that ends where
    the string ends. *)
Definition re_fullmatch (r : regex) (s : string) : option nat :=
  option_map fst (find (fun '(_, rest) => negb (truthy rest)) (run r 0 s)).

Definition literal (c : ascii) : regex := Chars false [(c, c)].

Definition is_alnum (c : ascii) : bool :=
  let n := nat_of_ascii c in
  ((48 <=? n) && (n <=? 57) || (65 <=? n) && (n <=? 90) || (97 <=? n) && (n <=? 122))%nat.

Definition is_special (c : ascii) : bool := mem_char c ".^$*+?{}[]\|()".

Definition code_ranges (codes : list (nat * nat)) : list (ascii * ascii) :=
  map (fun '(a, b) => (ascii_of_nat a, ascii_of_nat b)) codes.

(** The code points below 256 of the classes [\d], [\w] and [\s] of a
    [str] pattern. *)
Definition digit_codes : list (nat * nat) := [(48, 57)]%nat.

Definition word_codes : list (nat * nat) :=
  [(48, 57); (65, 90); (95, 95); (97, 122); (170, 170); (178, 179); (181, 181);
   (185, 186); (188, 190); (192, 214); (216, 246); (248, 255)]%nat.

Definition space_codes : list (nat * nat) :=
  [(9, 13); (28, 32); (133, 133); (160, 160)]%nat.

(** The code points below 256 outside the given increasing ranges. *)
Fixpoint outside_from (from : nat) (codes : list (nat * nat)) : list (nat * nat) :=
  match codes with
  | [] => if (from <=? 255)%nat then [(from, 255%nat)] else []
  | (a, b) :: more =>
      if (from <? a)%nat then (from, pred a) :: outside_from (S b) more
      else outside_from (S b) more
  end.

(** The class an escaped letter stands for: [\d], [\D], [\w], [\W], [\s]
    and [\S]. *)
Definition escape_class (c : ascii) : option (list (ascii * ascii)) :=
  if Ascii.eqb c "d" then Some (code_ranges digit_codes)
  else if Ascii.eqb c "D" then Some (code_ranges (outside_from 0 digit_codes))
  else if Ascii.eqb c "w" then Some (code_ranges word_codes)
  else if Ascii.eqb c "W" then Some (code_ranges (outside_from 0 word_codes))
  else if Ascii.eqb c "s" then Some (code_ranges space_codes)
  else if Ascii.eqb c "S" then Some (code_ranges (outside_from 0 space_codes))
  else None.

(** The items of a character class up to its closing bracket: single
    characters, escaped punctuation, the classes [\d], [\w], [\s] and
    their complements, and ranges [a-b] whose ends are in order; a dash
    that no character follows inside the class stands for itself, and a
    dash may not follow an escaped class as the start of a range. *)
Fixpoint parse_items (s : string) : option (list (ascii * ascii) * string) :=
  let item := fun (a b : ascii) (more : option (list (ascii * ascii) * string)) =>
    option_map (fun '(items, r) => ((a, b) :: items, r)) more in
  let range := fun (a b : ascii) (more : option (list (ascii * ascii) * string)) =>
    if (nat_of_ascii b <? nat_of_ascii a)%nat then None else item a b more in
  match s with
  | EmptyString => None
  | String a rest =>
      if Ascii.eqb a "]" then Some ([], rest)
      else if Ascii.eqb a "[" then None
      else if Ascii.eqb a "\" then
        match rest with
        | String c rest' =>
            match escape_class c with
            | Some ranges =>
                match rest' with
                | String d (String b _) =>
                    if Ascii.eqb d "-" && negb (Ascii.eqb b "]") then None
                    else option_map (fun '(items, r) => ((ranges ++ items)%list, r))
                                    (parse_items rest')
                | _ => option_map (fun '(items, r) => ((ranges ++ items)%list, r))
                                  (parse_items rest')
                end
            | None =>
                if is_alnum c then None
                else
                  match rest' with
                  | String d (String b rest'') =>
                      if Ascii.eqb d "-" && negb (Ascii.eqb b "]") then
                        if Ascii.eqb b "\" || Ascii.eqb b "[" then None
                        else range c b (parse_items rest'')
                      else item c c (parse_items rest')
                  | _ => item c c (parse_items rest')
                  end
            end
        | EmptyString => None
        end
      else
        match rest with
        | String d (String b rest') =>
            if Ascii.eqb d "-" && negb (Ascii.eqb b "]") then
              if Ascii.eqb b "\" || Ascii.eqb b "[" then None
              else range a b (parse_items rest')
            else item a a (parse_items rest)
        | _ => item a a (parse_items rest)
        end
  end.

(** A character class after its opening bracket. *)
Definition parse_class (s : string) : option (regex * string) :=
  match s with
  | EmptyString => None
  | String c rest =>
      if Ascii.eqb c "]" then None
      else if Ascii.eqb c "^" then
        match rest with
        | String c' _ =>
            if Ascii.eqb c' "]" then None
            else option_map (fun '(items, r) => (Chars true items, r)) (parse_items rest)
        | EmptyString => None
        end
      else option_map (fun '(items, r) => (Chars false items, r)) (parse_items s)
  end.

(** A run of decimal digits as a number, and what follows it. *)
Fixpoint parse_nat (acc : option nat) (s : string) : option nat * string :=
  match s with
  | EmptyString => (acc, s)
  | String c s' =>
      match digit_of c with
      | Some d =>
          parse_nat (Some (10 * match acc with Some a => a | None => 0 end
                           + Z.to_nat d)%nat) s'
      | None => (acc, s)
      end
  end.

(** The bounds of [{n}], [{n,}] and [{n,m}] after the opening brace. *)
Definition parse_bounds (s : string) : option (nat * option nat * string) :=
  match parse_nat None s with
  | (Some lo, String c rest) =>
      if Ascii.eqb c "}" then Some (lo, Some lo, rest)
      else if Ascii.eqb c "," then
        match parse_nat None rest with
        | (hi, String c' rest') =>
            if Ascii.eqb c' "}" then
              match hi with
              | Some h => if (h <? lo)%nat then None else Some (lo, hi, rest')
              | None => Some (lo, None, rest')
              end
            else None
        | _ => None
        end
      else None
  | _ => None
  end.

(** An optional greedy quantifier after the atom [r]; there is nothing to
    repeat after [^] or [$], and a second quantifier or a lazy or
    possessive mark is outside the fragment. *)
Definition parse_quant (r : regex) (s : string) : option (regex * string) :=
  let quantified :=
    match s with
    | String c rest =>
        if Ascii.eqb c "*" then Some (Some (Repeat 0 None r, rest))
        else if Ascii.eqb c "+" then Some (Some (Repeat 1 None r, rest))
        else if Ascii.eqb c "?" then Some (Some (Repeat 0 (Some 1%nat) r, rest))
        else if Ascii.eqb c "{" then
          Some (option_map (fun '(lo, hi, rest') => (Repeat lo hi r, rest'))
                           (parse_bounds rest))
        else None
    | EmptyString => None
    end in
  match quantified with
  | None => Some (r, s)
  | Some None => None
  | Some (Some (q, rest)) =>
      match r with
      | Bol | Eol => None
      | _ =>
          match rest with
          | String c _ => if mem_char c "*+?{" then None else Some (q, rest)
          | EmptyString => Some (q, rest)
          end
      end
  end.

(** The fragment of the pattern syntax that is parsed: literal characters,
    escaped punctuation, [.], [^], [$], the classes [\d], [\w], [\s] and
    their complements, character classes with ranges and negation,
    groups, alternation and the greedy quantifiers [*], [+],
    [?], [{n}], [{n,}], [{n,m}].  A pattern outside it is rejected, which
    the interpreter need not do. *)
Fixpoint parse_alt (fuel : nat) (s : string) : option (regex * string) :=
  match fuel with
  | O => None
  | S fuel' =>
      match parse_seq fuel' s with
      | Some (r1, String c rest) =>
          if Ascii.eqb c "|" then
            option_map (fun '(r2, rest') => (Alt r1 r2, rest')) (parse_alt fuel' rest)
          else Some (r1, String c rest)
      | other => other
      end
  end
with parse_seq (fuel : nat) (s : string) : option (regex * string) :=
  match fuel with
  | O => None
  | S fuel' =>
      match s with
      | EmptyString => Some (Empty, s)
      | String c _ =>
          if Ascii.eqb c "|" || Ascii.eqb c ")" then Some (Empty, s)
          else
            match parse_atom fuel' s with
            | Some (a, s1) =>
                match parse_quant a s1 with
                | Some (p, s2) =>
                    option_map (fun '(r, s3) => (Seq p r, s3)) (parse_seq fuel' s2)
                | None => None
                end
            | None => None
            end
      end
  end
with parse_atom (fuel : nat) (s : string) : option (regex * string) :=
  match fuel with
  | O => None
  | S fuel' =>
      match s with
      | EmptyString => None
      | String c rest =>
          if Ascii.eqb c "(" then
            match rest with
            | String c' _ =>
                if Ascii.eqb c' "?" then None
                else
                  match parse_alt fuel' rest with
                  | Some (r, String c'' rest') =>
                      if Ascii.eqb c'' ")" then Some (r, rest') else None
                  | _ => None
                  end
            | EmptyString => None
            end
          else if Ascii.eqb c "[" then parse_class rest
          else if Ascii.eqb c "." then Some (Chars true [("010"%char, "010"%char)], rest)
          else if Ascii.eqb c "^" then Some (Bol, rest)
          else if Ascii.eqb c "$" then Some (Eol, rest)
          else if Ascii.eqb c "\" then
            match rest with
            | String e rest' =>
                match escape_class e with
                | Some ranges => Some (Chars false ranges, rest')
                | None => if is_alnum e then None else Some (literal e, rest')
                end
            | EmptyString => None
            end
          else if is_special c then None
          else Some (literal c, rest)
      end
  end.

(** [re.compile]. *)
Definition re_compile (source : string) : option regex :=
  match parse_alt (4 * (String.length source + 1)) source with
  | Some (r, EmptyString) => Some r
  | _ => None
  end.

End Regex.

End Ref.

Definition ref_builtins : PyBuiltins := {|
  int_of_str := Ref.int_of_str;
  float_of_str := Ref.float_of_str;
  str_of_float := Ref.str_of_float;
  pattern_obj := Ref.Regex.regex;
  re_compile := Ref.Regex.re_compile;
  re_match := Ref.Regex.re_match
|}.

(** ** Notions used to state the properties *)

(** The three components of a run. *)
Definition result {A : Type} (run : outcome A * world * list event) : outcome A :=
  fst (fst run).

Definition remaining {A : Type} (run : outcome A * world * list event) : world :=
  snd (fst run).

Definition trace {A : Type} (run : outcome A * world * list event) : list event :=
  snd run.

(** The line [readline] delivers next, the value [_read] makes of it, and
    the streams once it is consumed. *)
Definition next_raw (w : world) : string := hd "" (stream_in w).

Definition next_value (w : world) : string := rstrip nl (next_raw w).

Definition advance (w : world) : world := mkWorld (tl (stream_in w)) (tty w).

(** A computation that returns [a] whatever the streams hold, reads
    nothing and writes nothing. *)
Definition pure {A : Type} (m : io A) (a : A) : Prop :=
  forall w, m w = (Return a, w, []).

Definition pure_validator (v : validator) : Prop :=
  forall value, exists r, pure (v value) r.

(** The value an input event hands to the engine. *)
Definition input_value (e : event) : string :=
  match e with
  | EvWrite _ => ""
  | EvRead line => rstrip nl line
  | EvGetpass line => line
  end.

(** The re-prompts of a trace: for every input that is followed by another
    input, the value it delivered and the texts written before the next
    input is taken. *)
Fixpoint gaps_from (cur : option (string * list string)) (t : list event)
    : list (string * list string) :=
  match t with
  | [] => []
  | EvWrite text :: t' =>
      gaps_from (option_map (fun '(line, ws) => (line, (ws ++ [text])%list)) cur) t'
  | e :: t' =>
      (match cur with Some g => [g] | None => [] end
       ++ gaps_from (Some (input_value e, [])) t')%list
  end.

Definition reprompts (t : list event) : list (string * list string) :=
  gaps_from None t.

(** The diagnostics of the engine are the lines that open with the cross
    mark. *)
Definition is_diagnostic (text : string) : bool :=
  startswith text ("  " ++ cross ++ " ").

(** A re-prompt is explained when exactly a diagnostic and then the prompt
    were written since the rejected input. *)
Definition explained (prompt : string) (g : string * list string) : bool :=
  match snd g with
  | [d; p] => is_diagnostic d && String.eqb p prompt
  | _ => false
  end.

Definition same_lines (a b : list string) : bool :=
  if list_eq_dec string_dec a b then true else false.

(** What a request for suggestions shows: up to five of the suggestions
    that begin with the text before the tabs, and nothing when there is
    none. *)
Definition suggestion_lines (suggestions : list string) (line : string) : list string :=
  match filter (fun s => startswith s (rstrip tab line)) suggestions with
  | [] => []
  | matches => ["  Suggestions: " ++ join ", " (firstn 5 matches) ++ nl]
  end.

(** A re-prompt of [autocomplete] that answers a request for suggestions:
    only the suggestion line, if there is one, and the prompt were
    written. *)
Definition suggested (suggestions : list string) (prompt : string)
    (g : string * list string) : bool :=
  same_lines (snd g) (suggestion_lines suggestions (fst g) ++ [prompt])%list.

(** What a re-prompt of [autocomplete] must look like: after a request for
    suggestions (a line that ends with a tab) the suggestion line if any,
    after any other line a diagnostic. *)
Definition answered (suggestions : list string) (prompt : string)
    (g : string * list string) : bool :=
  if endswith (fst g) tab then suggested suggestions prompt g
  else explained prompt g.

(** The choice a typed, 1-based number designates, if any. *)
Definition choice_at {V : Type} (choices : list (Choice V)) (n : Z) : option (Choice V) :=
  if (1 <=? n) && (n <=? len choices) then nth_error choices (Z.to_nat (n - 1))
  else None.

(** The selection the specification describes: for each typed number in
    turn, the value of the choice it designates when there is one and it
    is not disabled. *)
Definition spec_selected {V : Type} (choices : list (Choice V)) (typed : list Z) : list V :=
  flat_map (fun n => match choice_at choices n with
                     | Some choice => if disabled choice then [] else [value choice]
                     | None => []
                     end) typed.

(** The tokens of an answer and the numbers they parse to. *)
Definition tokens_parse `{PyBuiltins} (answer : string) (typed : list Z) : Prop :=
  Forall2 (fun tok n => int_of_str (strip tok) = Some n) (split "," answer) typed.

Definition some_token_fails `{PyBuiltins} (answer : string) : Prop :=
  Exists (fun tok => int_of_str (strip tok) = None) (split "," answer).

(** A float within optional inclusive bounds. *)
Definition within (num : float) (min_val max_val : option float) : Prop :=
  (forall lo, min_val = Some lo -> SFleb lo num = true)
  /\ (forall hi, max_val = Some hi -> SFleb num hi = true).

(** The prompt [text] writes. *)
Definition text_prompt (message default : string) : string :=
  if truthy default then (message ++ " [" ++ default ++ "]") ++ ": "
  else message ++ ": ".

(** The default stands in for an empty input when there is one. *)
Definition or_default (default value : string) : string :=
  if negb (truthy value) && truthy default then default else value.

(** The diagnostics of [multi_select]. *)
Definition at_least (min_select : Z) : string :=
  "  " ++ cross ++ " Select at least " ++ str_of_int min_select ++ " options" ++ nl.

Definition at_most (max_select : Z) : string :=
  "  " ++ cross ++ " Select at most " ++ str_of_int max_select ++ " options" ++ nl.

Definition invalid_input : string := "  " ++ cross ++ " Invalid input" ++ nl.

(** The prompts of the loops. *)
Definition select_prompt {V : Type} (choices : list (Choice V)) : string :=
  "Enter choice [1-" ++ str_of_int (len choices) ++ "]: ".

Definition multi_select_prompt : string := "Enter choices: ".

(** What [multi_select] writes before its loop: the message, then one
    numbered line for each choice. *)
Definition multi_select_header {V : Type} (message : string)
    (choices : list (Choice V)) : list event :=
  EvWrite (message ++ " (comma-separated numbers)" ++ nl)
  :: map (fun '(i, choice) =>
            EvWrite ("  " ++ str_of_int (i + 1) ++ ". " ++ label choice
                     ++ (if disabled choice then " (disabled)" else "") ++ nl))
         (enumerate choices).

(** A call that goes round its loop again: after the events [before] it
    writes the diagnostic [diag], and from there on it does on the rest of
    the input what the call [later] does once the [skipped] events that
    open it are left out; both end the same way. *)
Definition retried {A : Type} (call later : outcome A * world * list event)
    (before : list event) (diag : string) (skipped : nat) : Prop :=
  result call = result later
  /\ remaining call = remaining later
  /\ trace call = (before ++ EvWrite diag :: skipn skipped (trace later))%list.

Definition autocomplete_prompt (message : string) : string :=
  message ++ " (tab for suggestions): ".

Definition is_input (e : event) : bool :=
  match e with
  | EvWrite _ => false
  | _ => true
  end.

(** A diagnostic, and nothing else, was written after the input. *)
Definition one_diagnostic (ds : list string) : Prop :=
  exists d, ds = [d] /\ is_diagnostic d = true.

(** The shape of one pass through a loop body: the prompt is written, then
    either the input fails, or an input is taken and texts [ds] are
    written; [P] relates the input to [ds] when the pass ends with the
    loop going round again. *)
Definition attempt_spec {A : Type} (P : string -> list string -> Prop)
    (prompt : string) (body : io (option A)) : Prop :=
  forall w,
    (exists e w', body w = (Raise e, w', [EvWrite prompt]))
    \/ (exists r w' inp ds,
          body w = (r, w', EvWrite prompt :: inp :: map EvWrite ds)
          /\ is_input inp = true
          /\ (r = Return None -> P (input_value inp) ds)).

(** What [attempt_spec] yields for a re-prompt. *)
Definition reprompt_spec (P : string -> list string -> Prop) (prompt : string)
    (g : string * list string) : Prop :=
  exists ds, snd g = (ds ++ [prompt])%list /\ P (fst g) ds.

(** The re-prompts of [autocomplete]: after a request for suggestions the
    suggestion line, if any; after anything else a diagnostic. *)
Definition autocomplete_step (suggestions : list string) (line : string)
    (ds : list string) : Prop :=
  if endswith line tab then ds = suggestion_lines suggestions line
  else one_diagnostic ds.

(** ** Data of the worked examples *)

Definition abc_choices : list (Choice string) :=
  [mkChoice "a" "A" false ""; mkChoice "b" "B" false ""; mkChoice "c" "C" true ""].

(** An input source that delivers the given lines, each one terminated. *)
Definition typing (lines : list string) : world :=
  mkWorld (map (fun line => line ++ nl) lines) [].

Definition float_of_int (n : Z) : float := binary_normalize 53 1024 n 0 false.

(** ** Notions for the further properties *)

(** [n] newline characters. *)
Fixpoint newlines (n : nat) : string :=
  match n with
  | O => EmptyString
  | S n' => String "010"%char (newlines n')
  end.

(** Every character of the string is white space (so is the empty
    string). *)
Definition blank (s : string) : bool :=
  forallb is_space (list_ascii_of_string s).

(** The diagnostic line that carries a validator's message. *)
Definition diagnostic (msg : string) : string :=
  "  " ++ cross ++ " " ++ msg ++ nl.

(** A validator that, without any effect, accepts the value, or rejects
    it with a message. *)
Definition accepts (v : validator) (value : string) : Prop :=
  exists r, pure (v value) r /\ valid r = true.

Definition rejects (v : validator) (value msg : string) : Prop :=
  exists r, pure (v value) r /\ valid r = false /\ message r = msg.

(** A chain all of whose validators accept the value; a chain whose first
    validator not to accept it rejects it with [msg].  Nothing is asked
    of the validators that come after that one. *)
Definition chain_accepts (validators : list validator) (value : string) : Prop :=
  Forall (fun v => accepts v value) validators.

Definition chain_rejects (validators : list validator) (value msg : string) : Prop :=
  exists pre v post,
    validators = (pre ++ v :: post)%list
    /\ chain_accepts pre value
    /\ rejects v value msg.

(** The item a Python index designates: a negative index counts from the
    end, an index outside [[-len(items), len(items))] designates nothing. *)
Definition item_at {A : Type} (items : list A) (i : Z) : option A :=
  if (- len items <=? i) && (i <? 0) then nth_error items (Z.to_nat (len items + i))
  else if (0 <=? i) && (i <? len items) then nth_error items (Z.to_nat i)
  else None.

(** What a non-empty answer selects in [select]: the choice its number
    designates, unless it is disabled. *)
Definition selected_by `{PyBuiltins} {V : Type} (choices : list (Choice V))
    (answer : string) : option (Choice V) :=
  match int_of_str answer with
  | Some n =>
      match choice_at choices n with
      | Some choice => if disabled choice then None else Some choice
      | None => None
      end
  | None => None
  end.

(** The diagnostic [select] answers a refused line with. *)
Definition refusal `{PyBuiltins} {V : Type} (choices : list (Choice V))
    (answer : string) : string :=
  match int_of_str answer with
  | Some n =>
      match choice_at choices n with
      | Some _ => diagnostic "This option is disabled"
      | None => diagnostic "Invalid selection"
      end
  | None => diagnostic "Invalid selection"
  end.

(** A value [multi_select] may return: the value of an enabled choice. *)
Definition enabled_value {V : Type} (choices : list (Choice V)) (v : V) : Prop :=
  exists choice, In choice choices /\ disabled choice = false /\ value choice = v.

(** The suggestions a request shows: the first five, in the order given,
    of those that begin with the line without its trailing tabs. *)
Definition shown (suggestions : list string) (line : string) : list string :=
  firstn 5 (filter (fun s => startswith s (rstrip tab line)) suggestions).

(** Every input of the trace comes right after a write of the prompt. *)
Fixpoint reads_prompted (prompt : string) (just_prompted : bool) (t : list event)
    : bool :=
  match t with
  | [] => true
  | EvWrite text :: t' => reads_prompted prompt (String.eqb text prompt) t'
  | _ :: t' => just_prompted && reads_prompted prompt false t'
  end.

(** [c] is the character [d] or, when [d] is a small letter [a]-[z], the
    capital of [d]. *)
Definition same_letter (c d : ascii) : bool :=
  Ascii.eqb c d
  || (((97 <=? nat_of_ascii d) && (nat_of_ascii d <=? 122))%nat
      && Ascii.eqb c (ascii_of_nat (nat_of_ascii d - 32))).

(** [s] spells [word], capitals allowed: same length, same letters. *)
Fixpoint caseless (s word : string) : bool :=
  match s, word with
  | EmptyString, EmptyString => true
  | String c s', String d word' => same_letter c d && caseless s' word'
  | _, _ => false
  end.

(** The characters the words [confirm] accepts are made of. *)
Definition confirm_letter (d : ascii) : bool := mem_char d "yestru1".

(** The keys of a mapping, in order. *)
Definition keys {V : Type} (d : dict V) : list string := map fst d.

(** The keys after an assignment to [key]. *)
Definition add_key (key : string) (ks : list string) : list string :=
  if in_tuple key ks then ks else (ks ++ [key])%list.

(** A step function that leaves the mapping it is handed as it is. *)
Definition reads_only {V : Type} (fn : step V) : Prop :=
  forall d w r d' w' t, fn d w = (Return (r, d'), w', t) -> d' = d.

(** What [run] prints before the first step. *)
Definition wizard_header (title : string) : list event :=
  [EvWrite (nl ++ rule); EvWrite nl;
   EvWrite ("  " ++ title); EvWrite nl;
   EvWrite (rule ++ nl); EvWrite nl].

(** What [run] prints after the last step. *)
Definition wizard_footer : list event :=
  [EvWrite rule; EvWrite nl;
   EvWrite "  Setup complete!"; EvWrite nl;
   EvWrite (rule ++ nl); EvWrite nl].

(** The line that announces step number [i + 1] of [total]. *)
Definition step_line (i total : Z) (name : string) : string :=
  "Step " ++ str_of_int (i + 1) ++ "/" ++ str_of_int total ++ ": " ++ name.

(** The cardinality bounds of [multi_select] as the code applies them: at
    least [min_select], and at most [max_select] when that is a number
    other than [0]. *)
Definition within_bounds (min_select : Z) (max_select : option Z) (count : Z) : Prop :=
  min_select <= count
  /\ forall k, max_select = Some k -> k = 0 \/ count <= k.

(** A line [multi_select] accepts, with the selection it then returns. *)
Definition multi_accepts `{PyBuiltins} {V : Type} (choices : list (Choice V))
    (min_select : Z) (max_select : option Z) (line : string) (selected : list V)
    : Prop :=
  (line = "" /\ min_select = 0 /\ selected = [])
  \/ (line <> ""
      /\ exists typed,
           tokens_parse line typed
           /\ selected = spec_selected choices typed
           /\ within_bounds min_select max_select (len selected)).

(** A line [multi_select] answers with a diagnostic. *)
Definition multi_rejects `{PyBuiltins} {V : Type} (choices : list (Choice V))
    (min_select : Z) (max_select : option Z) (line : string) : Prop :=
  (line = "" /\ min_select <> 0)
  \/ (line <> ""
      /\ (some_token_fails line
          \/ exists typed,
               tokens_parse line typed
               /\ ~ within_bounds min_select max_select
                      (len (spec_selected choices typed)))).

(** ** Data of the worked examples for the wizard *)

(** A step that asks nothing and answers with a fixed text. *)
Definition answer_step (text : string) : step string :=
  fun results => ret (text, results).

(** A step that asks for a secret with [text] in password mode. *)
Definition secret_step : step string :=
  fun results =>
    secret <- Prompt.text "Secret" "" None true 1 ;;
    ret (secret, results).

Definition demo_wizard : Wizard.t string :=
  Wizard.add_step
    (Wizard.add_step
       (Wizard.add_step (Wizard.mk "Setup" [] [("lang", "en")]) "name"
                        (answer_step "Ann"))
       "secret" secret_step)
    "name" (answer_step "Bob").

(** ** Running computations *)

Lemma bind_return {A B : Type} (m : io A) (k : A -> io B) w a w' t :
  m w = (Return a, w', t) ->
  bind m k w = (result (k a w'), remaining (k a w'), (t ++ trace (k a w'))%list).
Proof.
  intros Hm. unfold bind, result, remaining, trace. rewrite Hm.
  destruct (k a w') as [[r w''] t']. reflexivity.
Qed.

Lemma bind_raise {A B : Type} (m : io A) (k : A -> io B) w e w' t :
  m w = (Raise e, w', t) -> bind m k w = (Raise e, w', t).
Proof. intros Hm. unfold bind. rewrite Hm. reflexivity. Qed.

Lemma readline_run w :
  readline w = (Return (next_raw w), advance w, [EvRead (next_raw w)]).
Proof.
  destruct w as [lines secret]. destruct lines as [|line rest]; reflexivity.
Qed.

Lemma _read_run w :
  Prompt._read w = (Return (next_value w), advance w, [EvRead (next_raw w)]).
Proof.
  unfold Prompt._read. rewrite (bind_return _ _ _ _ _ _ (readline_run w)).
  reflexivity.
Qed.

Lemma _write_then {B : Type} (text : string) (k : io B) w :
  bind (Prompt._write text) (fun _ => k) w
  = (result (k w), remaining (k w), EvWrite text :: trace (k w)).
Proof. apply (bind_return (Prompt._write text) (fun _ => k) w tt w [EvWrite text]). reflexivity. Qed.

Lemma _read_then {B : Type} (k : string -> io B) w :
  bind Prompt._read k w
  = (result (k (next_value w) (advance w)), remaining (k (next_value w) (advance w)),
     EvRead (next_raw w) :: trace (k (next_value w) (advance w))).
Proof. apply (bind_return _ _ _ _ _ _ (_read_run w)). Qed.

Lemma getpass_then {B : Type} (k : string -> io B) w line rest :
  tty w = line :: rest ->
  bind getpass k w
  = (result (k line (mkWorld (stream_in w) rest)),
     remaining (k line (mkWorld (stream_in w) rest)),
     EvGetpass line :: trace (k line (mkWorld (stream_in w) rest))).
Proof.
  intros Htty.
  apply (bind_return getpass k w line (mkWorld (stream_in w) rest) [EvGetpass line]).
  unfold getpass. rewrite Htty. reflexivity.
Qed.

Lemma getpass_eof {B : Type} (k : string -> io B) w :
  tty w = [] -> bind getpass k w = (Raise EOFError, w, []).
Proof.
  intros Htty. apply bind_raise. unfold getpass. rewrite Htty. reflexivity.
Qed.

Lemma while_true_step {A : Type} (body : io (option A)) fuel w :
  while_true (S fuel) body w
  = match body w with
    | (Return (Some a), w', t) => (Return a, w', t)
    | (Return None, w', t) =>
        (result (while_true fuel body w'), remaining (while_true fuel body w'),
         (t ++ trace (while_true fuel body w'))%list)
    | (Raise e, w', t) => (Raise e, w', t)
    | (Pending, w', t) => (Pending, w', t)
    end.
Proof.
  simpl. unfold bind. destruct (body w) as [[r w'] t].
  destruct r as [[a|]|e|]; try reflexivity.
  - unfold ret. rewrite app_nil_r. reflexivity.
  - destruct (while_true fuel body w') as [[r' w''] t']. reflexivity.
Qed.


Lemma for_each_writes {A : Type} (items : list A) (body : A -> io unit) :
  (forall x, exists text, forall w, body x w = (Return tt, w, [EvWrite text])) ->
  exists texts, forall w, for_each items body w = (Return tt, w, map EvWrite texts).
Proof.
  intros Hbody. induction items as [|x rest IH].
  - exists []. reflexivity.
  - destruct IH as [texts IH]. destruct (Hbody x) as [text Hx].
    exists (text :: texts). intros w. simpl.
    rewrite (bind_return _ _ _ _ _ _ (Hx w)), IH. reflexivity.
Qed.

Lemma getitem_in_range {A : Type} (items : list A) (i : Z) :
  0 <= i < len items ->
  exists x, nth_error items (Z.to_nat i) = Some x
            /\ forall w, getitem items i w = (Return x, w, []).
Proof.
  intros [Hlo Hhi]. unfold len in Hhi.
  destruct (nth_error items (Z.to_nat i)) as [x|] eqn:Hnth.
  - exists x. split; [reflexivity|]. intros w. unfold getitem.
    destruct (i <? 0) eqn:Hneg; [apply Z.ltb_lt in Hneg; lia|].
    rewrite Hneg, Hnth. reflexivity.
  - apply nth_error_None in Hnth. lia.
Qed.

(** ** select *)

Section SelectFacts.
Context {builtins : PyBuiltins}.

Lemma select_unfold {V : Type} (message : string) (choices : list (Choice V))
    (default : Z) :
  exists header, forall fuel w,
    Prompt.select message choices default fuel w
    = (result (while_true fuel (Prompt.select_attempt choices default) w),
       remaining (while_true fuel (Prompt.select_attempt choices default) w),
       (map EvWrite header
        ++ trace (while_true fuel (Prompt.select_attempt choices default) w))%list).
Proof.
  unfold Prompt.select.
  match goal with
  | |- context [for_each ?items ?body] =>
      destruct (for_each_writes items body) as [texts Htexts]
  end.
  { intros [i choice]. eexists. intros w. reflexivity. }
  exists ((message ++ nl) :: texts). intros fuel w.
  rewrite _write_then.
  rewrite (bind_return _ _ _ _ _ _ (Htexts w)). reflexivity.
Qed.

Lemma select_attempt_empty {V : Type} (choices : list (Choice V)) (default : Z) w :
  0 <= default < len choices ->
  next_value w = "" ->
  exists choice, nth_error choices (Z.to_nat default) = Some choice
    /\ Prompt.select_attempt choices default w
       = (Return (Some (value choice)), advance w,
          [EvWrite ("Enter choice [1-" ++ str_of_int (len choices) ++ "]: ");
           EvRead (next_raw w)]).
Proof.
  intros Hrange Hempty.
  destruct (getitem_in_range choices default Hrange) as [choice [Hnth Hget]].
  exists choice. split; [exact Hnth|].
  unfold Prompt.select_attempt. rewrite _write_then, _read_then, Hempty. simpl.
  rewrite (bind_return _ _ _ _ _ _ (Hget (advance w))). reflexivity.
Qed.

End SelectFacts.

(** ** Strings *)

Lemma truthy_true (s : string) : truthy s = true <-> s <> "".
Proof. destruct s; simpl; split; intros H; congruence. Qed.

Lemma truthy_lower (s : string) : truthy (lower s) = truthy s.
Proof. destruct s; reflexivity. Qed.

Lemma in_tuple_In (s : string) (items : list string) :
  in_tuple s items = true <-> In s items.
Proof.
  unfold in_tuple. rewrite existsb_exists. split.
  - intros [x [Hin Heq]]. apply String.eqb_eq in Heq. subst x. exact Hin.
  - intros Hin. exists s. split; [exact Hin|apply String.eqb_refl].
Qed.

(** ** Floats *)

Lemma SFcompare_antisym (x y : float) :
  SFcompare y x = option_map CompOpp (SFcompare x y).
Proof.
  destruct x as [sx|sx| |sx mx ex], y as [sy|sy| |sy my ey]; simpl;
    try reflexivity;
    try (destruct sx; reflexivity);
    try (destruct sy; reflexivity);
    try (destruct sx, sy; reflexivity).
  destruct sx, sy; try reflexivity.
  - rewrite (Z.compare_antisym ex ey).
    destruct (ex ?= ey); simpl; try reflexivity.
    change (Pos.compare_cont Eq my mx) with (my ?= mx)%positive.
    change (Pos.compare_cont Eq mx my) with (mx ?= my)%positive.
    rewrite (Pos.compare_antisym mx my). reflexivity.
  - rewrite (Z.compare_antisym ex ey).
    destruct (ex ?= ey); simpl; try reflexivity.
    change (Pos.compare_cont Eq my mx) with (my ?= mx)%positive.
    change (Pos.compare_cont Eq mx my) with (mx ?= my)%positive.
    rewrite (Pos.compare_antisym mx my). reflexivity.
Qed.

Lemma SFleb_not_ltb (x y : float) : SFleb x y = true -> SFltb y x = false.
Proof.
  unfold SFleb, SFltb. rewrite (SFcompare_antisym x y).
  destruct (SFcompare x y) as [[| |]|]; simpl; congruence.
Qed.

Lemma SFltb_nan_r (x : float) : SFltb x S754_nan = false.
Proof. destruct x; reflexivity. Qed.

(** ** Validators *)

Lemma pure_ret {A : Type} (a : A) : pure (ret a) a.
Proof. intros w. reflexivity. Qed.

Lemma required_pure (value : string) : exists r, pure (Validator.required value) r.
Proof.
  unfold Validator.required.
  destruct (negb (truthy value) || negb (truthy (strip value)));
    eexists; apply pure_ret.
Qed.

Lemma min_length_pure (length : Z) (value : string) :
  exists r, pure (Validator.min_length length value) r.
Proof.
  unfold Validator.min_length.
  destruct (len_str value <? length); eexists; apply pure_ret.
Qed.

Lemma max_length_pure (length : Z) (value : string) :
  exists r, pure (Validator.max_length length value) r.
Proof.
  unfold Validator.max_length.
  destruct (len_str value >? length); eexists; apply pure_ret.
Qed.

Section ValidatorFacts.
Context {builtins : PyBuiltins}.

Lemma number_pure (min_val max_val : option float) (value : string) :
  exists r, pure (Validator.number min_val max_val value) r.
Proof.
  unfold Validator.number.
  destruct (float_of_str value) as [num|]; [|eexists; apply pure_ret].
  destruct (Validator.below num min_val); [eexists; apply pure_ret|].
  destruct (Validator.above num max_val); eexists; apply pure_ret.
Qed.

Lemma pattern_run (regex message : string) w :
  Validator.pattern regex message w
  = match re_compile regex with
    | Some compiled =>
        (Return (fun value =>
                   match re_match compiled value with
                   | None => ret (mkValidationResult false message)
                   | Some _ => ret passed
                   end), w, [])
    | None => (Raise ReError, w, [])
    end.
Proof. unfold Validator.pattern. destruct (re_compile regex); reflexivity. Qed.

Lemma pattern_produces_pure (regex message : string) (validate : validator) w w' t :
  Validator.pattern regex message w = (Return validate, w', t) ->
  forall value, exists r, pure (validate value) r.
Proof.
  rewrite pattern_run. destruct (re_compile regex) as [compiled|]; [|discriminate].
  intros Hrun value. injection Hrun as Hv _ _. subst validate.
  destruct (re_match compiled value); eexists; apply pure_ret.
Qed.

End ValidatorFacts.

(** ** multi_select *)

Lemma comprehension_Forall2 {A B : Type} (f : A -> option B) (items : list A)
    (ys : list B) :
  Forall2 (fun x y => f x = Some y) items ys -> Prompt.comprehension f items = Some ys.
Proof.
  induction 1 as [|x y items ys Hxy _ IH]; simpl.
  - reflexivity.
  - rewrite Hxy, IH. reflexivity.
Qed.

Lemma comprehension_Exists {A B : Type} (f : A -> option B) (items : list A) :
  Exists (fun x => f x = None) items -> Prompt.comprehension f items = None.
Proof.
  induction 1 as [x items Hx|x items _ IH]; simpl.
  - rewrite Hx. reflexivity.
  - destruct (f x); [rewrite IH|]; reflexivity.
Qed.

Lemma collect_spec {V : Type} (choices : list (Choice V)) (typed : list Z) :
  Prompt.collect choices (map (fun n => n - 1) typed) = spec_selected choices typed.
Proof.
  unfold spec_selected. induction typed as [|n typed IH]; simpl.
  - reflexivity.
  - rewrite IH. unfold choice_at.
    replace ((0 <=? n - 1) && (n - 1 <? len choices))
      with ((1 <=? n) && (n <=? len choices)).
    + destruct ((1 <=? n) && (n <=? len choices)); [|reflexivity].
      destruct (nth_error choices (Z.to_nat (n - 1))) as [choice|]; [|reflexivity].
      destruct (disabled choice); reflexivity.
    + destruct (1 <=? n) eqn:H1, (0 <=? n - 1) eqn:H2,
               (n <=? len choices) eqn:H3, (n - 1 <? len choices) eqn:H4;
        try reflexivity; exfalso;
        rewrite ?Z.leb_le, ?Z.leb_gt, ?Z.ltb_lt, ?Z.ltb_ge in *; lia.
Qed.

Section MultiSelectFacts.
Context {builtins : PyBuiltins}.

Lemma parse_indices_tokens (answer : string) (typed : list Z) :
  tokens_parse answer typed ->
  Prompt.parse_indices answer = Some (map (fun n => n - 1) typed).
Proof.
  unfold tokens_parse, Prompt.parse_indices. intros Hparse.
  apply comprehension_Forall2.
  induction Hparse as [|tok n toks typed Htok _ IH]; simpl.
  - constructor.
  - constructor; [rewrite Htok; reflexivity|exact IH].
Qed.

Lemma parse_indices_fails (answer : string) :
  some_token_fails answer -> Prompt.parse_indices answer = None.
Proof.
  unfold some_token_fails, Prompt.parse_indices. intros Hfail.
  apply comprehension_Exists.
  induction Hfail as [tok toks Htok|tok toks _ IH].
  - apply Exists_cons_hd. rewrite Htok. reflexivity.
  - apply Exists_cons_tl. exact IH.
Qed.

End MultiSelectFacts.

(** ** Re-prompts *)

Lemma gaps_from_writes (ws : list string) (t : list event) cur :
  gaps_from cur (map EvWrite ws ++ t)
  = gaps_from (option_map (fun '(line, ds) => (line, (ds ++ ws)%list)) cur) t.
Proof.
  revert cur. induction ws as [|text ws IH]; intros cur; simpl.
  - destruct cur as [[line ds]|]; simpl; [rewrite app_nil_r|]; reflexivity.
  - rewrite IH. destruct cur as [[line ds]|]; simpl; [|reflexivity].
    rewrite <- app_assoc. reflexivity.
Qed.

Lemma gaps_from_only_writes (ws : list string) cur :
  gaps_from cur (map EvWrite ws) = [].
Proof.
  rewrite <- (app_nil_r (map EvWrite ws)), gaps_from_writes. reflexivity.
Qed.

Lemma gaps_from_input (e : event) (t : list event) cur :
  is_input e = true ->
  gaps_from cur (e :: t)
  = (match cur with Some g => [g] | None => [] end
     ++ gaps_from (Some (input_value e, [])) t)%list.
Proof. destruct e; simpl; intros H; [discriminate| |]; reflexivity. Qed.

Lemma gaps_from_write (text : string) (t : list event) cur :
  gaps_from cur (EvWrite text :: t)
  = gaps_from (option_map (fun '(line, ds) => (line, (ds ++ [text])%list)) cur) t.
Proof. reflexivity. Qed.

Lemma loop_reprompts {A : Type} (P : string -> list string -> Prop)
    (prompt : string) (body : io (option A)) :
  attempt_spec P prompt body ->
  forall fuel w cur,
    match cur with Some (line, ds) => P line ds | None => True end ->
    Forall (reprompt_spec P prompt) (gaps_from cur (trace (while_true fuel body w))).
Proof.
  intros Hbody. induction fuel as [|fuel IH]; intros w cur Hcur.
  - constructor.
  - rewrite while_true_step.
    assert (Hemit :
      Forall (reprompt_spec P prompt)
        (match option_map (fun '(line, ds) => (line, (ds ++ [prompt])%list)) cur with
         | Some g => [g]
         | None => []
         end)).
    { destruct cur as [[line ds]|]; simpl; constructor; [|constructor].
      exists ds. split; [reflexivity|exact Hcur]. }
    destruct (Hbody w) as [[e [w' Hrun]]|[r [w' [inp [ds [Hrun [Hinp HP]]]]]]];
      rewrite Hrun.
    + unfold trace. simpl snd.
      change [EvWrite prompt] with (map EvWrite [prompt]).
      rewrite gaps_from_only_writes. constructor.
    + assert (Hlast : Forall (reprompt_spec P prompt)
                        (gaps_from cur (EvWrite prompt :: inp :: map EvWrite ds))).
      { rewrite gaps_from_write, (gaps_from_input _ _ _ Hinp).
        rewrite gaps_from_only_writes, app_nil_r. exact Hemit. }
      destruct r as [[a|]|e|]; try exact Hlast.
      unfold trace at 1. simpl snd.
      change ((EvWrite prompt :: inp :: map EvWrite ds)
              ++ trace (while_true fuel body w'))%list
        with (EvWrite prompt :: inp
              :: (map EvWrite ds ++ trace (while_true fuel body w'))%list).
      rewrite gaps_from_write, (gaps_from_input _ _ _ Hinp).
      apply Forall_app. split; [exact Hemit|].
      rewrite gaps_from_writes. simpl option_map.
      apply IH. apply HP. reflexivity.
Qed.

Lemma loop_after_header {A : Type} (P : string -> list string -> Prop)
    (prompt : string) (body : io (option A)) (header : list string) fuel w :
  attempt_spec P prompt body ->
  Forall (reprompt_spec P prompt)
         (reprompts (map EvWrite header ++ trace (while_true fuel body w))).
Proof.
  intros Hbody. unfold reprompts. rewrite gaps_from_writes. simpl option_map.
  apply (loop_reprompts P prompt body Hbody fuel w None). exact I.
Qed.

Lemma reprompt_explained (prompt : string) (g : string * list string) :
  reprompt_spec (fun _ ds => one_diagnostic ds) prompt g ->
  explained prompt g = true.
Proof.
  intros [ds [Hg [d [Hds Hd]]]]. unfold explained. rewrite Hg, Hds. simpl.
  rewrite Hd, String.eqb_refl. reflexivity.
Qed.

Lemma reprompt_answered (suggestions : list string) (prompt : string)
    (g : string * list string) :
  reprompt_spec (autocomplete_step suggestions) prompt g ->
  answered suggestions prompt g = true.
Proof.
  intros [ds [Hg Hstep]]. unfold answered, autocomplete_step in *.
  destruct (endswith (fst g) tab).
  - unfold suggested, same_lines. rewrite Hg, Hstep.
    destruct (list_eq_dec string_dec _ _) as [_|Hne]; [reflexivity|].
    exfalso. apply Hne. reflexivity.
  - apply reprompt_explained. exists ds. split; assumption.
Qed.

Lemma Forall_forallb {A : Type} (P : A -> Prop) (f : A -> bool) (items : list A) :
  (forall x, P x -> f x = true) -> Forall P items -> forallb f items = true.
Proof.
  intros Hf Hall. induction Hall as [|x rest Hx _ IH]; simpl.
  - reflexivity.
  - rewrite (Hf x Hx), IH. reflexivity.
Qed.

Lemma diagnostic_line (text : string) :
  is_diagnostic ("  " ++ cross ++ " " ++ text) = true.
Proof. destruct text; reflexivity. Qed.

Lemma run_validators_pure (validators : list validator) (value : string) :
  Forall pure_validator validators ->
  exists b ds,
    (forall w, Prompt.run_validators validators value w = (Return b, w, map EvWrite ds))
    /\ (if b then ds = [] else one_diagnostic ds).
Proof.
  induction 1 as [|v rest Hv _ IH].
  - exists true, []. split; reflexivity.
  - destruct (Hv value) as [r Hr]. destruct (valid r) eqn:Hvalid.
    + destruct IH as [b [ds [Hrun Hds]]]. exists b, ds. split; [|exact Hds].
      intros w. simpl. rewrite (bind_return _ _ _ _ _ _ (Hr w)), Hvalid.
      simpl negb. cbv iota. rewrite Hrun. reflexivity.
    + exists false, ["  " ++ cross ++ " " ++ message r ++ nl]. split.
      * intros w. simpl. rewrite (bind_return _ _ _ _ _ _ (Hr w)), Hvalid.
        reflexivity.
      * eexists. split; [reflexivity|apply diagnostic_line].
Qed.

Lemma validated (validators : list validator) (value : string) :
  Forall pure_validator validators ->
  forall w, exists r ds,
    bind (Prompt.run_validators validators value)
         (fun valid => if valid then ret (Some value) else ret None) w
    = (r, w, map EvWrite ds)
    /\ (r = Return None -> one_diagnostic ds).
Proof.
  intros Hpure w.
  destruct (run_validators_pure validators value Hpure) as [b [ds [Hrun Hds]]].
  rewrite (bind_return _ _ _ _ _ _ (Hrun w)).
  destruct b.
  - exists (Return (Some value)), ds. subst ds. split; [reflexivity|discriminate].
  - exists (Return None), ds. split; [|intros _; exact Hds].
    simpl. rewrite app_nil_r. reflexivity.
Qed.

Lemma text_attempt_spec (message default : string) (validators : list validator)
    (password : bool) :
  Forall pure_validator validators ->
  attempt_spec (fun _ ds => one_diagnostic ds) (text_prompt message default)
               (Prompt.text_attempt message default validators password).
Proof.
  intros Hpure w.
  assert (Hprompt : (if truthy default then message ++ " [" ++ default ++ "]"
                     else message) ++ ": " = text_prompt message default).
  { unfold text_prompt. destruct (truthy default); reflexivity. }
  unfold Prompt.text_attempt. cbv zeta. rewrite Hprompt, _write_then.
  destruct password.
  - destruct (tty w) as [|line rest] eqn:Htty.
    + left. exists EOFError, w. rewrite (getpass_eof _ _ Htty). reflexivity.
    + right. rewrite (getpass_then _ _ _ _ Htty). cbv beta.
      destruct (validated validators (or_default default line) Hpure
                          (mkWorld (stream_in w) rest)) as [r [ds [Hrun HP]]].
      unfold or_default in Hrun. rewrite Hrun.
      exists r, (mkWorld (stream_in w) rest), (EvGetpass line), ds.
      split; [reflexivity|]. split; [reflexivity|exact HP].
  - right. rewrite _read_then. cbv beta.
    destruct (validated validators (or_default default (next_value w)) Hpure
                        (advance w)) as [r [ds [Hrun HP]]].
    unfold or_default in Hrun. rewrite Hrun.
    exists r, (advance w), (EvRead (next_raw w)), ds.
    split; [reflexivity|]. split; [reflexivity|exact HP].
Qed.

Lemma getitem_cases {A : Type} (items : list A) (i : Z) w :
  (exists x, getitem items i w = (Return x, w, []))
  \/ getitem items i w = (Raise IndexError, w, []).
Proof.
  unfold getitem.
  destruct ((if i <? 0 then i + len items else i) <? 0); [right; reflexivity|].
  destruct (nth_error items _) as [x|]; [left; exists x|right]; reflexivity.
Qed.

Lemma autocomplete_attempt_spec (message : string) (suggestions : list string)
    (validators : list validator) :
  Forall pure_validator validators ->
  attempt_spec (autocomplete_step suggestions) (autocomplete_prompt message)
               (Prompt.autocomplete_attempt message suggestions validators).
Proof.
  intros Hpure w. right.
  unfold Prompt.autocomplete_attempt, autocomplete_prompt, autocomplete_step.
  rewrite _write_then, _read_then. cbv beta. simpl input_value.
  fold (next_value w).
  destruct (endswith (next_value w) tab) eqn:Htab.
  - cbv zeta.
    destruct (filter (fun s => startswith s (rstrip tab (next_value w))) suggestions)
      as [|s matches] eqn:Hmatches.
    + exists (Return None), (advance w), (EvRead (next_raw w)), [].
      simpl input_value. fold (next_value w). rewrite Htab.
      split; [reflexivity|]. split; [reflexivity|]. intros _.
      unfold suggestion_lines. rewrite Hmatches. reflexivity.
    + exists (Return None), (advance w), (EvRead (next_raw w)),
        ["  Suggestions: " ++ join ", " (firstn 5 (s :: matches)) ++ nl].
      simpl input_value. fold (next_value w). rewrite Htab.
      split; [reflexivity|]. split; [reflexivity|]. intros _.
      unfold suggestion_lines. rewrite Hmatches. reflexivity.
  - destruct (validated validators (next_value w) Hpure (advance w))
      as [r [ds [Hrun HP]]].
    rewrite Hrun.
    exists r, (advance w), (EvRead (next_raw w)), ds.
    simpl input_value. fold (next_value w). rewrite Htab.
    split; [reflexivity|]. split; [reflexivity|exact HP].
Qed.

Section AttemptFacts.
Context {builtins : PyBuiltins}.

Lemma select_attempt_spec {V : Type} (choices : list (Choice V)) (default : Z) :
  attempt_spec (fun _ ds => one_diagnostic ds) (select_prompt choices)
               (Prompt.select_attempt choices default).
Proof.
  intros w. right.
  assert (Hdiag : forall text, one_diagnostic ["  " ++ cross ++ " " ++ text]).
  { intros text. eexists. split; [reflexivity|apply diagnostic_line]. }
  unfold Prompt.select_attempt, select_prompt.
  rewrite _write_then, _read_then. cbv beta.
  destruct (truthy (next_value w)); cbv beta iota zeta delta [negb].
  - destruct (int_of_str (next_value w)) as [n|].
    + cbv zeta. destruct ((0 <=? n - 1) && (n - 1 <? len choices)) eqn:Hrange.
      * apply andb_true_iff in Hrange. destruct Hrange as [Hlo Hhi].
        apply Z.leb_le in Hlo. apply Z.ltb_lt in Hhi.
        destruct (getitem_in_range choices (n - 1) (conj Hlo Hhi))
          as [choice [_ Hget]].
        cbv iota. rewrite (bind_return _ _ _ _ _ _ (Hget (advance w))).
        cbv beta. destruct (disabled choice).
        -- exists (Return None), (advance w), (EvRead (next_raw w)),
             ["  " ++ cross ++ " This option is disabled" ++ nl].
           split; [reflexivity|]. split; [reflexivity|]. intros _. apply Hdiag.
        -- exists (Return (Some (value choice))), (advance w),
             (EvRead (next_raw w)), [].
           split; [reflexivity|]. split; [reflexivity|discriminate].
      * exists (Return None), (advance w), (EvRead (next_raw w)),
          ["  " ++ cross ++ " Invalid selection" ++ nl].
        split; [reflexivity|]. split; [reflexivity|]. intros _. apply Hdiag.
    + exists (Return None), (advance w), (EvRead (next_raw w)),
        ["  " ++ cross ++ " Invalid selection" ++ nl].
      split; [reflexivity|]. split; [reflexivity|]. intros _. apply Hdiag.
  - destruct (getitem_cases choices default (advance w)) as [[choice Hget]|Hget].
    + rewrite (bind_return _ _ _ _ _ _ Hget).
      exists (Return (Some (value choice))), (advance w), (EvRead (next_raw w)), [].
      split; [reflexivity|]. split; [reflexivity|discriminate].
    + rewrite (bind_raise _ _ _ _ _ _ Hget).
      exists (Raise IndexError), (advance w), (EvRead (next_raw w)), [].
      split; [reflexivity|]. split; [reflexivity|discriminate].
Qed.

Lemma multi_select_attempt_spec {V : Type} (choices : list (Choice V))
    (min_select : Z) (max_select : option Z) :
  attempt_spec (fun _ ds => one_diagnostic ds) multi_select_prompt
               (Prompt.multi_select_attempt choices min_select max_select).
Proof.
  intros w. right.
  assert (Hdiag : forall text, one_diagnostic ["  " ++ cross ++ " " ++ text]).
  { intros text. eexists. split; [reflexivity|apply diagnostic_line]. }
  unfold Prompt.multi_select_attempt, multi_select_prompt.
  rewrite _write_then, _read_then. cbv beta.
  destruct (truthy (next_value w)); cbv beta iota zeta delta [negb].
  - destruct (Prompt.parse_indices (next_value w)) as [indices|].
    + cbv zeta. destruct (len (Prompt.collect choices indices) <? min_select).
      * exists (Return None), (advance w), (EvRead (next_raw w)),
          ["  " ++ cross ++ " Select at least " ++ str_of_int min_select
           ++ " options" ++ nl].
        split; [reflexivity|]. split; [reflexivity|]. intros _. apply Hdiag.
      * destruct (Prompt.truthy_int max_select
                  && Prompt.exceeds (len (Prompt.collect choices indices)) max_select).
        -- exists (Return None), (advance w), (EvRead (next_raw w)),
             ["  " ++ cross ++ " Select at most " ++ Prompt.str_of_opt_int max_select
              ++ " options" ++ nl].
           split; [reflexivity|]. split; [reflexivity|]. intros _. apply Hdiag.
        -- exists (Return (Some (Prompt.collect choices indices))), (advance w),
             (EvRead (next_raw w)), [].
           split; [reflexivity|]. split; [reflexivity|discriminate].
    + exists (Return None), (advance w), (EvRead (next_raw w)),
        ["  " ++ cross ++ " Invalid input" ++ nl].
      split; [reflexivity|]. split; [reflexivity|]. intros _. apply Hdiag.
  - destruct (min_select =? 0).
    + exists (Return (Some [])), (advance w), (EvRead (next_raw w)), [].
      split; [reflexivity|]. split; [reflexivity|discriminate].
    + exists (Return None), (advance w), (EvRead (next_raw w)),
        ["  " ++ cross ++ " Select at least " ++ str_of_int min_select
         ++ " options" ++ nl].
      split; [reflexivity|]. split; [reflexivity|]. intros _. apply Hdiag.
Qed.

Lemma multi_select_unfold {V : Type} (message : string) (choices : list (Choice V))
    (min_select : Z) (max_select : option Z) :
  exists header, forall fuel w,
    let loop := while_true fuel
                  (Prompt.multi_select_attempt choices min_select max_select) w in
    Prompt.multi_select message choices min_select max_select fuel w
    = (result loop, remaining loop, (map EvWrite header ++ trace loop)%list).
Proof.
  unfold Prompt.multi_select.
  match goal with
  | |- context [for_each ?items ?body] =>
      destruct (for_each_writes items body) as [texts Htexts]
  end.
  { intros [i choice]. eexists. intros w. reflexivity. }
  exists ((message ++ " (comma-separated numbers)" ++ nl) :: texts). intros fuel w.
  cbv zeta. rewrite _write_then.
  rewrite (bind_return _ _ _ _ _ _ (Htexts w)). reflexivity.
Qed.

End AttemptFacts.

(** ** multi_select as a whole *)

Lemma for_each_events {A : Type} (items : list A) (body : A -> io unit)
    (ev : A -> event) :
  (forall x w, body x w = (Return tt, w, [ev x])) ->
  forall w, for_each items body w = (Return tt, w, map ev items).
Proof.
  intros Hbody. induction items as [|x rest IH]; intros w.
  - reflexivity.
  - simpl. rewrite (bind_return _ _ _ _ _ _ (Hbody x w)), IH. reflexivity.
Qed.

Lemma skipn_length_app {A : Type} (l1 l2 : list A) :
  skipn (List.length l1) (l1 ++ l2)%list = l2.
Proof. induction l1 as [|x l1 IH]; [reflexivity|exact IH]. Qed.

Section MultiSelectRuns.
Context {builtins : PyBuiltins}.

Lemma multi_select_attempt_run {V : Type} (choices : list (Choice V))
    (min_select : Z) (max_select : option Z) w :
  Prompt.multi_select_attempt choices min_select max_select w
  = if truthy (next_value w) then
      match Prompt.parse_indices (next_value w) with
      | Some indices =>
          if len (Prompt.collect choices indices) <? min_select then
            (Return None, advance w,
             [EvWrite multi_select_prompt; EvRead (next_raw w);
              EvWrite (at_least min_select)])
          else if Prompt.truthy_int max_select
                  && Prompt.exceeds (len (Prompt.collect choices indices)) max_select
          then
            (Return None, advance w,
             [EvWrite multi_select_prompt; EvRead (next_raw w);
              EvWrite ("  " ++ cross ++ " Select at most "
                       ++ Prompt.str_of_opt_int max_select ++ " options" ++ nl)])
          else
            (Return (Some (Prompt.collect choices indices)), advance w,
             [EvWrite multi_select_prompt; EvRead (next_raw w)])
      | None =>
          (Return None, advance w,
           [EvWrite multi_select_prompt; EvRead (next_raw w); EvWrite invalid_input])
      end
    else if min_select =? 0 then
      (Return (Some []), advance w,
       [EvWrite multi_select_prompt; EvRead (next_raw w)])
    else
      (Return None, advance w,
       [EvWrite multi_select_prompt; EvRead (next_raw w);
        EvWrite (at_least min_select)]).
Proof.
  unfold Prompt.multi_select_attempt, multi_select_prompt.
  rewrite _write_then, _read_then. cbv beta.
  destruct (truthy (next_value w)); cbv beta iota zeta delta [negb].
  - destruct (Prompt.parse_indices (next_value w)) as [indices|]; [|reflexivity].
    destruct (len (Prompt.collect choices indices) <? min_select); [reflexivity|].
    destruct (Prompt.truthy_int max_select
              && Prompt.exceeds (len (Prompt.collect choices indices)) max_select);
      reflexivity.
  - destruct (min_select =? 0); reflexivity.
Qed.

End MultiSelectRuns.

Section MultiSelectCalls.
Context {builtins : PyBuiltins}.

(** The call writes its header, then runs the loop. *)
Lemma multi_select_header_run {V : Type} (message : string) (choices : list (Choice V))
    (min_select : Z) (max_select : option Z) fuel w :
  let loop := while_true fuel
                (Prompt.multi_select_attempt choices min_select max_select) w in
  Prompt.multi_select message choices min_select max_select fuel w
  = (result loop, remaining loop,
     (multi_select_header message choices ++ trace loop)%list).
Proof.
  cbv zeta. unfold Prompt.multi_select, multi_select_header.
  rewrite _write_then.
  match goal with
  | |- context [map ?ev (enumerate choices)] =>
      match goal with
      | |- context [for_each ?items ?body] =>
          assert (Hlines : forall w', for_each items body w'
                                      = (Return tt, w', map ev items))
      end
  end.
  { apply for_each_events. intros [i choice] w'. reflexivity. }
  rewrite (bind_return _ _ _ _ _ _ (Hlines w)). reflexivity.
Qed.

(** A pass that ends with [None] makes the call go round again. *)
Lemma multi_select_retried {V : Type} (message : string) (choices : list (Choice V))
    (min_select : Z) (max_select : option Z) fuel w w' asked diag :
  Prompt.multi_select_attempt choices min_select max_select w
  = (Return None, w', (asked ++ [EvWrite diag])%list) ->
  retried (Prompt.multi_select message choices min_select max_select (S fuel) w)
          (Prompt.multi_select message choices min_select max_select fuel w')
          (multi_select_header message choices ++ asked)%list diag
          (List.length (multi_select_header message choices)).
Proof.
  intros Hpass. rewrite !multi_select_header_run. cbv zeta.
  rewrite while_true_step, Hpass. unfold retried, result, remaining, trace.
  cbn [fst snd]. rewrite skipn_length_app.
  split; [reflexivity|]. split; [reflexivity|].
  rewrite <- !app_assoc. reflexivity.
Qed.

(** A pass that ends with a list makes the call return it. *)
Lemma multi_select_returned {V : Type} (message : string) (choices : list (Choice V))
    (min_select : Z) (max_select : option Z) fuel w w' asked selected :
  Prompt.multi_select_attempt choices min_select max_select w
  = (Return (Some selected), w', asked) ->
  Prompt.multi_select message choices min_select max_select (S fuel) w
  = (Return selected, w', (multi_select_header message choices ++ asked)%list).
Proof.
  intros Hpass. rewrite multi_select_header_run. cbv zeta.
  rewrite while_true_step, Hpass. reflexivity.
Qed.

End MultiSelectCalls.

(** C6: with no validators, [text] returns the first line it acquires
    (from [stream_in] with the trailing newline stripped, or from
    [getpass] in password mode), or the default when that line is empty
    and the default is not; the run writes the prompt once and takes
    exactly one input.  The message may be any string. *)
Theorem text_returns_first_line :
  forall (message default : string) (validators : option (list validator))
         (fuel : nat) (w : world),
    Prompt.or_empty validators = [] ->
    Prompt.text message default validators false (S fuel) w
    = (Return (or_default default (next_value w)), advance w,
       [EvWrite (text_prompt message default); EvRead (next_raw w)])
    /\ (forall line rest, tty w = line :: rest ->
        Prompt.text message default validators true (S fuel) w
        = (Return (or_default default line), mkWorld (stream_in w) rest,
           [EvWrite (text_prompt message default); EvGetpass line])).
Proof.
  intros message default validators fuel w Hv.
  unfold Prompt.text. rewrite Hv. split.
  - rewrite while_true_step. unfold Prompt.text_attempt.
    rewrite _write_then, _read_then. unfold text_prompt, or_default.
    destruct (truthy default); reflexivity.
  - intros line rest Htty. rewrite while_true_step. unfold Prompt.text_attempt.
    rewrite _write_then, (getpass_then _ _ _ _ Htty).
    unfold text_prompt, or_default. destruct (truthy default); reflexivity.
Qed.

(** C1: when the line [select] reads is empty and the default index is
    within the choices, [select] returns the value of the default choice
    after this single read; the [disabled] flag of that choice is not
    consulted, so this holds for a disabled default as well. *)
Theorem select_empty_input_returns_default :
  forall {builtins : PyBuiltins} (V : Type) (message : string)
         (choices : list (Choice V)) (default : Z) (fuel : nat) (w : world),
    0 <= default < len choices ->
    next_value w = "" ->
    exists choice,
      nth_error choices (Z.to_nat default) = Some choice
      /\ result (Prompt.select message choices default (S fuel) w)
         = Return (value choice)
      /\ remaining (Prompt.select message choices default (S fuel) w) = advance w.
Proof.
  intros builtins V message choices default fuel w Hrange Hempty.
  destruct (select_attempt_empty choices default w Hrange Hempty)
    as [choice [Hnth Hrun]].
  exists choice. split; [exact Hnth|].
  destruct (select_unfold message choices default) as [header Hsel].
  rewrite Hsel, while_true_step, Hrun. split; reflexivity.
Qed.

(** C8: [confirm] writes its prompt, reads exactly one line and returns:
    the default when the line is empty; otherwise [true] exactly when the
    lower-cased line is one of [y], [yes], [true], [1], and [false] for
    anything else.  There is no loop, hence no second prompt. *)
Theorem confirm_reads_one_line :
  forall (message : string) (default : bool) (w : world),
    exists answer : bool,
      Prompt.confirm message default w
      = (Return answer, advance w,
         [EvWrite (message ++ " " ++ (if default then "[Y/n]" else "[y/N]") ++ ": ");
          EvRead (next_raw w)])
      /\ (next_value w = "" -> answer = default)
      /\ (next_value w <> "" ->
          (answer = true <-> In (lower (next_value w)) ["y"; "yes"; "true"; "1"])
          /\ (~ In (lower (next_value w)) ["y"; "yes"; "true"; "1"] -> answer = false)).
Proof.
  intros message default w.
  exists (if negb (truthy (lower (next_value w))) then default
          else in_tuple (lower (next_value w)) ["y"; "yes"; "true"; "1"]).
  split; [|split].
  - unfold Prompt.confirm. rewrite _write_then, _read_then.
    destruct (negb (truthy (lower (next_value w)))); reflexivity.
  - intros Hempty. rewrite Hempty. reflexivity.
  - intros Hnonempty. apply truthy_true in Hnonempty.
    rewrite truthy_lower, Hnonempty. simpl negb. cbv iota.
    split; [apply in_tuple_In|].
    intros Hnot. destruct (in_tuple _ _) eqn:Hin; [|reflexivity].
    apply in_tuple_In in Hin. contradiction.
Qed.

(** C5: the validator [number(min_val, max_val)] answers "Must be a
    number" exactly when [float] rejects the input.  When the input
    parses, a value below the minimum gets the minimum message whatever
    the maximum is (the minimum is checked first), a value not below the
    minimum and above the maximum gets the maximum message, and a value
    that violates neither bound, in particular any value within
    [[min_val, max_val]], is valid. *)
Theorem number_checks_bounds_in_order :
  forall {builtins : PyBuiltins} (min_val max_val : option float) (value : string),
    exists r,
      pure (Validator.number min_val max_val value) r
      /\ (r = mkValidationResult false "Must be a number"
          <-> float_of_str value = None)
      /\ (forall num, float_of_str value = Some num ->
          (forall lo, min_val = Some lo -> SFltb num lo = true ->
             r = mkValidationResult false ("Minimum value is " ++ str_of_float lo))
          /\ (forall hi, max_val = Some hi -> SFltb hi num = true ->
              (forall lo, min_val = Some lo -> SFltb num lo = false) ->
              r = mkValidationResult false ("Maximum value is " ++ str_of_float hi))
          /\ ((forall lo, min_val = Some lo -> SFltb num lo = false) ->
              (forall hi, max_val = Some hi -> SFltb hi num = false) ->
              r = passed)
          /\ (within num min_val max_val -> r = passed)).
Proof.
  intros builtins min_val max_val value.
  assert (Hpassed : forall num,
             (forall lo, min_val = Some lo -> SFltb num lo = false) ->
             (forall hi, max_val = Some hi -> SFltb hi num = false) ->
             Validator.below num min_val = false /\ Validator.above num max_val = false).
  { intros num Hlo Hhi. split.
    - destruct min_val as [lo|]; [apply Hlo|]; reflexivity.
    - destruct max_val as [hi|]; [apply Hhi|]; reflexivity. }
  unfold Validator.number.
  destruct (float_of_str value) as [num|] eqn:Hparse.
  - destruct (Validator.below num min_val) eqn:Hbelow;
      [|destruct (Validator.above num max_val) eqn:Habove];
      (eexists; split; [apply pure_ret|]);
      (split; [split; [simpl; discriminate|discriminate]|]);
      intros num' Hnum'; injection Hnum' as <-.
    + assert (Hmin : forall lo, min_val = Some lo -> SFltb num lo = true).
      { intros lo ->. exact Hbelow. }
      split; [|split; [|split]].
      * intros lo ->. reflexivity.
      * intros hi _ _ Hlo. destruct min_val as [lo|]; [|discriminate].
        simpl in Hbelow. rewrite (Hlo lo eq_refl) in Hbelow. discriminate.
      * intros Hlo Hhi. destruct (Hpassed num Hlo Hhi). congruence.
      * intros [Hlo _]. destruct min_val as [lo|]; [|discriminate].
        simpl in Hbelow.
        rewrite (SFleb_not_ltb _ _ (Hlo lo eq_refl)) in Hbelow. discriminate.
    + split; [|split; [|split]].
      * intros lo -> Hlt. simpl in Hbelow. congruence.
      * intros hi -> _ _. reflexivity.
      * intros Hlo Hhi. destruct (Hpassed num Hlo Hhi). congruence.
      * intros [_ Hhi]. destruct max_val as [hi|]; [|discriminate].
        simpl in Habove.
        rewrite (SFleb_not_ltb _ _ (Hhi hi eq_refl)) in Habove. discriminate.
    + split; [|split; [|split]].
      * intros lo -> Hlt. simpl in Hbelow. congruence.
      * intros hi -> Hgt. simpl in Habove. congruence.
      * reflexivity.
      * reflexivity.
  - eexists. split; [apply pure_ret|]. split; [split; reflexivity|].
    intros num Hnum. discriminate.
Qed.

(** C10: given that [float("nan")] is the NaN, the validator
    [number(min_val, max_val)] accepts the input [nan] for every pair of
    bounds: a NaN is neither below nor above any float. *)
Theorem number_accepts_nan :
  forall {builtins : PyBuiltins} (min_val max_val : option float),
    float_of_str "nan" = Some S754_nan ->
    pure (Validator.number min_val max_val "nan") passed.
Proof.
  intros builtins min_val max_val Hnan w.
  unfold Validator.number. rewrite Hnan.
  assert (Hbelow : Validator.below S754_nan min_val = false).
  { destruct min_val; reflexivity. }
  assert (Habove : Validator.above S754_nan max_val = false).
  { destruct max_val as [hi|]; [apply SFltb_nan_r|reflexivity]. }
  rewrite Hbelow, Habove. reflexivity.
Qed.

(** C7: when [regex] compiles, [pattern(regex, message)] produces a
    validator that answers invalid with [message] exactly when
    [Pattern.match] finds no match at position 0, and valid as soon as it
    finds one, wherever that match stops: a match that covers only a
    prefix of the input passes, the end of the match is not looked at. *)
Theorem pattern_uses_match_semantics :
  forall {builtins : PyBuiltins} (regex message : string) (compiled : pattern_obj),
    re_compile regex = Some compiled ->
    exists validate,
      pure (Validator.pattern regex message) validate
      /\ forall value, exists r,
           pure (validate value) r
           /\ (r = mkValidationResult false message
               <-> re_match compiled value = None)
           /\ (forall stop, re_match compiled value = Some stop -> r = passed).
Proof.
  intros builtins regex message compiled Hcompile.
  eexists. split.
  - intros w. rewrite pattern_run, Hcompile. reflexivity.
  - intros value. simpl.
    destruct (re_match compiled value) as [stop|] eqn:Hmatch.
    + exists passed. split; [apply pure_ret|]. split.
      * split; discriminate.
      * reflexivity.
    + exists (mkValidationResult false message). split; [apply pure_ret|]. split.
      * split; reflexivity.
      * discriminate.
Qed.

(** C4: [multi_select] on a non-empty first line, once its header is
    written.  When every comma-separated token, stripped, parses as an
    integer, the function works with the list that holds, for each typed
    number in the order typed and as often as typed, the value of the
    choice the number designates, exactly when the number is within
    [1 .. len(choices)] and that choice is not disabled; the other numbers
    are dropped without a diagnostic.  The call returns that list, having
    read this one line, unless its length is outside the cardinality
    bounds; then it writes the diagnostic of the bound and goes round
    again.  When some token does not parse, nothing is kept: the call
    writes "Invalid input" and goes round again, reading the next line as
    a call on the rest of the input would. *)
Theorem multi_select_keeps_enabled_in_range :
  forall {builtins : PyBuiltins} (V : Type) (message : string)
         (choices : list (Choice V)) (min_select : Z) (max_select : option Z)
         (fuel : nat) (w : world),
    next_value w <> "" ->
    let header := multi_select_header message choices in
    let asked := (header ++ [EvWrite "Enter choices: "; EvRead (next_raw w)])%list in
    let call := Prompt.multi_select message choices min_select max_select (S fuel) w in
    let later := Prompt.multi_select message choices min_select max_select fuel
                                     (advance w) in
    (forall typed, tokens_parse (next_value w) typed ->
       let selected := spec_selected choices typed in
       (len selected < min_select ->
        retried call later asked (at_least min_select) (List.length header))
       /\ (forall k, min_select <= len selected ->
             max_select = Some k -> k <> 0 -> k < len selected ->
             retried call later asked (at_most k) (List.length header))
       /\ (min_select <= len selected ->
           (forall k, max_select = Some k -> k = 0 \/ len selected <= k) ->
           call = (Return selected, advance w, asked)))
    /\ (some_token_fails (next_value w) ->
        retried call later asked invalid_input (List.length header)).
Proof.
  intros builtins V message choices min_select max_select fuel w Hnonempty
         header asked call later.
  apply truthy_true in Hnonempty.
  pose proof (multi_select_attempt_run choices min_select max_select w) as Hrun.
  rewrite Hnonempty in Hrun. unfold multi_select_prompt in Hrun.
  split.
  - intros typed Hparse selected.
    rewrite (parse_indices_tokens _ _ Hparse), collect_spec in Hrun.
    fold selected in Hrun.
    split; [|split].
    + intros Hlt. apply Z.ltb_lt in Hlt. rewrite Hlt in Hrun.
      exact (multi_select_retried message choices min_select max_select fuel w
               (advance w) [EvWrite "Enter choices: "; EvRead (next_raw w)]
               (at_least min_select) Hrun).
    + intros k Hge Hmax Hk Hgt. subst max_select.
      assert (Hmin : (len selected <? min_select) = false) by (apply Z.ltb_ge; lia).
      assert (Hnz : (k =? 0) = false) by (apply Z.eqb_neq; exact Hk).
      assert (Hex : (len selected >? k) = true) by (apply Z.gtb_lt; lia).
      rewrite Hmin in Hrun. simpl in Hrun. rewrite Hnz, Hex in Hrun. simpl in Hrun.
      exact (multi_select_retried message choices min_select (Some k) fuel w
               (advance w) [EvWrite "Enter choices: "; EvRead (next_raw w)]
               (at_most k) Hrun).
    + intros Hge Hmax.
      assert (Hmin : (len selected <? min_select) = false) by (apply Z.ltb_ge; lia).
      assert (Hok : Prompt.truthy_int max_select
                    && Prompt.exceeds (len selected) max_select = false).
      { destruct max_select as [k|]; [|reflexivity]. simpl.
        destruct (Hmax k eq_refl) as [Hz|Hle].
        - subst k. reflexivity.
        - assert (Hex : (len selected >? k) = false).
          { destruct (len selected >? k) eqn:E; [|reflexivity].
            apply Z.gtb_lt in E. lia. }
          rewrite Hex. apply andb_false_r. }
      rewrite Hmin, Hok in Hrun.
      exact (multi_select_returned message choices min_select max_select fuel w
               (advance w) _ selected Hrun).
  - intros Hfail. rewrite (parse_indices_fails _ Hfail) in Hrun.
    exact (multi_select_retried message choices min_select max_select fuel w
             (advance w) [EvWrite "Enter choices: "; EvRead (next_raw w)]
             invalid_input Hrun).
Qed.

(** C3, the claim as stated fails: [autocomplete] asked for suggestions
    (a line that ends with a tab) when no suggestion begins with the text
    typed writes nothing and reads again; between the two reads only the
    prompt itself is written. *)
Lemma autocomplete_silent_reprompt :
  Prompt.autocomplete "City" ["Paris"; "Prague"] None 2 (typing ["Lo" ++ tab; "Rome"])
  = (Return "Rome", typing [],
     [EvWrite "City (tab for suggestions): "; EvRead ("Lo" ++ tab ++ nl);
      EvWrite "City (tab for suggestions): "; EvRead ("Rome" ++ nl)])
  /\ reprompts (trace (Prompt.autocomplete "City" ["Paris"; "Prague"] None 2
                                           (typing ["Lo" ++ tab; "Rome"])))
     = [("Lo" ++ tab, ["City (tab for suggestions): "])]
  /\ forallb (explained (autocomplete_prompt "City"))
             (reprompts (trace (Prompt.autocomplete "City" ["Paris"; "Prague"] None 2
                                                    (typing ["Lo" ++ tab; "Rome"]))))
     = false.
Proof. repeat split. Qed.

(** C3, amended: in [text], [select] and [multi_select] every re-prompt is
    explained: between an input and the next one the engine writes
    exactly one diagnostic line and then the prompt.  In [autocomplete] the
    same holds after a line the validators reject, while after a request
    for suggestions (a line ending with a tab) it writes the suggestion
    line when some suggestion begins with the text typed, nothing when
    none does, and then the prompt.  [confirm] never reads a second line.
    The validators are assumed pure; the property holds of every run,
    finished or not. *)
Theorem reprompts_are_explained :
  forall {builtins : PyBuiltins},
    (forall message default validators password fuel w,
        Forall pure_validator (Prompt.or_empty validators) ->
        forallb (explained (text_prompt message default))
                (reprompts (trace (Prompt.text message default validators
                                               password fuel w))) = true)
    /\ (forall (V : Type) message (choices : list (Choice V)) default fuel w,
        forallb (explained (select_prompt choices))
                (reprompts (trace (Prompt.select message choices default fuel w)))
        = true)
    /\ (forall (V : Type) message (choices : list (Choice V)) min_select
               max_select fuel w,
        forallb (explained multi_select_prompt)
                (reprompts (trace (Prompt.multi_select message choices min_select
                                                       max_select fuel w))) = true)
    /\ (forall message suggestions validators fuel w,
        Forall pure_validator (Prompt.or_empty validators) ->
        forallb (answered suggestions (autocomplete_prompt message))
                (reprompts (trace (Prompt.autocomplete message suggestions
                                                       validators fuel w))) = true)
    /\ (forall message default w,
        reprompts (trace (Prompt.confirm message default w)) = []).
Proof.
  intros builtins. split; [|split; [|split; [|split]]].
  - intros message default validators password fuel w Hpure.
    unfold Prompt.text.
    apply (Forall_forallb _ _ _ (reprompt_explained (text_prompt message default))).
    apply (loop_after_header _ _ _ [] fuel w).
    apply text_attempt_spec. exact Hpure.
  - intros V message choices default fuel w.
    destruct (select_unfold message choices default) as [header Hsel].
    rewrite Hsel. unfold trace at 1. simpl snd.
    apply (Forall_forallb _ _ _ (reprompt_explained (select_prompt choices))).
    apply loop_after_header. apply select_attempt_spec.
  - intros V message choices min_select max_select fuel w.
    destruct (multi_select_unfold message choices min_select max_select)
      as [header Hsel].
    rewrite Hsel. unfold trace at 1. simpl snd.
    apply (Forall_forallb _ _ _ (reprompt_explained multi_select_prompt)).
    apply loop_after_header. apply multi_select_attempt_spec.
  - intros message suggestions validators fuel w Hpure.
    unfold Prompt.autocomplete.
    apply (Forall_forallb _ _ _
             (reprompt_answered suggestions (autocomplete_prompt message))).
    apply (loop_after_header _ _ _ [] fuel w).
    apply autocomplete_attempt_spec. exact Hpure.
  - intros message default w.
    unfold Prompt.confirm. rewrite _write_then, _read_then.
    destruct (negb (truthy (lower (next_value w)))); reflexivity.
Qed.

(** C2, where the code departs from the claim: with [max_select = 0] the
    maximum is not enforced.  One enabled choice, [min_select = 0],
    [max_select = 0] and the answer [1]: the attempt keeps one value, more
    than the maximum, and [multi_select] returns it at once instead of
    reporting the maximum and asking again. *)
Theorem multi_select_ignores_zero_maximum :
  Prompt.multi_select (builtins := ref_builtins) "Pick"
    [mkChoice "a" "A" false ""] 0 (Some 0) 1 (typing ["1"])
  = (Return ["a"], typing [],
     [EvWrite ("Pick (comma-separated numbers)" ++ nl);
      EvWrite ("  1. A" ++ nl);
      EvWrite "Enter choices: ";
      EvRead ("1" ++ nl)]).
Proof. reflexivity. Qed.

(** ** The worked examples of the specification *)

Example required_examples :
  Validator.required "" (typing [])
  = (Return (mkValidationResult false "This field is required"), typing [], [])
  /\ Validator.required "   " (typing [])
     = (Return (mkValidationResult false "This field is required"), typing [], [])
  /\ Validator.required "a" (typing []) = (Return passed, typing [], []).
Proof. repeat split. Qed.

Example number_examples :
  map (fun value =>
         result (Validator.number (builtins := ref_builtins)
                   (Some (float_of_int 0)) (Some (float_of_int 150)) value (typing [])))
      ["abc"; "-1"; "200"; "42"; "nan"; " 1.5e2 "]
  = [Return (mkValidationResult false "Must be a number");
     Return (mkValidationResult false "Minimum value is 0.0");
     Return (mkValidationResult false "Maximum value is 150.0");
     Return passed; Return passed; Return passed].
Proof. reflexivity. Qed.

Example length_examples :
  result (Validator.min_length 3 "ab" (typing []))
  = Return (mkValidationResult false "Minimum length is 3")
  /\ result (Validator.max_length 3 "abc" (typing [])) = Return passed.
Proof. split; reflexivity. Qed.

Example email_examples :
  forall validate,
    result (Validator.email (builtins := ref_builtins) (typing [])) = Return validate ->
    result (validate "john.doe@example.com" (typing [])) = Return passed
    /\ result (validate "john.doe@example" (typing []))
       = Return (mkValidationResult false "Invalid email address").
Proof.
  intros validate Hrun. injection Hrun as <-. split; reflexivity.
Qed.

Example select_disabled_default :
  Prompt.select (builtins := ref_builtins) "Pick" abc_choices 2 1 (typing [""])
  = (Return "c", typing [],
     [EvWrite ("Pick" ++ nl);
      EvWrite ("    1. A" ++ nl);
      EvWrite ("    2. B" ++ nl);
      EvWrite ("  > 3. C (disabled)" ++ nl);
      EvWrite "Enter choice [1-3]: ";
      EvRead nl]).
Proof. reflexivity. Qed.

Example select_out_of_range_then_valid :
  Prompt.select (builtins := ref_builtins) "Pick" abc_choices 0 2 (typing ["4"; "1"])
  = (Return "a", typing [],
     [EvWrite ("Pick" ++ nl);
      EvWrite ("  > 1. A" ++ nl);
      EvWrite ("    2. B" ++ nl);
      EvWrite ("    3. C (disabled)" ++ nl);
      EvWrite "Enter choice [1-3]: ";
      EvRead ("4" ++ nl);
      EvWrite ("  " ++ cross ++ " Invalid selection" ++ nl);
      EvWrite "Enter choice [1-3]: ";
      EvRead ("1" ++ nl)]).
Proof. reflexivity. Qed.

Example select_disabled_choice_is_refused :
  Prompt.select (builtins := ref_builtins) "Pick" abc_choices 0 1 (typing ["3"])
  = (Pending, typing [],
     [EvWrite ("Pick" ++ nl);
      EvWrite ("  > 1. A" ++ nl);
      EvWrite ("    2. B" ++ nl);
      EvWrite ("    3. C (disabled)" ++ nl);
      EvWrite "Enter choice [1-3]: ";
      EvRead ("3" ++ nl);
      EvWrite ("  " ++ cross ++ " This option is disabled" ++ nl)]).
Proof. reflexivity. Qed.

Example multi_select_drops_disabled :
  Prompt.multi_select (builtins := ref_builtins) "Pick" abc_choices 1 (Some 2) 1
                      (typing ["1,3,2"])
  = (Return ["a"; "b"], typing [],
     [EvWrite ("Pick (comma-separated numbers)" ++ nl);
      EvWrite ("  1. A" ++ nl);
      EvWrite ("  2. B" ++ nl);
      EvWrite ("  3. C (disabled)" ++ nl);
      EvWrite "Enter choices: ";
      EvRead ("1,3,2" ++ nl)]).
Proof. reflexivity. Qed.

Example multi_select_empty_with_no_minimum :
  result (Prompt.multi_select (builtins := ref_builtins) "Pick" abc_choices 0 None 1
                              (typing [""]))
  = Return [].
Proof. reflexivity. Qed.

Example multi_select_enforces_nonzero_maximum :
  Prompt.multi_select (builtins := ref_builtins) "Pick" abc_choices 0 (Some 1) 2
                      (typing ["1, 2"; "2"])
  = (Return ["b"], typing [],
     [EvWrite ("Pick (comma-separated numbers)" ++ nl);
      EvWrite ("  1. A" ++ nl);
      EvWrite ("  2. B" ++ nl);
      EvWrite ("  3. C (disabled)" ++ nl);
      EvWrite "Enter choices: ";
      EvRead ("1, 2" ++ nl);
      EvWrite ("  " ++ cross ++ " Select at most 1 options" ++ nl);
      EvWrite "Enter choices: ";
      EvRead ("2" ++ nl)]).
Proof. reflexivity. Qed.

Example multi_select_discards_unparsed_attempt :
  Prompt.multi_select (builtins := ref_builtins) "Pick" abc_choices 0 None 2
                      (typing ["1, x"; "7, 2, 3, 2"])
  = (Return ["b"; "b"], typing [],
     [EvWrite ("Pick (comma-separated numbers)" ++ nl);
      EvWrite ("  1. A" ++ nl);
      EvWrite ("  2. B" ++ nl);
      EvWrite ("  3. C (disabled)" ++ nl);
      EvWrite "Enter choices: ";
      EvRead ("1, x" ++ nl);
      EvWrite ("  " ++ cross ++ " Invalid input" ++ nl);
      EvWrite "Enter choices: ";
      EvRead ("7, 2, 3, 2" ++ nl)]).
Proof. reflexivity. Qed.

Example text_password_at_end_of_input :
  Prompt.text "Secret" "" None true 1 (typing [])
  = (Raise EOFError, typing [], [EvWrite "Secret: "]).
Proof. reflexivity. Qed.

(** ** The theorems at concrete inputs *)

Lemma text_returns_first_line_witness :
  Prompt.or_empty None = ([] : list validator)
  /\ Prompt.text "Name" "anonymous" None false 1 (typing [""; "Ann"])
     = (Return "anonymous", typing ["Ann"],
        [EvWrite "Name [anonymous]: "; EvRead nl]).
Proof.
  split; [reflexivity|].
  exact (proj1 (text_returns_first_line "Name" "anonymous" None 0
                  (typing [""; "Ann"]) eq_refl)).
Defined.

Lemma select_empty_input_returns_default_witness :
  0 <= 2 < len abc_choices
  /\ next_value (typing [""]) = ""
  /\ exists choice,
       nth_error abc_choices (Z.to_nat 2) = Some choice
       /\ result (Prompt.select (builtins := ref_builtins) "Pick" abc_choices 2 1
                                (typing [""]))
          = Return (value choice)
       /\ remaining (Prompt.select (builtins := ref_builtins) "Pick" abc_choices 2 1
                                   (typing [""]))
          = advance (typing [""]).
Proof.
  assert (Hrange : 0 <= 2 < len abc_choices) by (split; discriminate || reflexivity).
  split; [exact Hrange|]. split; [reflexivity|].
  exact (select_empty_input_returns_default (builtins := ref_builtins) string "Pick"
           abc_choices 2 0 (typing [""]) Hrange eq_refl).
Defined.

Lemma confirm_reads_one_line_witness :
  next_value (typing ["YES"]) <> ""
  /\ Prompt.confirm "Continue?" false (typing ["YES"])
     = (Return true, typing [], [EvWrite "Continue? [y/N]: "; EvRead ("YES" ++ nl)]).
Proof.
  assert (Hne : next_value (typing ["YES"]) <> "") by discriminate.
  split; [exact Hne|].
  destruct (confirm_reads_one_line "Continue?" false (typing ["YES"]))
    as [answer [Hrun [_ Hcases]]].
  destruct (Hcases Hne) as [[_ Htrue] _].
  rewrite Hrun, Htrue; [reflexivity|].
  right. left. reflexivity.
Defined.

Lemma number_accepts_nan_witness :
  float_of_str (PyBuiltins := ref_builtins) "nan" = Some S754_nan
  /\ pure (Validator.number (builtins := ref_builtins)
             (Some (float_of_int 0)) (Some (float_of_int 150)) "nan") passed.
Proof.
  split; [reflexivity|].
  exact (number_accepts_nan (builtins := ref_builtins)
           (Some (float_of_int 0)) (Some (float_of_int 150)) eq_refl).
Defined.

Lemma number_checks_bounds_in_order_witness :
  float_of_str (PyBuiltins := ref_builtins) "200" = Some (float_of_int 200)
  /\ SFltb (float_of_int 150) (float_of_int 200) = true
  /\ SFltb (float_of_int 200) (float_of_int 0) = false
  /\ pure (Validator.number (builtins := ref_builtins)
             (Some (float_of_int 0)) (Some (float_of_int 150)) "200")
          (mkValidationResult false "Maximum value is 150.0").
Proof.
  split; [reflexivity|]. split; [reflexivity|]. split; [reflexivity|].
  destruct (number_checks_bounds_in_order (builtins := ref_builtins)
              (Some (float_of_int 0)) (Some (float_of_int 150)) "200")
    as [r [Hpure [_ Hcases]]].
  destruct (Hcases (float_of_int 200) eq_refl) as [_ [Hmax _]].
  rewrite (Hmax (float_of_int 150) eq_refl eq_refl) in Hpure.
  - exact Hpure.
  - intros lo Hlo. injection Hlo as <-. reflexivity.
Defined.

Lemma pattern_uses_match_semantics_witness :
  re_compile (PyBuiltins := ref_builtins) "ab"
  = Some (Ref.Regex.Seq (Ref.Regex.literal "a")
            (Ref.Regex.Seq (Ref.Regex.literal "b") Ref.Regex.Empty))
  /\ Ref.Regex.re_match (Ref.Regex.Seq (Ref.Regex.literal "a")
                           (Ref.Regex.Seq (Ref.Regex.literal "b") Ref.Regex.Empty))
                        "abc" = Some 2%nat
  /\ Ref.Regex.re_fullmatch (Ref.Regex.Seq (Ref.Regex.literal "a")
                               (Ref.Regex.Seq (Ref.Regex.literal "b") Ref.Regex.Empty))
                            "abc" = None
  /\ exists validate,
       pure (Validator.pattern (builtins := ref_builtins) "ab" "Invalid format") validate
       /\ pure (validate "abc") passed
       /\ pure (validate "ba") (mkValidationResult false "Invalid format").
Proof.
  split; [reflexivity|]. split; [reflexivity|]. split; [reflexivity|].
  destruct (pattern_uses_match_semantics (builtins := ref_builtins) "ab"
              "Invalid format" _ eq_refl) as [validate [Hpure Hvalidate]].
  exists validate. split; [exact Hpure|]. split.
  - destruct (Hvalidate "abc") as [r [Hr [_ Hpass]]].
    rewrite (Hpass 2%nat eq_refl) in Hr. exact Hr.
  - destruct (Hvalidate "ba") as [r [Hr [[_ Hfail] _]]].
    rewrite (Hfail eq_refl) in Hr. exact Hr.
Defined.

Lemma multi_select_keeps_enabled_in_range_witness :
  next_value (typing ["1,3,2"; "x"]) <> ""
  /\ tokens_parse (H := ref_builtins) (next_value (typing ["1,3,2"; "x"])) [1; 3; 2]
  /\ spec_selected abc_choices [1; 3; 2] = ["a"; "b"]
  /\ Prompt.multi_select (builtins := ref_builtins) "Pick" abc_choices 1 (Some 2) 1
                         (typing ["1,3,2"; "x"])
     = (Return ["a"; "b"], typing ["x"],
        [EvWrite ("Pick (comma-separated numbers)" ++ nl);
         EvWrite ("  1. A" ++ nl); EvWrite ("  2. B" ++ nl);
         EvWrite ("  3. C (disabled)" ++ nl);
         EvWrite "Enter choices: "; EvRead ("1,3,2" ++ nl)])
  /\ next_value (typing ["1, x"; "2"]) <> ""
  /\ some_token_fails (H := ref_builtins) (next_value (typing ["1, x"; "2"]))
  /\ retried (Prompt.multi_select (builtins := ref_builtins) "Pick" abc_choices 1
                                  (Some 2) 2 (typing ["1, x"; "2"]))
             (Prompt.multi_select (builtins := ref_builtins) "Pick" abc_choices 1
                                  (Some 2) 1 (typing ["2"]))
             (multi_select_header "Pick" abc_choices
              ++ [EvWrite "Enter choices: "; EvRead ("1, x" ++ nl)])%list
             invalid_input 4.
Proof.
  assert (Hne : next_value (typing ["1,3,2"; "x"]) <> "") by discriminate.
  assert (Hparse : tokens_parse (H := ref_builtins)
                                (next_value (typing ["1,3,2"; "x"])) [1; 3; 2]).
  { repeat constructor. }
  assert (Hne' : next_value (typing ["1, x"; "2"]) <> "") by discriminate.
  assert (Hfail : some_token_fails (H := ref_builtins)
                                   (next_value (typing ["1, x"; "2"]))).
  { apply Exists_cons_tl. apply Exists_cons_hd. reflexivity. }
  split; [exact Hne|]. split; [exact Hparse|]. split; [reflexivity|].
  split; [|split; [exact Hne'|split; [exact Hfail|]]].
  - destruct (multi_select_keeps_enabled_in_range (builtins := ref_builtins) string
                "Pick" abc_choices 1 (Some 2) 0 (typing ["1,3,2"; "x"]) Hne)
      as [Hok _].
    destruct (Hok [1; 3; 2] Hparse) as [_ [_ Hreturn]].
    apply Hreturn.
    + discriminate.
    + intros k Hk. injection Hk as <-. right. discriminate.
  - destruct (multi_select_keeps_enabled_in_range (builtins := ref_builtins) string
                "Pick" abc_choices 1 (Some 2) 1 (typing ["1, x"; "2"]) Hne')
      as [_ Hretry].
    exact (Hretry Hfail).
Defined.

Lemma reprompts_are_explained_witness :
  Forall pure_validator (Prompt.or_empty (Some [Validator.required]))
  /\ reprompts (trace (Prompt.text "Name" "" (Some [Validator.required]) false 3
                                   (typing [""; "Ann"])))
     = [("", ["  " ++ cross ++ " This field is required" ++ nl; "Name: "])]
  /\ forallb (explained (text_prompt "Name" ""))
             (reprompts (trace (Prompt.text "Name" "" (Some [Validator.required]) false 3
                                            (typing [""; "Ann"])))) = true
  /\ forallb (answered ["Paris"; "Prague"] (autocomplete_prompt "City"))
             (reprompts (trace (Prompt.autocomplete "City" ["Paris"; "Prague"]
                                  (Some [Validator.required]) 3
                                  (typing ["P" ++ tab; ""; "Paris"])))) = true.
Proof.
  assert (Hpure : Forall pure_validator (Prompt.or_empty (Some [Validator.required]))).
  { constructor; [|constructor]. intros value. apply required_pure. }
  split; [exact Hpure|]. split; [reflexivity|].
  destruct (reprompts_are_explained (builtins := ref_builtins))
    as [Htext [_ [_ [Hauto _]]]].
  split.
  - apply Htext. exact Hpure.
  - apply Hauto. exact Hpure.
Defined.

(** ** Further facts about strings *)

Lemma rstrip_by_split (p : ascii -> bool) (s : string) :
  exists suffix,
    s = rstrip_by p s ++ suffix
    /\ forallb p (list_ascii_of_string suffix) = true.
Proof.
  induction s as [|c s IH]; simpl.
  - exists "". split; reflexivity.
  - destruct IH as [suffix [Hs Hall]].
    destruct (rstrip_by p s) as [|c' r] eqn:Hr.
    + destruct (p c) eqn:Hc.
      * exists (String c suffix). simpl in Hs. subst s. simpl.
        rewrite Hc, Hall. split; reflexivity.
      * exists suffix. split; [simpl; f_equal; exact Hs|exact Hall].
    + exists suffix. split; [simpl; f_equal; exact Hs|exact Hall].
Qed.

Lemma rstrip_by_empty (p : ascii -> bool) (s : string) :
  rstrip_by p s = "" <-> forallb p (list_ascii_of_string s) = true.
Proof.
  induction s as [|c s IH]; simpl.
  - split; reflexivity.
  - destruct (rstrip_by p s) as [|c' r] eqn:Hr.
    + destruct (p c); simpl.
      * split; intros _; [apply IH|]; reflexivity.
      * split; discriminate.
    + split; [discriminate|]. intros Hall.
      apply andb_true_iff in Hall. destruct Hall as [_ Hall].
      apply IH in Hall. discriminate.
Qed.

Lemma endswith_char_cons (c a : ascii) (s : string) :
  s <> "" -> endswith (String a s) (String c "") = endswith s (String c "").
Proof.
  intros Hne. simpl. destruct s as [|b s]; [contradiction|].
  destruct (Ascii.eqb a c); reflexivity.
Qed.

Lemma rstrip_by_last (p : ascii -> bool) (c : ascii) (s : string) :
  p c = true -> endswith (rstrip_by p s) (String c "") = false.
Proof.
  intros Hc. induction s as [|a s IH]; simpl.
  - reflexivity.
  - destruct (rstrip_by p s) as [|b r] eqn:Hr.
    + destruct (p a) eqn:Ha; [reflexivity|].
      simpl. destruct (Ascii.eqb a c) eqn:Hac; [|reflexivity].
      apply Ascii.eqb_eq in Hac. congruence.
    + rewrite endswith_char_cons by discriminate. exact IH.
Qed.

Lemma all_newlines (suffix : string) :
  forallb (fun c => mem_char c nl) (list_ascii_of_string suffix) = true ->
  suffix = newlines (String.length suffix).
Proof.
  induction suffix as [|c s IH]; simpl.
  - reflexivity.
  - intros Hall. apply andb_true_iff in Hall. destruct Hall as [Hc Hall].
    unfold mem_char in Hc. simpl in Hc. rewrite orb_false_r in Hc.
    apply Ascii.eqb_eq in Hc. subst c. rewrite <- (IH Hall). reflexivity.
Qed.

Lemma lstrip_by_cases (p : ascii -> bool) (s : string) :
  (forallb p (list_ascii_of_string s) = true /\ lstrip_by p s = "")
  \/ (forallb p (list_ascii_of_string s) = false
      /\ exists c t, lstrip_by p s = String c t /\ p c = false).
Proof.
  induction s as [|c s IH]; simpl.
  - left. split; reflexivity.
  - destruct (p c) eqn:Hc; simpl.
    + exact IH.
    + right. split; [reflexivity|]. exists c, s. split; [reflexivity|exact Hc].
Qed.

Lemma truthy_strip (s : string) : truthy (strip s) = negb (blank s).
Proof.
  unfold strip, blank.
  destruct (lstrip_by_cases is_space s) as [[Hall Hl]|[Hall [c [t [Hl Hc]]]]];
    rewrite Hall, Hl; simpl.
  - reflexivity.
  - destruct (rstrip_by is_space t); [rewrite Hc|]; reflexivity.
Qed.

Lemma required_run (value : string) :
  pure (Validator.required value)
       (if blank value then mkValidationResult false "This field is required"
        else passed).
Proof.
  intros w. unfold Validator.required. rewrite truthy_strip.
  destruct value as [|c s].
  - reflexivity.
  - change (truthy (String c s)) with true.
    destruct (blank (String c s)); reflexivity.
Qed.

Lemma accepts_required (value : string) :
  blank value = false -> accepts Validator.required value.
Proof.
  intros Hb. exists passed. split; [|reflexivity].
  pose proof (required_run value) as Hrun. rewrite Hb in Hrun. exact Hrun.
Qed.

Lemma rejects_required (value : string) :
  blank value = true -> rejects Validator.required value "This field is required".
Proof.
  intros Hb. exists (mkValidationResult false "This field is required").
  split; [|split; reflexivity].
  pose proof (required_run value) as Hrun. rewrite Hb in Hrun. exact Hrun.
Qed.

(** ** The validator chain *)

Lemma run_validators_accepts (validators : list validator) (value : string) :
  chain_accepts validators value ->
  pure (Prompt.run_validators validators value) true.
Proof.
  induction 1 as [|v rest [r [Hr Hvalid]] _ IH]; intros w.
  - reflexivity.
  - simpl. rewrite (bind_return _ _ _ _ _ _ (Hr w)), Hvalid.
    cbv beta iota zeta delta [negb]. rewrite IH. reflexivity.
Qed.

Lemma run_validators_rejects (validators : list validator) (value msg : string) :
  chain_rejects validators value msg ->
  forall w, Prompt.run_validators validators value w
            = (Return false, w, [EvWrite (diagnostic msg)]).
Proof.
  intros [pre [v [post [-> [Hpre [r [Hr [Hvalid Hmsg]]]]]]]] w.
  induction Hpre as [|u pre [ru [Hu Hvu]] _ IH]; simpl.
  - rewrite (bind_return _ _ _ _ _ _ (Hr w)), Hvalid, Hmsg. reflexivity.
  - rewrite (bind_return _ _ _ _ _ _ (Hu w)), Hvu.
    cbv beta iota zeta delta [negb]. rewrite IH. reflexivity.
Qed.

Lemma run_validators_decides (validators : list validator) (value : string) :
  Forall pure_validator validators ->
  chain_accepts validators value \/ exists msg, chain_rejects validators value msg.
Proof.
  induction 1 as [|v rest Hv _ IH].
  - left. constructor.
  - destruct (Hv value) as [r Hr]. destruct (valid r) eqn:Hvalid.
    + destruct IH as [Hok|[msg [pre [u [post [-> [Hpre Hu]]]]]]].
      * left. constructor; [exists r; split; assumption|exact Hok].
      * right. exists msg, (v :: pre), u, post. split; [reflexivity|]. split; [|exact Hu].
        constructor; [exists r; split; assumption|exact Hpre].
    + right. exists (message r), [], v, rest. split; [reflexivity|].
      split; [constructor|]. exists r. repeat split; assumption.
Qed.

(** ** Loops that return *)

Lemma while_true_returns {A : Type} (body : io (option A)) fuel w a w' t :
  while_true fuel body w = (Return a, w', t) ->
  exists w0 t0 t1,
    t = (t0 ++ t1)%list /\ body w0 = (Return (Some a), w', t1).
Proof.
  revert w t. induction fuel as [|fuel IH]; intros w t Hrun.
  - discriminate Hrun.
  - rewrite while_true_step in Hrun.
    destruct (body w) as [[r w1] t1] eqn:Hbody.
    destruct r as [[b|]|e|]; try discriminate Hrun.
    + injection Hrun as <- <- <-. exists w, [], t1. split; [reflexivity|exact Hbody].
    + destruct (while_true fuel body w1) as [[r2 w2] t2] eqn:Hrest.
      unfold result, remaining, trace in Hrun. simpl in Hrun.
      injection Hrun as -> -> <-.
      destruct (IH w1 t2 Hrest) as [w0 [t0 [t3 [-> Hlast]]]].
      exists w0, (t1 ++ t0)%list, t3. split; [apply app_assoc|exact Hlast].
Qed.

Lemma while_true_more_fuel {A : Type} (body : io (option A)) fuel extra w a w' t :
  while_true fuel body w = (Return a, w', t) ->
  while_true (fuel + extra) body w = (Return a, w', t).
Proof.
  revert w t. induction fuel as [|fuel IH]; intros w t Hrun.
  - discriminate Hrun.
  - change (S fuel + extra)%nat with (S (fuel + extra)).
    rewrite while_true_step in *.
    destruct (body w) as [[r w1] t1].
    destruct r as [[b|]|e|]; try discriminate Hrun; [exact Hrun|].
    destruct (while_true fuel body w1) as [[r2 w2] t2] eqn:Hrest.
    unfold result, remaining, trace in Hrun. simpl in Hrun.
    injection Hrun as -> -> <-.
    rewrite (IH w1 t2 Hrest). reflexivity.
Qed.

(** ** text *)

Lemma text_attempt_run (message default : string) (validators : list validator) w :
  Prompt.text_attempt message default validators false w
  = (result (bind (Prompt.run_validators validators (or_default default (next_value w)))
                  (fun valid => if valid
                                then ret (Some (or_default default (next_value w)))
                                else ret None) (advance w)),
     remaining (bind (Prompt.run_validators validators
                        (or_default default (next_value w)))
                     (fun valid => if valid
                                   then ret (Some (or_default default (next_value w)))
                                   else ret None) (advance w)),
     EvWrite (text_prompt message default) :: EvRead (next_raw w)
     :: trace (bind (Prompt.run_validators validators
                       (or_default default (next_value w)))
                    (fun valid => if valid
                                  then ret (Some (or_default default (next_value w)))
                                  else ret None) (advance w))).
Proof.
  assert (Hprompt : (if truthy default then message ++ " [" ++ default ++ "]"
                     else message) ++ ": " = text_prompt message default).
  { unfold text_prompt. destruct (truthy default); reflexivity. }
  unfold Prompt.text_attempt. cbv zeta. rewrite Hprompt, _write_then, _read_then.
  reflexivity.
Qed.

Lemma text_attempt_accepted (message default : string) (validators : list validator) w :
  chain_accepts validators (or_default default (next_value w)) ->
  Prompt.text_attempt message default validators false w
  = (Return (Some (or_default default (next_value w))), advance w,
     [EvWrite (text_prompt message default); EvRead (next_raw w)]).
Proof.
  intros Hok. rewrite text_attempt_run.
  rewrite (bind_return _ _ _ _ _ _ (run_validators_accepts _ _ Hok (advance w))).
  reflexivity.
Qed.

Lemma text_attempt_rejected (message default msg : string)
    (validators : list validator) w :
  chain_rejects validators (or_default default (next_value w)) msg ->
  Prompt.text_attempt message default validators false w
  = (Return None, advance w,
     [EvWrite (text_prompt message default); EvRead (next_raw w);
      EvWrite (diagnostic msg)]).
Proof.
  intros Hno. rewrite text_attempt_run.
  rewrite (bind_return _ _ _ _ _ _ (run_validators_rejects _ _ _ Hno (advance w))).
  reflexivity.
Qed.

Lemma text_attempt_returned (message default : string) (validators : list validator)
    (password : bool) w v w' t :
  Forall pure_validator validators ->
  Prompt.text_attempt message default validators password w = (Return (Some v), w', t) ->
  chain_accepts validators v
  /\ exists e, t = [EvWrite (text_prompt message default); e]
               /\ is_input e = true
               /\ v = or_default default (input_value e).
Proof.
  intros Hpure.
  assert (Hprompt : (if truthy default then message ++ " [" ++ default ++ "]"
                     else message) ++ ": " = text_prompt message default).
  { unfold text_prompt. destruct (truthy default); reflexivity. }
  assert (Hvalidate : forall value w0 e,
    bind (Prompt.run_validators validators (or_default default value))
         (fun valid => if valid then ret (Some (or_default default value)) else ret None)
         w0 = (Return (Some v), w', e) ->
    chain_accepts validators v /\ e = [] /\ v = or_default default value).
  { intros value w0 e Hrun.
    destruct (run_validators_decides validators (or_default default value) Hpure)
      as [Hok|[msg Hno]].
    - rewrite (bind_return _ _ _ _ _ _ (run_validators_accepts _ _ Hok w0)) in Hrun.
      injection Hrun as <- _ <-. repeat split. exact Hok.
    - rewrite (bind_return _ _ _ _ _ _ (run_validators_rejects _ _ _ Hno w0)) in Hrun.
      discriminate Hrun. }
  unfold Prompt.text_attempt. cbv zeta. rewrite Hprompt, _write_then.
  destruct password.
  - destruct (tty w) as [|line rest] eqn:Htty.
    + rewrite (getpass_eof _ _ Htty). discriminate.
    + rewrite (getpass_then _ _ _ _ Htty). cbv beta.
      fold (or_default default line).
      destruct (bind _ _ _) as [[r w1] t1] eqn:Hrun.
      unfold result, remaining, trace. simpl. intros Heq.
      injection Heq as -> -> <-.
      destruct (Hvalidate line _ _ Hrun) as [Hok [-> ->]].
      split; [exact Hok|]. exists (EvGetpass line). repeat split.
  - rewrite _read_then. cbv beta. fold (or_default default (next_value w)).
    destruct (bind _ _ _) as [[r w1] t1] eqn:Hrun.
    unfold result, remaining, trace. simpl. intros Heq.
    injection Heq as -> -> <-.
    destruct (Hvalidate (next_value w) _ _ Hrun) as [Hok [-> ->]].
    split; [exact Hok|]. exists (EvRead (next_raw w)). repeat split.
Qed.

(** ** select *)

Lemma range_shift (n m : Z) :
  (0 <=? n - 1) && (n - 1 <? m) = (1 <=? n) && (n <=? m).
Proof.
  destruct (1 <=? n) eqn:H1, (0 <=? n - 1) eqn:H2,
           (n <=? m) eqn:H3, (n - 1 <? m) eqn:H4;
    try reflexivity; exfalso;
    rewrite ?Z.leb_le, ?Z.leb_gt, ?Z.ltb_lt, ?Z.ltb_ge in *; lia.
Qed.

Lemma getitem_item_at {A : Type} (items : list A) (i : Z) w :
  getitem items i w
  = match item_at items i with
    | Some x => (Return x, w, [])
    | None => (Raise IndexError, w, [])
    end.
Proof.
  unfold getitem, item_at, len. cbv zeta.
  destruct (i <? 0) eqn:Hneg.
  - apply Z.ltb_lt in Hneg.
    destruct (- Z.of_nat (List.length items) <=? i) eqn:Hlo; simpl andb; cbv iota.
    + apply Z.leb_le in Hlo.
      destruct (i + Z.of_nat (List.length items) <? 0) eqn:Hj;
        [apply Z.ltb_lt in Hj; lia|].
      rewrite (Z.add_comm (Z.of_nat (List.length items)) i).
      destruct (nth_error items _); reflexivity.
    + apply Z.leb_gt in Hlo.
      destruct (i + Z.of_nat (List.length items) <? 0) eqn:Hj;
        [|apply Z.ltb_ge in Hj; lia].
      destruct (0 <=? i) eqn:Hz; [apply Z.leb_le in Hz; lia|]. reflexivity.
  - cbv iota. rewrite Hneg. apply Z.ltb_ge in Hneg.
    destruct (- Z.of_nat (List.length items) <=? i); simpl andb; cbv iota;
      (destruct (0 <=? i) eqn:Hz; [|apply Z.leb_gt in Hz; lia]); simpl andb;
      (destruct (i <? Z.of_nat (List.length items)) eqn:Hhi;
       [destruct (nth_error items (Z.to_nat i)); reflexivity|]);
      apply Z.ltb_ge in Hhi;
      (destruct (nth_error items (Z.to_nat i)) eqn:Hnth; [|reflexivity]);
      assert (Hlt : (Z.to_nat i < List.length items)%nat)
        by (apply nth_error_Some; rewrite Hnth; discriminate);
      lia.
Qed.

Section SelectRuns.
Context {builtins : PyBuiltins}.

Lemma select_attempt_run {V : Type} (choices : list (Choice V)) (default : Z) w :
  Prompt.select_attempt choices default w
  = if truthy (next_value w) then
      match selected_by choices (next_value w) with
      | Some choice =>
          (Return (Some (value choice)), advance w,
           [EvWrite (select_prompt choices); EvRead (next_raw w)])
      | None =>
          (Return None, advance w,
           [EvWrite (select_prompt choices); EvRead (next_raw w);
            EvWrite (refusal choices (next_value w))])
      end
    else
      match item_at choices default with
      | Some choice =>
          (Return (Some (value choice)), advance w,
           [EvWrite (select_prompt choices); EvRead (next_raw w)])
      | None =>
          (Raise IndexError, advance w,
           [EvWrite (select_prompt choices); EvRead (next_raw w)])
      end.
Proof.
  unfold Prompt.select_attempt, select_prompt.
  rewrite _write_then, _read_then. cbv beta.
  destruct (truthy (next_value w)); cbv beta iota zeta delta [negb].
  - unfold selected_by, refusal.
    destruct (int_of_str (next_value w)) as [n|]; [|reflexivity].
    rewrite range_shift. unfold choice_at.
    destruct ((1 <=? n) && (n <=? len choices)) eqn:Hrange; [|reflexivity].
    rewrite <- range_shift in Hrange.
    apply andb_true_iff in Hrange. destruct Hrange as [Hlo Hhi].
    apply Z.leb_le in Hlo. apply Z.ltb_lt in Hhi.
    destruct (getitem_in_range choices (n - 1) (conj Hlo Hhi))
      as [choice [Hnth Hget]].
    rewrite (bind_return _ _ _ _ _ _ (Hget (advance w))), Hnth. cbv beta.
    destruct (disabled choice); reflexivity.
  - pose proof (getitem_item_at choices default (advance w)) as Hget.
    destruct (item_at choices default) as [choice|].
    + rewrite (bind_return _ _ _ _ _ _ Hget). reflexivity.
    + rewrite (bind_raise _ _ _ _ _ _ Hget). reflexivity.
Qed.

End SelectRuns.

Lemma item_at_In {A : Type} (items : list A) (i : Z) (x : A) :
  item_at items i = Some x -> In x items.
Proof.
  unfold item_at. intros H.
  destruct ((- len items <=? i) && (i <? 0)); [exact (nth_error_In _ _ H)|].
  destruct ((0 <=? i) && (i <? len items)); [exact (nth_error_In _ _ H)|discriminate].
Qed.

Lemma item_at_negative {A : Type} (items : list A) (i : Z) :
  - len items <= i < 0 ->
  exists x, nth_error items (Z.to_nat (len items + i)) = Some x
            /\ item_at items i = Some x.
Proof.
  intros [Hlo Hhi]. unfold item_at.
  assert (Hc : (- len items <=? i) && (i <? 0) = true).
  { apply andb_true_iff. split; [apply Z.leb_le|apply Z.ltb_lt]; assumption. }
  rewrite Hc.
  destruct (nth_error items (Z.to_nat (len items + i))) as [x|] eqn:Hnth.
  - exists x. split; reflexivity.
  - apply nth_error_None in Hnth. unfold len in *. lia.
Qed.

Lemma item_at_outside {A : Type} (items : list A) (i : Z) :
  i < - len items \/ len items <= i -> item_at items i = None.
Proof.
  intros Hout. unfold item_at.
  assert (Hlen : 0 <= len items) by (unfold len; lia).
  destruct ((- len items <=? i) && (i <? 0)) eqn:Hc.
  - apply andb_true_iff in Hc. destruct Hc as [Hlo Hhi].
    apply Z.leb_le in Hlo. apply Z.ltb_lt in Hhi. lia.
  - destruct ((0 <=? i) && (i <? len items)) eqn:Hd; [|reflexivity].
    apply andb_true_iff in Hd. destruct Hd as [Hlo Hhi].
    apply Z.leb_le in Hlo. apply Z.ltb_lt in Hhi. lia.
Qed.

Section SelectSound.
Context {builtins : PyBuiltins}.

Lemma selected_by_enabled {V : Type} (choices : list (Choice V)) (answer : string)
    (choice : Choice V) :
  selected_by choices answer = Some choice ->
  In choice choices /\ disabled choice = false.
Proof.
  unfold selected_by, choice_at.
  destruct (int_of_str answer) as [n|]; [|discriminate].
  destruct ((1 <=? n) && (n <=? len choices)); [|discriminate].
  destruct (nth_error choices (Z.to_nat (n - 1))) as [c|] eqn:Hnth; [|discriminate].
  destruct (disabled c) eqn:Hd; [discriminate|].
  intros H. injection H as <-. split; [exact (nth_error_In _ _ Hnth)|exact Hd].
Qed.

End SelectSound.

(** ** multi_select *)

Lemma collect_enabled {V : Type} (choices : list (Choice V)) (indices : list Z) :
  Forall (enabled_value choices) (Prompt.collect choices indices).
Proof.
  induction indices as [|idx rest IH]; simpl.
  - constructor.
  - destruct ((0 <=? idx) && (idx <? len choices)); [|exact IH].
    destruct (nth_error choices (Z.to_nat idx)) as [choice|] eqn:Hnth; [|exact IH].
    destruct (disabled choice) eqn:Hd; [exact IH|]. simpl.
    constructor; [|exact IH].
    exists choice. split; [exact (nth_error_In _ _ Hnth)|]. split; [exact Hd|reflexivity].
Qed.

(** ** autocomplete *)

Lemma autocomplete_attempt_request (message : string) (suggestions : list string)
    (validators : list validator) w :
  endswith (next_value w) tab = true ->
  Prompt.autocomplete_attempt message suggestions validators w
  = (Return None, advance w,
     EvWrite (autocomplete_prompt message) :: EvRead (next_raw w)
     :: map EvWrite (suggestion_lines suggestions (next_value w))).
Proof.
  intros Htab. unfold Prompt.autocomplete_attempt, autocomplete_prompt.
  rewrite _write_then, _read_then. cbv beta. rewrite Htab. cbv zeta.
  unfold suggestion_lines.
  destruct (filter (fun s => startswith s (rstrip tab (next_value w))) suggestions);
    reflexivity.
Qed.

Lemma autocomplete_attempt_returned (message : string) (suggestions : list string)
    (validators : list validator) w v w' t :
  Forall pure_validator validators ->
  Prompt.autocomplete_attempt message suggestions validators w
  = (Return (Some v), w', t) ->
  endswith v tab = false
  /\ chain_accepts validators v
  /\ v = next_value w
  /\ t = [EvWrite (autocomplete_prompt message); EvRead (next_raw w)].
Proof.
  intros Hpure.
  destruct (endswith (next_value w) tab) eqn:Htab.
  - rewrite (autocomplete_attempt_request _ _ _ _ Htab). discriminate.
  - unfold Prompt.autocomplete_attempt, autocomplete_prompt.
    rewrite _write_then, _read_then. cbv beta. rewrite Htab.
    destruct (run_validators_decides validators (next_value w) Hpure)
      as [Hok|[msg Hno]].
    + rewrite (bind_return _ _ _ _ _ _ (run_validators_accepts _ _ Hok (advance w))).
      intros Heq. injection Heq as <- _ <-. repeat split; assumption.
    + rewrite (bind_return _ _ _ _ _ _ (run_validators_rejects _ _ _ Hno (advance w))).
      discriminate.
Qed.

(** ** Prompted reads *)

Lemma reads_prompted_writes (prompt : string) (ws : list string) (t : list event) b :
  exists b', reads_prompted prompt b (map EvWrite ws ++ t) = reads_prompted prompt b' t.
Proof.
  revert b. induction ws as [|text ws IH]; intros b; simpl.
  - exists b. reflexivity.
  - apply IH.
Qed.

Lemma loop_prompted {A : Type} (P : string -> list string -> Prop)
    (prompt : string) (body : io (option A)) :
  attempt_spec P prompt body ->
  forall fuel w b, reads_prompted prompt b (trace (while_true fuel body w)) = true.
Proof.
  intros Hbody. induction fuel as [|fuel IH]; intros w b.
  - reflexivity.
  - rewrite while_true_step.
    destruct (Hbody w) as [[e [w' Hrun]]|[r [w' [inp [ds [Hrun [Hinp _]]]]]]];
      rewrite Hrun.
    + reflexivity.
    + assert (Hstep : forall rest,
                (forall b', reads_prompted prompt b' rest = true) ->
                reads_prompted prompt b
                  (EvWrite prompt :: inp :: (map EvWrite ds ++ rest)%list) = true).
      { intros rest Hrest. simpl. rewrite String.eqb_refl.
        destruct (reads_prompted_writes prompt ds rest false) as [b' Hb'].
        destruct inp; [discriminate Hinp| |]; simpl; rewrite Hb'; apply Hrest. }
      destruct r as [[a|]|e|]; unfold trace; cbn [snd].
      * rewrite <- (app_nil_r (map EvWrite ds)). apply Hstep. reflexivity.
      * apply (Hstep (trace (while_true fuel body w'))). intros b'. apply IH.
      * rewrite <- (app_nil_r (map EvWrite ds)). apply Hstep. reflexivity.
      * rewrite <- (app_nil_r (map EvWrite ds)). apply Hstep. reflexivity.
Qed.

Lemma loop_prompted_after_header {A : Type} (P : string -> list string -> Prop)
    (prompt : string) (body : io (option A)) (header : list string) fuel w :
  attempt_spec P prompt body ->
  reads_prompted prompt false (map EvWrite header ++ trace (while_true fuel body w))
  = true.
Proof.
  intros Hbody.
  destruct (reads_prompted_writes prompt header (trace (while_true fuel body w)) false)
    as [b' Hb'].
  rewrite Hb'. apply (loop_prompted P prompt body Hbody).
Qed.

Lemma In_firstn {A : Type} (n : nat) (items : list A) (x : A) :
  In x (firstn n items) -> In x items.
Proof.
  revert items. induction n as [|n IH]; intros items Hin.
  - contradiction.
  - destruct items as [|y rest]; [contradiction|].
    destruct Hin as [->|Hin]; [left; reflexivity|right; apply IH; exact Hin].
Qed.

(** ** confirm *)

Lemma lower_char_confirm_letter (c d : ascii) :
  confirm_letter d = true ->
  Ascii.eqb (lower_char c) d = same_letter c d.
Proof.
  unfold confirm_letter, mem_char. simpl. intros Hd.
  repeat (apply orb_true_iff in Hd; destruct Hd as [Hd|Hd];
          [apply Ascii.eqb_eq in Hd; subst d;
           destruct c as [[] [] [] [] [] [] [] []]; reflexivity|]).
  discriminate Hd.
Qed.

Lemma lower_eqb_caseless (word s : string) :
  forallb confirm_letter (list_ascii_of_string word) = true ->
  String.eqb (lower s) word = caseless s word.
Proof.
  revert s. induction word as [|d word IH]; intros s Hword.
  - destruct s; reflexivity.
  - simpl in Hword. apply andb_true_iff in Hword. destruct Hword as [Hd Hword].
    destruct s as [|c s]; [reflexivity|]. simpl.
    rewrite (lower_char_confirm_letter c d Hd), (IH s Hword). reflexivity.
Qed.

(** ** Length validators *)

Lemma pure_ret_inv {A : Type} (a b : A) : pure (ret a) b -> a = b.
Proof.
  intros H. specialize (H (mkWorld [] [])). unfold ret in H. congruence.
Qed.

Lemma len_str_nonneg (s : string) : 0 <= len_str s.
Proof. unfold len_str. lia. Qed.

(** ** Wizard *)

Lemma bind_returns {A B : Type} (m : io A) (k : A -> io B) w b w' t :
  bind m k w = (Return b, w', t) ->
  exists a w1 t1 t2,
    m w = (Return a, w1, t1) /\ k a w1 = (Return b, w', t2) /\ t = (t1 ++ t2)%list.
Proof.
  unfold bind. destruct (m w) as [[r w1] t1]. destruct r as [a|e|]; try discriminate.
  destruct (k a w1) as [[r2 w2] t2] eqn:Hk. intros H. injection H as -> -> <-.
  exists a, w1, t1, t2. repeat split. exact Hk.
Qed.

Lemma bind_assoc {A B C : Type} (m : io A) (k : A -> io B) (h : B -> io C) w :
  bind (bind m k) h w = bind m (fun a => bind (k a) h) w.
Proof.
  unfold bind. destruct (m w) as [[r w1] t1]. destruct r as [a|e|]; try reflexivity.
  destruct (k a w1) as [[r2 w2] t2]. destruct r2 as [b|e|]; try reflexivity.
  destruct (h b w2) as [[r3 w3] t3]. rewrite app_assoc. reflexivity.
Qed.

Lemma bind_ext {A B : Type} (m : io A) (k1 k2 : A -> io B) w :
  (forall a w1, k1 a w1 = k2 a w1) -> bind m k1 w = bind m k2 w.
Proof.
  intros Hk. unfold bind. destruct (m w) as [[r w1] t1].
  destruct r as [a|e|]; try reflexivity. rewrite Hk. reflexivity.
Qed.

Lemma bind_ret_l {A B : Type} (a : A) (k : A -> io B) w : bind (ret a) k w = k a w.
Proof. unfold bind, ret. destruct (k a w) as [[r w1] t1]. reflexivity. Qed.

Lemma run_steps_app {V : Type} (total : Z) (a b : list (Z * (string * step V)))
    (d : dict V) w :
  Wizard.run_steps total (a ++ b) d w
  = bind (Wizard.run_steps total a d) (Wizard.run_steps total b) w.
Proof.
  revert d w. induction a as [|[i [name fn]] a IH]; intros d w.
  - simpl app. change (Wizard.run_steps total [] d) with (ret (A := dict V) d).
    rewrite bind_ret_l. reflexivity.
  - simpl. rewrite bind_assoc. apply bind_ext. intros u w1.
    rewrite bind_assoc. apply bind_ext. intros r w2.
    rewrite bind_assoc. apply bind_ext. intros u' w3. apply IH.
Qed.

Lemma enumerate_from_app {A : Type} (i : Z) (a b : list A) :
  enumerate_from i (a ++ b)
  = (enumerate_from i a ++ enumerate_from (i + len a) b)%list.
Proof.
  revert i. induction a as [|x a IH]; intros i; simpl.
  - unfold len. simpl. rewrite Z.add_0_r. reflexivity.
  - rewrite IH. unfold len. simpl List.length.
    replace (i + 1 + Z.of_nat (List.length a)) with (i + Z.of_nat (S (List.length a)))
      by lia.
    reflexivity.
Qed.

Lemma in_tuple_cons (key k : string) (ks : list string) :
  in_tuple key (k :: ks) = String.eqb key k || in_tuple key ks.
Proof. reflexivity. Qed.

Lemma keys_dict_set {V : Type} (key : string) (v : V) (d : dict V) :
  keys (dict_set key v d) = add_key key (keys d).
Proof.
  unfold keys, add_key. induction d as [|[k old] rest IH].
  - reflexivity.
  - cbn [dict_set map fst]. rewrite in_tuple_cons, (String.eqb_sym key k).
    destruct (String.eqb k key) eqn:Hk; cbn [map fst orb].
    + reflexivity.
    + rewrite IH. destruct (in_tuple key (map fst rest)); reflexivity.
Qed.

Lemma dict_get_set_same {V : Type} (key : string) (v : V) (d : dict V) :
  dict_get key (dict_set key v d) = Some v.
Proof.
  induction d as [|[k old] rest IH]; simpl.
  - rewrite String.eqb_refl. reflexivity.
  - destruct (String.eqb k key) eqn:Hk; simpl; rewrite Hk; [reflexivity|exact IH].
Qed.

Lemma dict_get_set_other {V : Type} (key other : string) (v : V) (d : dict V) :
  other <> key -> dict_get other (dict_set key v d) = dict_get other d.
Proof.
  intros Hne. induction d as [|[k old] rest IH]; simpl.
  - destruct (String.eqb key other) eqn:Hk; [|reflexivity].
    apply String.eqb_eq in Hk. congruence.
  - destruct (String.eqb k key) eqn:Hk; simpl.
    + apply String.eqb_eq in Hk. subst k.
      destruct (String.eqb key other) eqn:Ho; [|reflexivity].
      apply String.eqb_eq in Ho. congruence.
    + rewrite IH. reflexivity.
Qed.

Lemma py_print_then {B : Type} (text : string) (k : io B) w :
  bind (py_print text) (fun _ => k) w
  = (result (k w), remaining (k w), EvWrite text :: EvWrite nl :: trace (k w)).
Proof.
  apply (bind_return (py_print text) (fun _ => k) w tt w [EvWrite text; EvWrite nl]).
  reflexivity.
Qed.

Lemma run_steps_returned {V : Type} (total : Z) (items : list (Z * (string * step V)))
    (d d' : dict V) w w' t :
  Forall (fun item => reads_only (snd (snd item))) items ->
  Wizard.run_steps total items d w = (Return d', w', t) ->
  keys d' = fold_left (fun ks name => add_key name ks)
                      (map (fun item => fst (snd item)) items) (keys d)
  /\ (forall key, ~ In key (map (fun item => fst (snd item)) items) ->
      dict_get key d' = dict_get key d)
  /\ (forall key, In key (map (fun item => fst (snd item)) items) ->
      dict_get key d' <> None).
Proof.
  intros Hro. revert d w t.
  induction Hro as [|[i [name fn]] items Hfn _ IH]; intros d w t Hrun.
  - injection Hrun as <- _ _. split; [reflexivity|]. split; [reflexivity|].
    intros key [].
  - simpl in Hrun. rewrite py_print_then in Hrun.
    destruct (bind (fn d) _ w) as [[r1 w1] t1] eqn:Hrest.
    unfold result, remaining, trace in Hrun. simpl in Hrun.
    injection Hrun as -> -> _.
    destruct (bind_returns _ _ _ _ _ _ Hrest) as [[r dr] [w2 [t2 [t3 [Hcall [Hk _]]]]]].
    simpl in Hfn. rewrite (Hfn _ _ _ _ _ _ Hcall) in Hk. simpl in Hk.
    destruct (bind_returns _ _ _ _ _ _ Hk) as [u [w3 [t4 [t5 [Hblank [Htail _]]]]]].
    injection Hblank as _ <- _.
    destruct (IH _ _ _ Htail) as [Hkeys [Hframe Hbound]].
    split; [|split].
    + simpl. rewrite Hkeys, keys_dict_set. reflexivity.
    + intros key Hnot. simpl in Hnot.
      rewrite Hframe by tauto. apply dict_get_set_other. intros ->. tauto.
    + intros key Hin. simpl in Hin.
      destruct (in_dec string_dec key (map (fun item => fst (snd item)) items))
        as [Hlater|Hnot]; [apply Hbound; exact Hlater|].
      destruct Hin as [<-|Hin]; [|contradiction].
      rewrite Hframe by exact Hnot. rewrite dict_get_set_same. discriminate.
Qed.

Lemma bind_pending {A B : Type} (m : io A) (k : A -> io B) w w' t :
  m w = (Pending, w', t) -> bind m k w = (Pending, w', t).
Proof. intros Hm. unfold bind. rewrite Hm. reflexivity. Qed.

Lemma run_unfold {V : Type} (self : Wizard.t V) w :
  Wizard.run self w
  = match Wizard.run_steps (len (Wizard.steps self)) (enumerate (Wizard.steps self))
                           (Wizard.results self) w with
    | (Return d, w', t) =>
        (Return (Wizard.mk (Wizard.title self) (Wizard.steps self) d), w',
         (wizard_header (Wizard.title self) ++ t ++ wizard_footer)%list)
    | (Raise e, w', t) => (Raise e, w', (wizard_header (Wizard.title self) ++ t)%list)
    | (Pending, w', t) => (Pending, w', (wizard_header (Wizard.title self) ++ t)%list)
    end.
Proof.
  unfold Wizard.run. rewrite !py_print_then.
  destruct (Wizard.run_steps _ _ _ w) as [[r w'] t] eqn:Hsteps.
  destruct r as [d|e|].
  - rewrite (bind_return _ _ _ _ _ _ Hsteps). rewrite !py_print_then. reflexivity.
  - rewrite (bind_raise _ _ _ _ _ _ Hsteps). reflexivity.
  - rewrite (bind_pending _ _ _ _ _ Hsteps). reflexivity.
Qed.

Lemma enumerate_from_names {A B : Type} (i : Z) (items : list (A * B)) :
  map (fun item => fst (snd item)) (enumerate_from i items) = map fst items.
Proof.
  revert i. induction items as [|x items IH]; intros i; simpl.
  - reflexivity.
  - rewrite IH. reflexivity.
Qed.

Lemma enumerate_from_Forall {A : Type} (P : A -> Prop) (i : Z) (items : list A) :
  Forall P items -> Forall (fun item => P (snd item)) (enumerate_from i items).
Proof.
  intros H. revert i. induction H as [|x items Hx _ IH]; intros i; simpl.
  - constructor.
  - constructor; [exact Hx|apply IH].
Qed.

Section MultiSelectProgress.
Context {builtins : PyBuiltins}.

Lemma bounds_checks {V : Type} (min_select : Z) (max_select : option Z)
    (selected : list V) :
  within_bounds min_select max_select (len selected)
  <-> (len selected <? min_select) = false
      /\ Prompt.truthy_int max_select && Prompt.exceeds (len selected) max_select
         = false.
Proof.
  unfold within_bounds. split.
  - intros [Hmin Hmax]. split; [apply Z.ltb_ge; exact Hmin|].
    destruct max_select as [k|]; [|reflexivity]. simpl.
    destruct (Hmax k eq_refl) as [->|Hle]; [reflexivity|].
    destruct (Z.gtb_spec (len selected) k); [lia|apply andb_false_r].
  - intros [Hmin Hmax]. apply Z.ltb_ge in Hmin. split; [exact Hmin|].
    intros k ->. simpl in Hmax.
    destruct (Z.eqb_spec k 0) as [Hz|Hz]; [left; exact Hz|right].
    simpl in Hmax. destruct (Z.gtb_spec (len selected) k); [discriminate|lia].
Qed.

Lemma multi_select_attempt_accepts {V : Type} (choices : list (Choice V))
    (min_select : Z) (max_select : option Z) (selected : list V) w :
  multi_accepts choices min_select max_select (next_value w) selected ->
  Prompt.multi_select_attempt choices min_select max_select w
  = (Return (Some selected), advance w,
     [EvWrite multi_select_prompt; EvRead (next_raw w)]).
Proof.
  rewrite multi_select_attempt_run.
  intros [[Hline [Hmin Hsel]]|[Hline [typed [Hparse [Hsel Hbounds]]]]].
  - rewrite Hline, Hmin, Hsel. reflexivity.
  - apply truthy_true in Hline. rewrite Hline.
    rewrite (parse_indices_tokens _ _ Hparse), collect_spec, <- Hsel.
    apply bounds_checks in Hbounds. destruct Hbounds as [Hmin Hmax].
    rewrite Hmin, Hmax. reflexivity.
Qed.

Lemma multi_select_attempt_rejects {V : Type} (choices : list (Choice V))
    (min_select : Z) (max_select : option Z) w :
  multi_rejects choices min_select max_select (next_value w) ->
  exists d,
    Prompt.multi_select_attempt choices min_select max_select w
    = (Return None, advance w,
       [EvWrite multi_select_prompt; EvRead (next_raw w); EvWrite d]).
Proof.
  rewrite multi_select_attempt_run.
  intros [[Hline Hmin]|[Hline [Hfail|[typed [Hparse Hout]]]]].
  - rewrite Hline. apply Z.eqb_neq in Hmin. simpl. rewrite Hmin.
    eexists. reflexivity.
  - apply truthy_true in Hline. rewrite Hline, (parse_indices_fails _ Hfail).
    eexists. reflexivity.
  - apply truthy_true in Hline.
    rewrite Hline, (parse_indices_tokens _ _ Hparse), collect_spec.
    destruct (len (spec_selected choices typed) <? min_select) eqn:Hmin;
      [eexists; reflexivity|].
    destruct (Prompt.truthy_int max_select
              && Prompt.exceeds (len (spec_selected choices typed)) max_select)
      eqn:Hmax; [eexists; reflexivity|].
    exfalso. apply Hout. apply bounds_checks. split; assumption.
Qed.

End MultiSelectProgress.

(** ** Further properties of the code *)

(** X1: [_read] hands over the line without its trailing newlines: the
    value differs from what [readline] returned by a run of newline
    characters at the end, and never ends with a newline itself.  At the
    end of the input it returns the empty string and leaves the streams as
    they are. *)
Theorem read_strips_trailing_newlines :
  forall w : world,
    exists value n,
      Prompt._read w = (Return value, advance w, [EvRead (next_raw w)])
      /\ next_raw w = value ++ newlines n
      /\ endswith value nl = false
      /\ (stream_in w = [] -> value = "" /\ advance w = w).
Proof.
  intros w.
  destruct (rstrip_by_split (fun c => mem_char c nl) (next_raw w)) as [suffix [Hs Hall]].
  exists (next_value w), (String.length suffix).
  split; [apply _read_run|]. split; [|split].
  - rewrite <- (all_newlines suffix Hall). exact Hs.
  - apply rstrip_by_last. reflexivity.
  - intros Hend. destruct w as [lines secret]. simpl in Hend. subst lines.
    split; reflexivity.
Qed.

(** X2: [required] rejects exactly the strings made of white space only,
    the empty string among them, always with the same message; any string
    with a character that is not white space is valid. *)
Theorem required_rejects_blank :
  forall value : string,
    pure (Validator.required value)
         (if blank value then mkValidationResult false "This field is required"
          else passed).
Proof. exact required_run. Qed.

(** X3: the validator chain stops at the first validator that rejects the
    value: its message, and only that one, is written as a diagnostic and
    the chain answers invalid; the validators after it are not called,
    whatever they would do.  When every validator accepts, nothing is
    written and the chain answers valid. *)
Theorem validator_chain_short_circuits :
  forall (validators : list validator) (value : string),
    (chain_accepts validators value ->
     pure (Prompt.run_validators validators value) true)
    /\ (forall msg, chain_rejects validators value msg ->
        forall w, Prompt.run_validators validators value w
                  = (Return false, w, [EvWrite (diagnostic msg)])).
Proof.
  intros validators value. split.
  - apply run_validators_accepts.
  - intros msg. apply run_validators_rejects.
Qed.

(** X4: whatever [text] returns has passed the whole validator chain, and
    it is the last input of the run, with the default standing in for an
    empty input; nothing is written after that input.  In particular a
    default is validated like any typed value. *)
Theorem text_returns_only_validated_values :
  forall (message default : string) (validators : option (list validator))
         (password : bool) (fuel : nat) (w : world) (v : string),
    Forall pure_validator (Prompt.or_empty validators) ->
    result (Prompt.text message default validators password fuel w) = Return v ->
    chain_accepts (Prompt.or_empty validators) v
    /\ exists t0 e,
         trace (Prompt.text message default validators password fuel w)
         = (t0 ++ [EvWrite (text_prompt message default); e])%list
         /\ is_input e = true
         /\ v = or_default default (input_value e).
Proof.
  intros message default validators password fuel w v Hpure Hres.
  unfold Prompt.text in *.
  destruct (while_true fuel _ w) as [[r w'] t] eqn:Hrun.
  unfold result in Hres. simpl in Hres. subst r.
  destruct (while_true_returns _ _ _ _ _ _ Hrun) as [w0 [t0 [t1 [-> Hlast]]]].
  destruct (text_attempt_returned _ _ _ _ _ _ _ _ Hpure Hlast)
    as [Hok [e [-> [He Hv]]]].
  split; [exact Hok|]. exists t0, e. repeat split; assumption.
Qed.

(** X5: the retry loop of [text] settles on the first acceptable line.
    When the input starts with lines the chain rejects (after the default
    has stood in for the empty ones) followed by a line it accepts, [text]
    returns that line's value and has consumed the input up to and
    including it; each rejected line accounts for three events (prompt,
    read, one diagnostic) and the accepted one for two. *)
Theorem text_returns_first_accepted_line :
  forall (message default : string) (validators : option (list validator))
         (rejected : list string) (accepted : string) (rest secret : list string)
         (fuel : nat),
    Forall (fun raw => exists msg,
              chain_rejects (Prompt.or_empty validators)
                            (or_default default (rstrip nl raw)) msg) rejected ->
    chain_accepts (Prompt.or_empty validators) (or_default default (rstrip nl accepted)) ->
    (List.length rejected < fuel)%nat ->
    result (Prompt.text message default validators false fuel
              (mkWorld (rejected ++ accepted :: rest) secret))
    = Return (or_default default (rstrip nl accepted))
    /\ remaining (Prompt.text message default validators false fuel
                    (mkWorld (rejected ++ accepted :: rest) secret))
       = mkWorld rest secret
    /\ List.length (trace (Prompt.text message default validators false fuel
                             (mkWorld (rejected ++ accepted :: rest) secret)))
       = (3 * List.length rejected + 2)%nat.
Proof.
  intros message default validators rejected accepted rest secret fuel Hrej Hacc.
  unfold Prompt.text. revert fuel.
  induction Hrej as [|raw rejected [msg Hraw] _ IH]; intros fuel Hfuel.
  - destruct fuel as [|fuel]; [inversion Hfuel|].
    rewrite while_true_step. simpl app.
    rewrite (text_attempt_accepted message default _
               (mkWorld (accepted :: rest) secret) Hacc).
    repeat split.
  - destruct fuel as [|fuel]; [inversion Hfuel|].
    assert (Hfuel' : (List.length rejected < fuel)%nat) by (simpl in Hfuel; lia).
    destruct (IH fuel Hfuel') as [Hres [Hrem Hcount]].
    rewrite while_true_step.
    rewrite (text_attempt_rejected message default msg _
               (mkWorld ((raw :: rejected) ++ accepted :: rest) secret) Hraw).
    change (advance (mkWorld ((raw :: rejected) ++ accepted :: rest) secret))
      with (mkWorld (rejected ++ accepted :: rest) secret).
    split; [exact Hres|]. split; [exact Hrem|].
    unfold trace at 1. cbn [snd List.length app]. rewrite Hcount. lia.
Qed.

(** X6: [text] at the end of the input.  [readline] then returns the empty
    string for ever, so when the chain rejects what the empty input stands
    for, [text] never returns: every pass writes the prompt and the same
    diagnostic, whatever the budget.  When the chain accepts it, [text]
    returns it on the first pass.  In password mode the end of the input
    raises [EOFError] on the first pass, before any validator runs. *)
Theorem text_at_end_of_input :
  forall (message default : string) (validators : option (list validator))
         (secret lines : list string),
    (forall msg,
        chain_rejects (Prompt.or_empty validators) (or_default default "") msg ->
        forall fuel,
          Prompt.text message default validators false fuel (mkWorld [] secret)
          = (Pending, mkWorld [] secret,
             List.concat (repeat [EvWrite (text_prompt message default); EvRead "";
                             EvWrite (diagnostic msg)] fuel)))
    /\ (chain_accepts (Prompt.or_empty validators) (or_default default "") ->
        forall fuel,
          Prompt.text message default validators false (S fuel) (mkWorld [] secret)
          = (Return (or_default default ""), mkWorld [] secret,
             [EvWrite (text_prompt message default); EvRead ""]))
    /\ (forall fuel,
          Prompt.text message default validators true (S fuel) (mkWorld lines [])
          = (Raise EOFError, mkWorld lines [],
             [EvWrite (text_prompt message default)])).
Proof.
  intros message default validators secret lines. unfold Prompt.text.
  split; [|split].
  - intros msg Hno fuel. induction fuel as [|fuel IH].
    + reflexivity.
    + rewrite while_true_step.
      rewrite (text_attempt_rejected message default msg _ (mkWorld [] secret) Hno).
      change (advance (mkWorld [] secret)) with (mkWorld [] secret).
      rewrite IH. reflexivity.
  - intros Hok fuel. rewrite while_true_step.
    rewrite (text_attempt_accepted message default _ (mkWorld [] secret) Hok).
    reflexivity.
  - intros fuel. rewrite while_true_step.
    assert (Hprompt : (if truthy default then message ++ " [" ++ default ++ "]"
                       else message) ++ ": " = text_prompt message default).
    { unfold text_prompt. destruct (truthy default); reflexivity. }
    unfold Prompt.text_attempt. cbv zeta. rewrite Hprompt, _write_then.
    rewrite (getpass_eof _ (mkWorld lines []) eq_refl). reflexivity.
Qed.

(** X7: what [select] returns is always the value of one of the choices,
    and the run ends with the input that chose it.  After a non-empty
    line it is the choice the typed number designates and that choice is
    not disabled; a disabled choice can only be returned as the default,
    through an empty line. *)
Theorem select_returns_a_choice :
  forall {builtins : PyBuiltins} (V : Type) (message : string)
         (choices : list (Choice V)) (default : Z) (fuel : nat) (w : world) (v : V),
    result (Prompt.select message choices default fuel w) = Return v ->
    exists choice t0 e,
      trace (Prompt.select message choices default fuel w)
      = (t0 ++ [EvWrite (select_prompt choices); e])%list
      /\ is_input e = true
      /\ In choice choices
      /\ v = value choice
      /\ ((input_value e = "" /\ item_at choices default = Some choice)
          \/ (input_value e <> ""
              /\ selected_by choices (input_value e) = Some choice
              /\ disabled choice = false)).
Proof.
  intros builtins V message choices default fuel w v Hres.
  destruct (select_unfold message choices default) as [header Hsel].
  rewrite Hsel in *.
  destruct (while_true fuel _ w) as [[r w'] t] eqn:Hrun.
  unfold result, remaining, trace in *. simpl in *. subst r.
  destruct (while_true_returns _ _ _ _ _ _ Hrun) as [w0 [t0 [t1 [-> Hlast]]]].
  rewrite select_attempt_run in Hlast.
  destruct (truthy (next_value w0)) eqn:Htruthy.
  - destruct (selected_by choices (next_value w0)) as [choice|] eqn:Hsel0;
      [|discriminate Hlast].
    injection Hlast as <- _ <-.
    destruct (selected_by_enabled _ _ _ Hsel0) as [Hin Hen].
    exists choice, (map EvWrite header ++ t0)%list, (EvRead (next_raw w0)).
    split; [rewrite app_assoc; reflexivity|]. split; [reflexivity|].
    split; [exact Hin|]. split; [reflexivity|]. right.
    split; [apply truthy_true; exact Htruthy|]. split; assumption.
  - destruct (item_at choices default) as [choice|] eqn:Hitem; [|discriminate Hlast].
    injection Hlast as <- _ <-.
    exists choice, (map EvWrite header ++ t0)%list, (EvRead (next_raw w0)).
    split; [rewrite app_assoc; reflexivity|]. split; [reflexivity|].
    split; [exact (item_at_In _ _ _ Hitem)|]. split; [reflexivity|]. left.
    split; [|reflexivity].
    simpl. fold (next_value w0). destruct (next_value w0); [reflexivity|discriminate].
Qed.

(** X8: the retry loop of [select] settles on the first line that selects
    something.  When the input starts with non-empty lines that select
    nothing (not a number, out of range, or a disabled choice), followed
    by a line that selects a choice (by its number, or the default when
    the line is empty), [select] returns that choice's value and has
    consumed the input up to and including that line. *)
Theorem select_returns_first_selecting_line :
  forall {builtins : PyBuiltins} (V : Type) (message : string)
         (choices : list (Choice V)) (default : Z) (choice : Choice V)
         (rejected : list string) (accepted : string) (rest secret : list string)
         (fuel : nat),
    Forall (fun raw => rstrip nl raw <> ""
                       /\ selected_by choices (rstrip nl raw) = None) rejected ->
    (if truthy (rstrip nl accepted) then selected_by choices (rstrip nl accepted)
     else item_at choices default) = Some choice ->
    (List.length rejected < fuel)%nat ->
    result (Prompt.select message choices default fuel
              (mkWorld (rejected ++ accepted :: rest) secret))
    = Return (value choice)
    /\ remaining (Prompt.select message choices default fuel
                    (mkWorld (rejected ++ accepted :: rest) secret))
       = mkWorld rest secret.
Proof.
  intros builtins V message choices default choice rejected accepted rest secret
         fuel Hrej Hacc.
  destruct (select_unfold message choices default) as [header Hsel].
  intros Hfuel. rewrite Hsel.
  unfold result at 1, remaining at 1. cbn [fst snd].
  revert fuel Hfuel.
  induction Hrej as [|raw rejected [Hne Hnone] _ IH]; intros fuel Hfuel.
  - destruct fuel as [|fuel]; [inversion Hfuel|].
    rewrite while_true_step, select_attempt_run. simpl app.
    change (next_value (mkWorld (accepted :: rest) secret)) with (rstrip nl accepted).
    destruct (truthy (rstrip nl accepted)); rewrite Hacc; split; reflexivity.
  - destruct fuel as [|fuel]; [inversion Hfuel|].
    assert (Hfuel' : (List.length rejected < fuel)%nat) by (simpl in Hfuel; lia).
    destruct (IH fuel Hfuel') as [Hres Hrem].
    rewrite while_true_step, select_attempt_run.
    change (next_value (mkWorld ((raw :: rejected) ++ accepted :: rest) secret))
      with (rstrip nl raw).
    apply truthy_true in Hne. rewrite Hne, Hnone.
    change (advance (mkWorld ((raw :: rejected) ++ accepted :: rest) secret))
      with (mkWorld (rejected ++ accepted :: rest) secret).
    split; [exact Hres|exact Hrem].
Qed.

(** X9: the default index of [select] is a Python index.  On an empty
    line a negative default within [-len(choices)] counts from the end of
    the choices, and a default outside [[-len(choices), len(choices))],
    which is every default when there are no choices, makes [select]
    raise [IndexError] once the line is read. *)
Theorem select_default_index_edges :
  forall {builtins : PyBuiltins} (V : Type) (message : string)
         (choices : list (Choice V)) (default : Z) (fuel : nat) (w : world),
    next_value w = "" ->
    (- len choices <= default < 0 ->
     exists choice,
       nth_error choices (Z.to_nat (len choices + default)) = Some choice
       /\ result (Prompt.select message choices default (S fuel) w)
          = Return (value choice))
    /\ (default < - len choices \/ len choices <= default ->
        result (Prompt.select message choices default (S fuel) w) = Raise IndexError
        /\ remaining (Prompt.select message choices default (S fuel) w) = advance w).
Proof.
  intros builtins V message choices default fuel w Hempty.
  destruct (select_unfold message choices default) as [header Hsel].
  rewrite Hsel, while_true_step, select_attempt_run, Hempty.
  cbv beta iota delta [truthy]. split.
  - intros Hrange. destruct (item_at_negative choices default Hrange)
      as [choice [Hnth Hitem]].
    exists choice. split; [exact Hnth|]. rewrite Hitem. reflexivity.
  - intros Hout. rewrite (item_at_outside choices default Hout). split; reflexivity.
Qed.

(** X10: whatever [multi_select] returns holds only values of choices
    that are not disabled, has at least [min_select] elements, and has at
    most [max_select] elements when [max_select] is a positive number. *)
Theorem multi_select_returns_enabled_within_bounds :
  forall {builtins : PyBuiltins} (V : Type) (message : string)
         (choices : list (Choice V)) (min_select : Z) (max_select : option Z)
         (fuel : nat) (w : world) (selected : list V),
    result (Prompt.multi_select message choices min_select max_select fuel w)
    = Return selected ->
    Forall (enabled_value choices) selected
    /\ min_select <= len selected
    /\ (forall k, max_select = Some k -> 0 < k -> len selected <= k).
Proof.
  intros builtins V message choices min_select max_select fuel w selected Hres.
  destruct (multi_select_unfold message choices min_select max_select)
    as [header Hsel].
  rewrite Hsel in Hres. cbv zeta in Hres.
  destruct (while_true fuel _ w) as [[r w'] t] eqn:Hrun.
  unfold result in Hres. simpl in Hres. subst r.
  destruct (while_true_returns _ _ _ _ _ _ Hrun) as [w0 [t0 [t1 [_ Hlast]]]].
  rewrite multi_select_attempt_run in Hlast.
  destruct (truthy (next_value w0)).
  - destruct (Prompt.parse_indices (next_value w0)) as [indices|];
      [|discriminate Hlast].
    destruct (len (Prompt.collect choices indices) <? min_select) eqn:Hmin;
      [discriminate Hlast|].
    destruct (Prompt.truthy_int max_select
              && Prompt.exceeds (len (Prompt.collect choices indices)) max_select)
      eqn:Hmax; [discriminate Hlast|].
    injection Hlast as <- _ _.
    split; [apply collect_enabled|]. split; [apply Z.ltb_ge; exact Hmin|].
    intros k -> Hk. simpl in Hmax.
    assert (Hnz : (k =? 0) = false) by (apply Z.eqb_neq; lia).
    rewrite Hnz in Hmax. simpl in Hmax.
    destruct (len (Prompt.collect choices indices) >? k) eqn:Hgt; [discriminate|].
    destruct (Z.gtb_spec (len (Prompt.collect choices indices)) k);
      [discriminate|lia].
  - destruct (min_select =? 0) eqn:Hz; [|discriminate Hlast].
    injection Hlast as <- _ _. apply Z.eqb_eq in Hz. subst min_select.
    split; [constructor|]. split; [reflexivity|].
    intros k _ Hk. unfold len. simpl. lia.
Qed.

(** X11: [multi_select] at the end of the input.  [readline] then returns
    the empty string for ever: with [min_select = 0] the first pass
    returns the empty list, and with any other [min_select] no pass ever
    returns, whatever the budget. *)
Theorem multi_select_at_end_of_input :
  forall {builtins : PyBuiltins} (V : Type) (message : string)
         (choices : list (Choice V)) (min_select : Z) (max_select : option Z)
         (secret : list string),
    (min_select = 0 ->
     forall fuel,
       result (Prompt.multi_select message choices min_select max_select (S fuel)
                 (mkWorld [] secret)) = Return [])
    /\ (min_select <> 0 ->
        forall fuel,
          result (Prompt.multi_select message choices min_select max_select fuel
                    (mkWorld [] secret)) = Pending
          /\ remaining (Prompt.multi_select message choices min_select max_select fuel
                          (mkWorld [] secret)) = mkWorld [] secret).
Proof.
  intros builtins V message choices min_select max_select secret.
  destruct (multi_select_unfold message choices min_select max_select)
    as [header Hsel].
  split.
  - intros -> fuel. rewrite Hsel. cbv zeta.
    rewrite while_true_step, multi_select_attempt_run. reflexivity.
  - intros Hne fuel. rewrite Hsel. cbv zeta.
    unfold result at 1, remaining at 1. cbn [fst snd].
    apply Z.eqb_neq in Hne.
    induction fuel as [|fuel IH].
    + split; reflexivity.
    + rewrite while_true_step, multi_select_attempt_run.
      change (next_value (mkWorld [] secret)) with "".
      cbv beta iota delta [truthy]. rewrite Hne.
      change (advance (mkWorld [] secret)) with (mkWorld [] secret).
      exact IH.
Qed.

(** X12: whatever [autocomplete] returns is the last line read, does not
    end with a tab and has passed the whole validator chain; nothing is
    written after that line. *)
Theorem autocomplete_returns_only_validated_values :
  forall (message : string) (suggestions : list string)
         (validators : option (list validator)) (fuel : nat) (w : world) (v : string),
    Forall pure_validator (Prompt.or_empty validators) ->
    result (Prompt.autocomplete message suggestions validators fuel w) = Return v ->
    endswith v tab = false
    /\ chain_accepts (Prompt.or_empty validators) v
    /\ exists t0 raw,
         trace (Prompt.autocomplete message suggestions validators fuel w)
         = (t0 ++ [EvWrite (autocomplete_prompt message); EvRead raw])%list
         /\ v = rstrip nl raw.
Proof.
  intros message suggestions validators fuel w v Hpure Hres.
  unfold Prompt.autocomplete in *.
  destruct (while_true fuel _ w) as [[r w'] t] eqn:Hrun.
  unfold result in Hres. simpl in Hres. subst r.
  destruct (while_true_returns _ _ _ _ _ _ Hrun) as [w0 [t0 [t1 [-> Hlast]]]].
  destruct (autocomplete_attempt_returned _ _ _ _ _ _ _ Hpure Hlast)
    as [Htab [Hok [Hv ->]]].
  split; [exact Htab|]. split; [exact Hok|].
  exists t0, (next_raw w0). split; [reflexivity|exact Hv].
Qed.

(** X13: a request for suggestions (a line that ends with a tab) is not an
    input attempt: no validator is called, whatever the validators are,
    and the loop goes round again.  The line shown lists at most five
    suggestions, each one of those given and beginning with the line
    stripped of its trailing tabs; nothing is shown when none begins so. *)
Theorem autocomplete_request_skips_validation :
  forall (message : string) (suggestions : list string)
         (validators : list validator) (w : world),
    endswith (next_value w) tab = true ->
    Prompt.autocomplete_attempt message suggestions validators w
    = (Return None, advance w,
       EvWrite (autocomplete_prompt message) :: EvRead (next_raw w)
       :: match shown suggestions (next_value w) with
          | [] => []
          | items => [EvWrite ("  Suggestions: " ++ join ", " items ++ nl)]
          end)
    /\ (List.length (shown suggestions (next_value w)) <= 5)%nat
    /\ Forall (fun s => In s suggestions
                        /\ startswith s (rstrip tab (next_value w)) = true)
              (shown suggestions (next_value w))
    /\ endswith (rstrip tab (next_value w)) tab = false.
Proof.
  intros message suggestions validators w Htab.
  split; [|split; [|split]].
  - rewrite (autocomplete_attempt_request _ _ _ _ Htab).
    unfold suggestion_lines, shown.
    destruct (filter (fun s => startswith s (rstrip tab (next_value w))) suggestions);
      reflexivity.
  - unfold shown. apply firstn_le_length.
  - unfold shown. apply Forall_forall. intros s Hin.
    apply In_firstn in Hin. apply filter_In in Hin. exact Hin.
  - apply rstrip_by_last. reflexivity.
Qed.

(** X14: the engine never takes an input without having just written the
    prompt: in every run of [text], [select], [multi_select] and
    [autocomplete], finished or not, each input event comes immediately
    after a write of the loop's prompt.  The validators are assumed
    pure. *)
Theorem every_read_is_prompted :
  forall {builtins : PyBuiltins},
    (forall message default validators password fuel w,
        Forall pure_validator (Prompt.or_empty validators) ->
        reads_prompted (text_prompt message default) false
          (trace (Prompt.text message default validators password fuel w)) = true)
    /\ (forall (V : Type) message (choices : list (Choice V)) default fuel w,
        reads_prompted (select_prompt choices) false
          (trace (Prompt.select message choices default fuel w)) = true)
    /\ (forall (V : Type) message (choices : list (Choice V)) min_select
               max_select fuel w,
        reads_prompted multi_select_prompt false
          (trace (Prompt.multi_select message choices min_select max_select fuel w))
        = true)
    /\ (forall message suggestions validators fuel w,
        Forall pure_validator (Prompt.or_empty validators) ->
        reads_prompted (autocomplete_prompt message) false
          (trace (Prompt.autocomplete message suggestions validators fuel w)) = true).
Proof.
  intros builtins. split; [|split; [|split]].
  - intros message default validators password fuel w Hpure.
    unfold Prompt.text.
    apply (loop_prompted _ _ _ (text_attempt_spec message default _ password Hpure)).
  - intros V message choices default fuel w.
    destruct (select_unfold message choices default) as [header Hsel].
    rewrite Hsel. unfold trace at 1. cbn [snd].
    apply (loop_prompted_after_header _ _ _ header fuel w
             (select_attempt_spec choices default)).
  - intros V message choices min_select max_select fuel w.
    destruct (multi_select_unfold message choices min_select max_select)
      as [header Hsel].
    rewrite Hsel. cbv zeta. unfold trace at 1. cbn [snd].
    apply (loop_prompted_after_header _ _ _ header fuel w
             (multi_select_attempt_spec choices min_select max_select)).
  - intros message suggestions validators fuel w Hpure.
    unfold Prompt.autocomplete.
    apply (loop_prompted _ _ _ (autocomplete_attempt_spec message suggestions _ Hpure)).
Qed.

(** X15: on a non-empty line [confirm] answers [true] exactly when the
    line spells [y], [yes], [true] or [1], in any mix of capitals and
    small letters, and [false] otherwise.  The line is compared as it is:
    a word with a space before or after it does not count. *)
Theorem confirm_accepts_case_variants :
  forall (message : string) (default : bool) (w : world),
    next_value w <> "" ->
    result (Prompt.confirm message default w)
    = Return (existsb (caseless (next_value w)) ["y"; "yes"; "true"; "1"]).
Proof.
  intros message default w Hne. apply truthy_true in Hne.
  unfold Prompt.confirm. rewrite _write_then, _read_then. cbv beta zeta.
  rewrite truthy_lower, Hne. cbv beta iota delta [negb].
  unfold in_tuple. cbn [existsb].
  rewrite !lower_eqb_caseless by reflexivity. reflexivity.
Qed.

(** X16: the chain [min_length(lo), max_length(hi)] accepts exactly the
    strings whose length lies within [[lo, hi]].  A shorter string is
    rejected with the minimum message, a longer one of sufficient length
    with the maximum message; the lengths are counted in characters. *)
Theorem length_validators_bound :
  forall (lo hi : Z) (value : string),
    (chain_accepts [Validator.min_length lo; Validator.max_length hi] value
     <-> lo <= len_str value <= hi)
    /\ (len_str value < lo ->
        chain_rejects [Validator.min_length lo; Validator.max_length hi] value
                      ("Minimum length is " ++ str_of_int lo))
    /\ (lo <= len_str value -> hi < len_str value ->
        chain_rejects [Validator.min_length lo; Validator.max_length hi] value
                      ("Maximum length is " ++ str_of_int hi)).
Proof.
  intros lo hi value.
  assert (Hmin : lo <= len_str value -> accepts (Validator.min_length lo) value).
  { intros Hle. exists passed. unfold Validator.min_length.
    destruct (len_str value <? lo) eqn:E; [apply Z.ltb_lt in E; lia|].
    split; [apply pure_ret|reflexivity]. }
  assert (Hmax : len_str value <= hi -> accepts (Validator.max_length hi) value).
  { intros Hle. exists passed. unfold Validator.max_length.
    destruct (len_str value >? hi) eqn:E; [apply Z.gtb_lt in E; lia|].
    split; [apply pure_ret|reflexivity]. }
  split; [split|split].
  - intros Hok. inversion Hok as [|v1 l1 [r1 [Hp1 Hv1]] Hrest]; subst.
    inversion Hrest as [|v2 l2 [r2 [Hp2 Hv2]] _]; subst.
    unfold Validator.min_length in Hp1. unfold Validator.max_length in Hp2.
    destruct (len_str value <? lo) eqn:E1.
    + apply pure_ret_inv in Hp1. subst r1. discriminate Hv1.
    + destruct (len_str value >? hi) eqn:E2.
      * apply pure_ret_inv in Hp2. subst r2. discriminate Hv2.
      * apply Z.ltb_ge in E1.
        destruct (Z.gtb_spec (len_str value) hi); [discriminate|]. lia.
  - intros [Hlo Hhi]. constructor; [apply Hmin; exact Hlo|].
    constructor; [apply Hmax; exact Hhi|constructor].
  - intros Hlt. exists [], (Validator.min_length lo), [Validator.max_length hi].
    split; [reflexivity|]. split; [constructor|].
    exists (mkValidationResult false ("Minimum length is " ++ str_of_int lo)).
    unfold Validator.min_length. apply Z.ltb_lt in Hlt. rewrite Hlt.
    split; [apply pure_ret|]. split; reflexivity.
  - intros Hlo Hgt. exists [Validator.min_length lo], (Validator.max_length hi), [].
    split; [reflexivity|]. split; [constructor; [apply Hmin; exact Hlo|constructor]|].
    exists (mkValidationResult false ("Maximum length is " ++ str_of_int hi)).
    unfold Validator.max_length.
    assert (E : (len_str value >? hi) = true) by (apply Z.gtb_lt; lia).
    rewrite E. split; [apply pure_ret|]. split; reflexivity.
Qed.

(** X17: when [Wizard.run] returns and the step functions leave the
    mapping alone, the wizard's title and steps are unchanged and its
    results hold an answer under every step name.  The keys that were
    there keep their place and every new step name is appended in the
    order of the steps, once; an entry whose key is not a step name keeps
    its value.  The run starts from the results the wizard already has: it
    does not clear them. *)
Theorem wizard_run_records_every_step :
  forall (V : Type) (self self' : Wizard.t V) (w : world),
    Forall (fun s => reads_only (snd s)) (Wizard.steps self) ->
    result (Wizard.run self w) = Return self' ->
    Wizard.title self' = Wizard.title self
    /\ Wizard.steps self' = Wizard.steps self
    /\ keys (Wizard.results self')
       = fold_left (fun ks name => add_key name ks)
                   (map fst (Wizard.steps self)) (keys (Wizard.results self))
    /\ (forall key, In key (map fst (Wizard.steps self)) ->
        dict_get key (Wizard.results self') <> None)
    /\ (forall key, ~ In key (map fst (Wizard.steps self)) ->
        dict_get key (Wizard.results self') = dict_get key (Wizard.results self)).
Proof.
  intros V self self' w Hro Hres. rewrite run_unfold in Hres.
  destruct (Wizard.run_steps _ _ _ w) as [[r w'] t] eqn:Hsteps.
  destruct r as [d|e|]; try discriminate Hres.
  unfold result in Hres. simpl in Hres. injection Hres as <-. simpl.
  destruct (run_steps_returned _ _ _ _ _ _ _
              (enumerate_from_Forall (fun s => reads_only (snd s)) 0 _ Hro) Hsteps)
    as [Hkeys [Hframe Hbound]].
  unfold enumerate in *. rewrite enumerate_from_names in *.
  repeat split; assumption.
Qed.

(** X18: a step that raises ends the run.  When the steps before it have
    returned and the step function raises, [Wizard.run] raises the same
    exception: the steps after it are not run and the closing lines are
    not printed; the trace is the header, what the earlier steps did, the
    line announcing the step and what the step did before raising. *)
Theorem wizard_run_stops_at_raising_step :
  forall (V : Type) (self : Wizard.t V) (pre post : list (string * step V))
         (name : string) (fn : step V) (e : exn) (w w1 w2 : world)
         (d1 : dict V) (t1 t2 : list event),
    Wizard.steps self = (pre ++ (name, fn) :: post)%list ->
    Wizard.run_steps (len (Wizard.steps self)) (enumerate pre) (Wizard.results self) w
    = (Return d1, w1, t1) ->
    fn d1 w1 = (Raise e, w2, t2) ->
    Wizard.run self w
    = (Raise e, w2,
       (wizard_header (Wizard.title self) ++ t1
        ++ [EvWrite (step_line (len pre) (len (Wizard.steps self)) name); EvWrite nl]
        ++ t2)%list).
Proof.
  intros V self pre post name fn e w w1 w2 d1 t1 t2 Hsteps Hpre Hfn.
  rewrite run_unfold. unfold enumerate in *.
  rewrite Hsteps at 2. rewrite enumerate_from_app, run_steps_app.
  rewrite (bind_return _ _ _ _ _ _ Hpre).
  cbn [enumerate_from Wizard.run_steps]. rewrite py_print_then.
  rewrite (bind_raise _ _ _ _ _ _ Hfn). reflexivity.
Qed.

(** X19: the wizard runs its steps strictly in order: running the steps
    [steps ++ more] is running [steps] and then, from the mapping and the
    input they leave, running [more] with the numbering carried on.  If
    the first part raises, the second does not start. *)
Theorem wizard_steps_compose :
  forall (V : Type) (total : Z) (steps more : list (string * step V))
         (d : dict V) (w : world),
    Wizard.run_steps total (enumerate (steps ++ more)) d w
    = bind (Wizard.run_steps total (enumerate steps) d)
           (Wizard.run_steps total (enumerate_from (len steps) more)) w.
Proof.
  intros V total steps more d w. unfold enumerate.
  rewrite enumerate_from_app. apply run_steps_app.
Qed.

(** X20: the retry loop of [multi_select] settles on the first line it
    accepts.  A line is answered with a diagnostic when it is empty while
    [min_select] is not [0], when one of its tokens is not a number, or
    when the selection it yields is outside the bounds; it is accepted
    when it is empty and [min_select] is [0], or when its tokens are
    numbers and the selection is within the bounds.  After lines of the
    first kind and one of the second, [multi_select] returns that line's
    selection and has consumed the input up to and including it. *)
Theorem multi_select_returns_first_accepted_line :
  forall {builtins : PyBuiltins} (V : Type) (message : string)
         (choices : list (Choice V)) (min_select : Z) (max_select : option Z)
         (selected : list V) (rejected : list string) (accepted : string)
         (rest secret : list string) (fuel : nat),
    Forall (fun raw => multi_rejects choices min_select max_select (rstrip nl raw))
           rejected ->
    multi_accepts choices min_select max_select (rstrip nl accepted) selected ->
    (List.length rejected < fuel)%nat ->
    result (Prompt.multi_select message choices min_select max_select fuel
              (mkWorld (rejected ++ accepted :: rest) secret))
    = Return selected
    /\ remaining (Prompt.multi_select message choices min_select max_select fuel
                    (mkWorld (rejected ++ accepted :: rest) secret))
       = mkWorld rest secret.
Proof.
  intros builtins V message choices min_select max_select selected rejected
         accepted rest secret fuel Hrej Hacc.
  destruct (multi_select_unfold message choices min_select max_select)
    as [header Hsel].
  intros Hfuel. rewrite Hsel. cbv zeta.
  unfold result at 1, remaining at 1. cbn [fst snd].
  revert fuel Hfuel.
  induction Hrej as [|raw rejected Hraw _ IH]; intros fuel Hfuel.
  - destruct fuel as [|fuel]; [inversion Hfuel|].
    rewrite while_true_step. simpl app.
    rewrite (multi_select_attempt_accepts choices min_select max_select selected
               (mkWorld (accepted :: rest) secret) Hacc).
    split; reflexivity.
  - destruct fuel as [|fuel]; [inversion Hfuel|].
    assert (Hfuel' : (List.length rejected < fuel)%nat) by (simpl in Hfuel; lia).
    destruct (IH fuel Hfuel') as [Hres Hrem].
    rewrite while_true_step.
    destruct (multi_select_attempt_rejects choices min_select max_select
                (mkWorld ((raw :: rejected) ++ accepted :: rest) secret) Hraw)
      as [d Hd].
    rewrite Hd.
    change (advance (mkWorld ((raw :: rejected) ++ accepted :: rest) secret))
      with (mkWorld (rejected ++ accepted :: rest) secret).
    split; [exact Hres|exact Hrem].
Qed.

(** ** Worked examples for the wizard *)

Example rule_is_forty_signs : String.length rule = 40%nat.
Proof. reflexivity. Qed.

Example wizard_runs_its_steps :
  Wizard.run (Wizard.add_step
                (Wizard.add_step (Wizard.init "Setup") "name"
                   (fun results => name <- Prompt.text "Name" "" None false 1 ;;
                                   ret (name, results)))
                "again"
                (fun results => ret (match dict_get "name" results with
                                     | Some name => name
                                     | None => ""
                                     end, results)))
             (typing ["Ann"])
  = (Return (Wizard.mk "Setup"
               (Wizard.steps
                  (Wizard.add_step
                     (Wizard.add_step (Wizard.init "Setup") "name"
                        (fun results => name <- Prompt.text "Name" "" None false 1 ;;
                                        ret (name, results)))
                     "again"
                     (fun results => ret (match dict_get "name" results with
                                          | Some name => name
                                          | None => ""
                                          end, results))))
               [("name", "Ann"); ("again", "Ann")]),
     typing [],
     (wizard_header "Setup"
      ++ [EvWrite "Step 1/2: name"; EvWrite nl;
          EvWrite "Name: "; EvRead ("Ann" ++ nl); EvWrite nl;
          EvWrite "Step 2/2: again"; EvWrite nl; EvWrite nl]
      ++ wizard_footer)%list).
Proof. reflexivity. Qed.

(** The reference builtins at the edges of what the interpreter takes. *)
Example int_refuses_separator_characters :
  Ref.int_of_str (String (ascii_of_nat 28) "5") = None
  /\ Ref.float_of_str (String (ascii_of_nat 31) "5") = None
  /\ Ref.int_of_str (String (ascii_of_nat 11) ("5" ++ nl)) = Some 5
  /\ Ref.int_of_str (strip (String (ascii_of_nat 28) "5")) = Some 5.
Proof. repeat split; reflexivity. Qed.

Example re_compile_refusals :
  Ref.Regex.re_compile "[z-a]" = None
  /\ Ref.Regex.re_compile "^*" = None
  /\ Ref.Regex.re_compile "a**" = None
  /\ Ref.Regex.re_compile "a{2,1}" = None.
Proof. repeat split; reflexivity. Qed.

Example re_escaped_classes :
  option_map (fun r => Ref.Regex.re_match r "12a") (Ref.Regex.re_compile "\d+")
  = Some (Some 2%nat)
  /\ option_map (fun r => Ref.Regex.re_match r "a_1 b") (Ref.Regex.re_compile "[\w]+\s")
     = Some (Some 4%nat)
  /\ option_map (fun r => Ref.Regex.re_match r "12") (Ref.Regex.re_compile "\D+")
     = Some None.
Proof. repeat split; reflexivity. Qed.

(** ** The further properties at concrete inputs *)

Lemma read_strips_trailing_newlines_witness :
  stream_in (typing []) = []
  /\ Prompt._read (typing []) = (Return "", typing [], [EvRead ""]).
Proof.
  split; [reflexivity|].
  destruct (read_strips_trailing_newlines (typing []))
    as [value [n [Hrun [_ [_ Hend]]]]].
  destruct (Hend eq_refl) as [Hvalue _]. rewrite Hrun, Hvalue. reflexivity.
Defined.

Lemma validator_chain_short_circuits_witness :
  chain_rejects [Validator.required; Validator.min_length 3] ""
                "This field is required"
  /\ chain_accepts [Validator.required; Validator.min_length 3] "Ann"
  /\ Prompt.run_validators [Validator.required; Validator.min_length 3] "" (typing [])
     = (Return false, typing [], [EvWrite (diagnostic "This field is required")])
  /\ pure (Prompt.run_validators [Validator.required; Validator.min_length 3] "Ann") true.
Proof.
  assert (Hno : chain_rejects [Validator.required; Validator.min_length 3] ""
                              "This field is required").
  { exists [], Validator.required, [Validator.min_length 3].
    split; [reflexivity|]. split; [constructor|]. apply rejects_required. reflexivity. }
  assert (Hok : chain_accepts [Validator.required; Validator.min_length 3] "Ann").
  { constructor; [apply accepts_required; reflexivity|].
    constructor; [|constructor].
    exists passed. split; [apply pure_ret|reflexivity]. }
  split; [exact Hno|]. split; [exact Hok|]. split.
  - exact (proj2 (validator_chain_short_circuits
                    [Validator.required; Validator.min_length 3] "")
                 "This field is required" Hno (typing [])).
  - exact (proj1 (validator_chain_short_circuits
                    [Validator.required; Validator.min_length 3] "Ann") Hok).
Defined.

Lemma text_returns_only_validated_values_witness :
  Forall pure_validator (Prompt.or_empty (Some [Validator.required]))
  /\ result (Prompt.text "Name" "" (Some [Validator.required]) false 3
                         (typing [""; "Ann"])) = Return "Ann"
  /\ chain_accepts (Prompt.or_empty (Some [Validator.required])) "Ann".
Proof.
  assert (Hpure : Forall pure_validator (Prompt.or_empty (Some [Validator.required]))).
  { constructor; [|constructor]. intros value. apply required_pure. }
  assert (Hres : result (Prompt.text "Name" "" (Some [Validator.required]) false 3
                                     (typing [""; "Ann"])) = Return "Ann")
    by reflexivity.
  split; [exact Hpure|]. split; [exact Hres|].
  exact (proj1 (text_returns_only_validated_values "Name" ""
                  (Some [Validator.required]) false 3 (typing [""; "Ann"]) "Ann"
                  Hpure Hres)).
Defined.

Lemma text_returns_first_accepted_line_witness :
  Forall (fun raw => exists msg,
            chain_rejects (Prompt.or_empty (Some [Validator.required]))
                          (or_default "" (rstrip nl raw)) msg) [nl; "  " ++ nl]
  /\ chain_accepts (Prompt.or_empty (Some [Validator.required]))
                   (or_default "" (rstrip nl ("Ann" ++ nl)))
  /\ result (Prompt.text "Name" "" (Some [Validator.required]) false 3
               (mkWorld ([nl; "  " ++ nl] ++ ("Ann" ++ nl) :: ["Bob" ++ nl]) []))
     = Return "Ann"
  /\ remaining (Prompt.text "Name" "" (Some [Validator.required]) false 3
                  (mkWorld ([nl; "  " ++ nl] ++ ("Ann" ++ nl) :: ["Bob" ++ nl]) []))
     = mkWorld ["Bob" ++ nl] [].
Proof.
  assert (Hreject : forall value, blank value = true ->
            exists msg, chain_rejects (Prompt.or_empty (Some [Validator.required]))
                                      value msg).
  { intros value Hb. exists "This field is required".
    exists [], Validator.required, []. split; [reflexivity|]. split; [constructor|].
    apply rejects_required. exact Hb. }
  assert (Hrej : Forall (fun raw => exists msg,
            chain_rejects (Prompt.or_empty (Some [Validator.required]))
                          (or_default "" (rstrip nl raw)) msg) [nl; "  " ++ nl]).
  { constructor; [apply Hreject; reflexivity|].
    constructor; [apply Hreject; reflexivity|constructor]. }
  assert (Hacc : chain_accepts (Prompt.or_empty (Some [Validator.required]))
                               (or_default "" (rstrip nl ("Ann" ++ nl)))).
  { constructor; [apply accepts_required; reflexivity|constructor]. }
  split; [exact Hrej|]. split; [exact Hacc|].
  destruct (text_returns_first_accepted_line "Name" "" (Some [Validator.required])
              [nl; "  " ++ nl] ("Ann" ++ nl) ["Bob" ++ nl] [] 3 Hrej Hacc)
    as [Hres [Hrem _]].
  - simpl. lia.
  - split; [exact Hres|exact Hrem].
Defined.

Lemma text_at_end_of_input_witness :
  chain_rejects (Prompt.or_empty (Some [Validator.required])) (or_default "" "")
                "This field is required"
  /\ Prompt.text "Name" "" (Some [Validator.required]) false 2 (mkWorld [] [])
     = (Pending, mkWorld [] [],
        [EvWrite "Name: "; EvRead ""; EvWrite (diagnostic "This field is required");
         EvWrite "Name: "; EvRead ""; EvWrite (diagnostic "This field is required")])
  /\ chain_accepts (Prompt.or_empty None) (or_default "guest" "")
  /\ Prompt.text "Name" "guest" None false 1 (mkWorld [] [])
     = (Return "guest", mkWorld [] [], [EvWrite "Name [guest]: "; EvRead ""]).
Proof.
  assert (Hno : chain_rejects (Prompt.or_empty (Some [Validator.required]))
                              (or_default "" "") "This field is required").
  { exists [], Validator.required, []. split; [reflexivity|]. split; [constructor|].
    apply rejects_required. reflexivity. }
  assert (Hok : chain_accepts (Prompt.or_empty None) (or_default "guest" ""))
    by constructor.
  split; [exact Hno|]. split; [|split; [exact Hok|]].
  - exact (proj1 (text_at_end_of_input "Name" "" (Some [Validator.required]) [] [])
                 "This field is required" Hno 2%nat).
  - exact (proj1 (proj2 (text_at_end_of_input "Name" "guest" None [] [])) Hok 0%nat).
Defined.

Lemma select_returns_a_choice_witness :
  result (Prompt.select (builtins := ref_builtins) "Pick" abc_choices 0 2
                        (typing ["3"; "2"])) = Return "b"
  /\ exists choice t0 e,
       trace (Prompt.select (builtins := ref_builtins) "Pick" abc_choices 0 2
                            (typing ["3"; "2"]))
       = (t0 ++ [EvWrite (select_prompt abc_choices); e])%list
       /\ is_input e = true
       /\ In choice abc_choices
       /\ "b" = value choice
       /\ ((input_value e = "" /\ item_at abc_choices 0 = Some choice)
           \/ (input_value e <> ""
               /\ selected_by (H := ref_builtins) abc_choices (input_value e)
                  = Some choice
               /\ disabled choice = false)).
Proof.
  split; [reflexivity|].
  exact (select_returns_a_choice (builtins := ref_builtins) string "Pick" abc_choices
           0 2 (typing ["3"; "2"]) "b" eq_refl).
Defined.

Lemma select_returns_first_selecting_line_witness :
  Forall (fun raw => rstrip nl raw <> ""
                     /\ selected_by (H := ref_builtins) abc_choices (rstrip nl raw)
                        = None)
         ["x" ++ nl; "3" ++ nl; "7" ++ nl]
  /\ (if truthy (rstrip nl ("2" ++ nl))
      then selected_by (H := ref_builtins) abc_choices (rstrip nl ("2" ++ nl))
      else item_at abc_choices 0) = Some (mkChoice "b" "B" false "")
  /\ result (Prompt.select (builtins := ref_builtins) "Pick" abc_choices 0 4
               (mkWorld (["x" ++ nl; "3" ++ nl; "7" ++ nl] ++ ("2" ++ nl) :: []) []))
     = Return "b".
Proof.
  assert (Hrej : Forall (fun raw => rstrip nl raw <> ""
                     /\ selected_by (H := ref_builtins) abc_choices (rstrip nl raw)
                        = None)
                   ["x" ++ nl; "3" ++ nl; "7" ++ nl]).
  { repeat constructor; discriminate. }
  split; [exact Hrej|]. split; [reflexivity|].
  refine (proj1 (select_returns_first_selecting_line (builtins := ref_builtins) string
                   "Pick" abc_choices 0 (mkChoice "b" "B" false "")
                   ["x" ++ nl; "3" ++ nl; "7" ++ nl] ("2" ++ nl) [] [] 4
                   Hrej eq_refl _)).
  simpl. lia.
Defined.

Lemma select_default_index_edges_witness :
  next_value (typing [""]) = ""
  /\ - len abc_choices <= -1 < 0
  /\ result (Prompt.select (builtins := ref_builtins) "Pick" abc_choices (-1) 1
                           (typing [""])) = Return "c"
  /\ (3 < - len abc_choices \/ len abc_choices <= 3)
  /\ result (Prompt.select (builtins := ref_builtins) "Pick" abc_choices 3 1
                           (typing [""])) = Raise IndexError.
Proof.
  assert (Hneg : - len abc_choices <= -1 < 0) by (split; discriminate || reflexivity).
  assert (Hout : 3 < - len abc_choices \/ len abc_choices <= 3)
    by (right; discriminate).
  split; [reflexivity|]. split; [exact Hneg|]. split; [|split; [exact Hout|]].
  - destruct (proj1 (select_default_index_edges (builtins := ref_builtins) string
                       "Pick" abc_choices (-1) 0 (typing [""]) eq_refl) Hneg)
      as [choice [Hnth Hres]].
    injection Hnth as <-. exact Hres.
  - exact (proj1 (proj2 (select_default_index_edges (builtins := ref_builtins) string
                           "Pick" abc_choices 3 0 (typing [""]) eq_refl) Hout)).
Defined.

Lemma multi_select_returns_enabled_within_bounds_witness :
  result (Prompt.multi_select (builtins := ref_builtins) "Pick" abc_choices 1 (Some 2) 2
                              (typing ["3"; "1,3,2"])) = Return ["a"; "b"]
  /\ Forall (enabled_value abc_choices) ["a"; "b"]
  /\ 1 <= len ["a"; "b"]
  /\ (forall k, Some 2 = Some k -> 0 < k -> len ["a"; "b"] <= k).
Proof.
  split; [reflexivity|].
  exact (multi_select_returns_enabled_within_bounds (builtins := ref_builtins) string
           "Pick" abc_choices 1 (Some 2) 2 (typing ["3"; "1,3,2"]) ["a"; "b"] eq_refl).
Defined.

Lemma multi_select_at_end_of_input_witness :
  result (Prompt.multi_select (builtins := ref_builtins) "Pick" abc_choices 0 None 1
                              (mkWorld [] [])) = Return []
  /\ 1 <> 0
  /\ result (Prompt.multi_select (builtins := ref_builtins) "Pick" abc_choices 1 None 7
                                 (mkWorld [] [])) = Pending.
Proof.
  assert (Hne : 1 <> 0) by discriminate.
  split; [|split; [exact Hne|]].
  - exact (proj1 (multi_select_at_end_of_input (builtins := ref_builtins) string "Pick"
                    abc_choices 0 None []) eq_refl 0%nat).
  - exact (proj1 (proj2 (multi_select_at_end_of_input (builtins := ref_builtins) string
                           "Pick" abc_choices 1 None []) Hne 7%nat)).
Defined.

Lemma multi_select_returns_first_accepted_line_witness :
  Forall (fun raw => multi_rejects (H := ref_builtins) abc_choices 1 (Some 2)
                                   (rstrip nl raw))
         [nl; "1,x" ++ nl; "3" ++ nl]
  /\ multi_accepts (H := ref_builtins) abc_choices 1 (Some 2)
                   (rstrip nl ("2, 2" ++ nl)) ["b"; "b"]
  /\ result (Prompt.multi_select (builtins := ref_builtins) "Pick" abc_choices 1
               (Some 2) 4
               (mkWorld ([nl; "1,x" ++ nl; "3" ++ nl] ++ ("2, 2" ++ nl) :: []) []))
     = Return ["b"; "b"].
Proof.
  assert (Hrej : Forall (fun raw => multi_rejects (H := ref_builtins) abc_choices 1
                                      (Some 2) (rstrip nl raw))
                        [nl; "1,x" ++ nl; "3" ++ nl]).
  { constructor; [left; split; [reflexivity|discriminate]|].
    constructor.
    { right. split; [discriminate|]. left.
      apply Exists_cons_tl. apply Exists_cons_hd. reflexivity. }
    constructor; [|constructor].
    right. split; [discriminate|]. right. exists [3].
    split; [repeat constructor|].
    intros [Hmin _]. revert Hmin. discriminate || (intros Hmin; apply Hmin; reflexivity). }
  assert (Hacc : multi_accepts (H := ref_builtins) abc_choices 1 (Some 2)
                               (rstrip nl ("2, 2" ++ nl)) ["b"; "b"]).
  { right. split; [discriminate|]. exists [2; 2].
    split; [repeat constructor|]. split; [reflexivity|].
    split; [discriminate|]. intros k Hk. injection Hk as <-. right. discriminate. }
  split; [exact Hrej|]. split; [exact Hacc|].
  refine (proj1 (multi_select_returns_first_accepted_line (builtins := ref_builtins)
                   string "Pick" abc_choices 1 (Some 2) ["b"; "b"]
                   [nl; "1,x" ++ nl; "3" ++ nl] ("2, 2" ++ nl) [] [] 4 Hrej Hacc _)).
  simpl. lia.
Defined.

Lemma autocomplete_returns_only_validated_values_witness :
  Forall pure_validator (Prompt.or_empty (Some [Validator.required]))
  /\ result (Prompt.autocomplete "City" ["Paris"; "Prague"] (Some [Validator.required])
               3 (typing ["P" ++ tab; ""; "Paris"])) = Return "Paris"
  /\ endswith "Paris" tab = false
  /\ chain_accepts (Prompt.or_empty (Some [Validator.required])) "Paris".
Proof.
  assert (Hpure : Forall pure_validator (Prompt.or_empty (Some [Validator.required]))).
  { constructor; [|constructor]. intros value. apply required_pure. }
  split; [exact Hpure|]. split; [reflexivity|].
  destruct (autocomplete_returns_only_validated_values "City" ["Paris"; "Prague"]
              (Some [Validator.required]) 3 (typing ["P" ++ tab; ""; "Paris"]) "Paris"
              Hpure eq_refl) as [Htab [Hok _]].
  split; [exact Htab|exact Hok].
Defined.

Lemma autocomplete_request_skips_validation_witness :
  endswith (next_value (typing ["P" ++ tab ++ tab])) tab = true
  /\ Prompt.autocomplete_attempt "City" ["Paris"; "Rome"; "Prague"]
       [Validator.required] (typing ["P" ++ tab ++ tab])
     = (Return None, typing [],
        [EvWrite "City (tab for suggestions): "; EvRead ("P" ++ tab ++ tab ++ nl);
         EvWrite ("  Suggestions: Paris, Prague" ++ nl)]).
Proof.
  split; [reflexivity|].
  exact (proj1 (autocomplete_request_skips_validation "City" ["Paris"; "Rome"; "Prague"]
                  [Validator.required] (typing ["P" ++ tab ++ tab]) eq_refl)).
Defined.

Lemma every_read_is_prompted_witness :
  Forall pure_validator (Prompt.or_empty (Some [Validator.required]))
  /\ reads_prompted (text_prompt "Name" "") false
       (trace (Prompt.text "Name" "" (Some [Validator.required]) false 3
                           (typing [""; "Ann"]))) = true
  /\ reads_prompted (autocomplete_prompt "City") false
       (trace (Prompt.autocomplete "City" ["Paris"] (Some [Validator.required]) 3
                                   (typing ["P" ++ tab; "Paris"]))) = true.
Proof.
  assert (Hpure : Forall pure_validator (Prompt.or_empty (Some [Validator.required]))).
  { constructor; [|constructor]. intros value. apply required_pure. }
  destruct (every_read_is_prompted (builtins := ref_builtins))
    as [Htext [_ [_ Hauto]]].
  split; [exact Hpure|]. split; [apply Htext|apply Hauto]; exact Hpure.
Defined.

Lemma confirm_accepts_case_variants_witness :
  next_value (typing ["YeS"]) <> ""
  /\ result (Prompt.confirm "Continue?" false (typing ["YeS"])) = Return true
  /\ next_value (typing [" y"]) <> ""
  /\ result (Prompt.confirm "Continue?" true (typing [" y"])) = Return false.
Proof.
  assert (H1 : next_value (typing ["YeS"]) <> "") by discriminate.
  assert (H2 : next_value (typing [" y"]) <> "") by discriminate.
  split; [exact H1|]. split; [|split; [exact H2|]].
  - exact (confirm_accepts_case_variants "Continue?" false (typing ["YeS"]) H1).
  - exact (confirm_accepts_case_variants "Continue?" true (typing [" y"]) H2).
Defined.

Lemma length_validators_bound_witness :
  2 <= len_str "abc" <= 4
  /\ chain_accepts [Validator.min_length 2; Validator.max_length 4] "abc"
  /\ len_str "a" < 2
  /\ chain_rejects [Validator.min_length 2; Validator.max_length 4] "a"
                   "Minimum length is 2"
  /\ chain_rejects [Validator.min_length 2; Validator.max_length 4] "abcde"
                   "Maximum length is 4".
Proof.
  assert (Hin : 2 <= len_str "abc" <= 4) by (split; discriminate).
  assert (Hshort : len_str "a" < 2) by reflexivity.
  split; [exact Hin|]. split; [|split; [exact Hshort|split]].
  - exact (proj2 (proj1 (length_validators_bound 2 4 "abc")) Hin).
  - exact (proj1 (proj2 (length_validators_bound 2 4 "a")) Hshort).
  - refine (proj2 (proj2 (length_validators_bound 2 4 "abcde")) _ _).
    + discriminate.
    + reflexivity.
Defined.

Lemma wizard_run_records_every_step_witness :
  Forall (fun s => reads_only (snd s))
         (Wizard.steps (Wizard.mk "Setup" [("name", answer_step "Ann");
                                           ("city", answer_step "Rome");
                                           ("name", answer_step "Bob")]
                                  [("lang", "en")]))
  /\ result (Wizard.run (Wizard.mk "Setup" [("name", answer_step "Ann");
                                            ("city", answer_step "Rome");
                                            ("name", answer_step "Bob")]
                                   [("lang", "en")]) (typing []))
     = Return (Wizard.mk "Setup" [("name", answer_step "Ann");
                                  ("city", answer_step "Rome");
                                  ("name", answer_step "Bob")]
                         [("lang", "en"); ("name", "Bob"); ("city", "Rome")])
  /\ keys [("lang", "en"); ("name", "Bob"); ("city", "Rome")]
     = fold_left (fun ks name => add_key name ks) ["name"; "city"; "name"] ["lang"].
Proof.
  assert (Hro : Forall (fun s => reads_only (snd s))
                  (Wizard.steps (Wizard.mk "Setup" [("name", answer_step "Ann");
                                                    ("city", answer_step "Rome");
                                                    ("name", answer_step "Bob")]
                                           [("lang", "en")]))).
  { repeat constructor; intros d w r d' w' t Hrun; injection Hrun as _ <- _ _;
      reflexivity. }
  split; [exact Hro|]. split; [reflexivity|].
  exact (proj1 (proj2 (proj2
           (wizard_run_records_every_step string _ _ (typing []) Hro eq_refl)))).
Defined.

Lemma wizard_run_stops_at_raising_step_witness :
  Wizard.steps demo_wizard
  = ([("name", answer_step "Ann")] ++ ("secret", secret_step)
     :: [("name", answer_step "Bob")])%list
  /\ secret_step [("lang", "en"); ("name", "Ann")] (typing [])
     = (Raise EOFError, typing [], [EvWrite "Secret: "])
  /\ Wizard.run demo_wizard (typing [])
     = (Raise EOFError, typing [],
        (wizard_header "Setup"
         ++ [EvWrite "Step 1/3: name"; EvWrite nl; EvWrite nl]
         ++ [EvWrite "Step 2/3: secret"; EvWrite nl]
         ++ [EvWrite "Secret: "])%list).
Proof.
  split; [reflexivity|]. split; [reflexivity|].
  exact (wizard_run_stops_at_raising_step string demo_wizard
           [("name", answer_step "Ann")] [("name", answer_step "Bob")]
           "secret" secret_step EOFError (typing []) (typing []) (typing [])
           [("lang", "en"); ("name", "Ann")]
           [EvWrite "Step 1/3: name"; EvWrite nl; EvWrite nl] [EvWrite "Secret: "]
           eq_refl eq_refl eq_refl).
Defined.
